(** * memman: first-fit and buddy-system memory managers

    A shallow embedding of [ffit.c] and [buddy.c].  Machine integers are
    [Z] with the wrap-around written out, the managed region is a byte
    store addressed by host address.  An operation answers [None] when it
    gives no result: a loop that walks a linked list has used up its fuel,
    or an [assert] of the source has failed. *)

From Stdlib Require Import ZArith Lia List Bool.
Import ListNotations.
Local Open Scope Z_scope.

(** ** Machine integers and the byte store *)

Definition u8 (x : Z) : Z := x mod 2 ^ 8.
Definition u32 (x : Z) : Z := x mod 2 ^ 32.
(** [uintptr_t] and [size_t] are 64 bits wide. *)
Definition u64 (x : Z) : Z := x mod 2 ^ 64.

Definition NULL : Z := 0.

(** C's logical conjunction [a && b]. *)
Definition c_and (a b : Z) : Z :=
  if negb (a =? 0) && negb (b =? 0) then 1 else 0.

Definition mem := Z -> Z.

Definition load8 (m : mem) (a : Z) : Z := u8 (m a).

Definition store8 (m : mem) (a v : Z) : mem :=
  fun x => if x =? a then u8 v else m x.

(** 32-bit words are stored little-endian. *)
Definition load32 (m : mem) (a : Z) : Z :=
  load8 m a + 2 ^ 8 * load8 m (a + 1) + 2 ^ 16 * load8 m (a + 2)
  + 2 ^ 24 * load8 m (a + 3).

Definition store32 (m : mem) (a v : Z) : mem :=
  store8 (store8 (store8 (store8 m a v) (a + 1) (Z.shiftr v 8))
                 (a + 2) (Z.shiftr v 16))
         (a + 3) (Z.shiftr v 24).

Definition memset (m : mem) (a c n : Z) : mem :=
  fun x => if (a <=? x) && (x <? a + n) then u8 c else m x.

Definition memcpy (m : mem) (dst src n : Z) : mem :=
  fun x => if (dst <=? x) && (x <? dst + n) then m (src + (x - dst)) else m x.

(** The caller writing [bs] into a block it owns, starting at [a]. *)
Fixpoint store_bytes (m : mem) (a : Z) (bs : list Z) : mem :=
  match bs with
  | [] => m
  | b :: bs' => store_bytes (store8 m a b) (a + 1) bs'
  end.

Fixpoint load_bytes (m : mem) (a : Z) (n : nat) : list Z :=
  match n with
  | O => []
  | S n' => load8 m a :: load_bytes m (a + 1) n'
  end.

Definition obind {A B : Type} (x : option A) (f : A -> option B) : option B :=
  match x with
  | Some a => f a
  | None => None
  end.

Notation "x <- c ;; k" := (obind c (fun x => k))
  (at level 61, c at next level, right associativity).
Notation "' p <- c ;; k" := (obind c (fun x => let 'p := x in k))
  (at level 61, p pattern, c at next level, right associativity).

(** [assert(c)]: no result when [c] is false. *)
Definition c_assert (c : bool) : option unit := if c then Some tt else None.

(** ** First fit (ffit.c) *)

Module ffit.

Definition MINSIZE : Z := 32.
Definition NOBLOCK : Z := 0xffffffff.
Definition NOTFOUND : Z := 4.

Record ffit_heap_t := mkheap {
  mh : Z;     (* heap address *)
  hs : Z;     (* heap size *)
  first : Z;  (* available list first *)
  last : Z    (* available list last *)
}.

Definition heap_t := ffit_heap_t.

Definition set_first (h : heap_t) (v : Z) : heap_t :=
  mkheap (mh h) (hs h) v (last h).
Definition set_last (h : heap_t) (v : Z) : heap_t :=
  mkheap (mh h) (hs h) (first h) v.

Definition block2ptr (mh add : Z) : Z :=
  if add =? NOBLOCK then NULL else u64 (add + mh).

Definition ptr2block (mh ptr : Z) : Z :=
  if ptr =? NULL then NOBLOCK else u32 (u64 (ptr - mh)).

Definition getsize (sz : Z) : Z := Z.shiftr sz 1.
Definition setsize (sz : Z) : Z := u32 (Z.shiftl sz 1).
Definition gettag (sz : Z) : Z := u8 (Z.land sz 1).

(** The fields of [block_t], at a host pointer [b]. *)
Definition sze (m : mem) (b : Z) : Z := load32 m b.
Definition nxt (m : mem) (b : Z) : Z := load32 m (b + 4).
Definition prv (m : mem) (b : Z) : Z := load32 m (b + 8).
Definition set_sze (m : mem) (b v : Z) : mem := store32 m b v.
Definition set_nxt (m : mem) (b v : Z) : mem := store32 m (b + 4) v.
Definition set_prv (m : mem) (b v : Z) : mem := store32 m (b + 8) v.

Definition P2B (h : heap_t) (n : Z) : Z := ptr2block (mh h) n.
Definition B2P (h : heap_t) (n : Z) : Z := block2ptr (mh h) n.
Definition REFBLOCK (h : heap_t) (n : Z) : Z := block2ptr (mh h) n.

Definition tag (m : mem) (b : Z) : mem :=
  let s := Z.shiftr (sze m b) 1 in
  let m := set_sze m b (Z.lor (sze m b) 1) in
  store8 m (b + s - 1) 1.

Definition untag (m : mem) (b : Z) : mem :=
  let s := Z.shiftr (sze m b) 1 in
  let m := if Z.land (sze m b) 1 =? 1
           then set_sze m b (Z.land 0xffffffff (Z.lxor (sze m b) 1))
           else m in
  store8 m (b + s - 1) 0.

(** [tagged] is written with [&&], not [&]. *)
Definition tagged (m : mem) (w : Z) : bool :=
  c_and (load8 m w) (u8 1) =? 1.

Definition bremove (h : heap_t) (m : mem) (p : Z) : heap_t * mem :=
  let '(h, m) :=
    if negb (prv m p =? NOBLOCK)
    then (h, set_nxt m (REFBLOCK h (prv m p)) (nxt m p))
    else (set_first h (nxt m p), m) in
  if negb (nxt m p =? NOBLOCK)
  then (h, set_prv m (REFBLOCK h (nxt m p)) (prv m p))
  else (set_last h (prv m p), m).

Definition binsert (h : heap_t) (m : mem) (p q : Z) : heap_t * mem :=
  let '(h, m) :=
    if negb (prv m p =? NOBLOCK)
    then (h, set_nxt m (REFBLOCK h (prv m p)) (P2B h q))
    else (set_first h (P2B h q), m) in
  let m := set_prv m q (prv m p) in
  let m := set_prv m p (P2B h q) in
  let m := set_nxt m q (P2B h p) in
  (h, m).

(** The loop of [bfind]: [b] is the current block, [a] its address. *)
Fixpoint bfind_loop (fuel : nat) (h : heap_t) (m : mem) (end_ b a : Z)
  : option Z :=
  match fuel with
  | O => None
  | S fuel' =>
      if b =? NULL then Some NULL
      else
        let s := getsize (sze m b) in
        if u32 (a + s) =? end_ then Some b
        else
          let a := nxt m b in
          bfind_loop fuel' h m end_ (B2P h a) a
  end.

Definition bfind (fuel : nat) (h : heap_t) (m : mem) (end_ : Z) : option Z :=
  bfind_loop fuel h m end_ (B2P h (first h)) (first h).

Fixpoint binssort_loop (fuel : nat) (h : heap_t) (m : mem) (b s p : Z)
  : option (heap_t * mem) :=
  match fuel with
  | O => None
  | S fuel' =>
      let sz := getsize (sze m p) in
      if s <=? sz then Some (binsert h m p b)
      else if nxt m p =? NOBLOCK then
        let m := set_nxt m p (P2B h b) in
        let m := set_prv m b (P2B h p) in
        let m := set_nxt m b NOBLOCK in
        Some (set_last h (nxt m p), m)
      else binssort_loop fuel' h m b s (B2P h (nxt m p))
  end.

Definition binssort (fuel : nat) (h : heap_t) (m : mem) (b : Z)
  : option (heap_t * mem) :=
  if first h =? NOBLOCK then
    let h := set_first h (P2B h b) in
    let h := set_last h (first h) in
    let m := set_nxt m b NOBLOCK in
    let m := set_prv m b NOBLOCK in
    Some (h, m)
  else
    binssort_loop fuel h m b (getsize (sze m b)) (B2P h (first h)).

Definition breplace (fuel : nat) (h : heap_t) (m : mem) (p q : Z)
  : option (heap_t * mem) :=
  let '(h, m) := bremove h m p in
  binssort fuel h m q.

Fixpoint getblock_loop (fuel lf : nat) (h : heap_t) (m : mem) (sz p : Z)
  : option (heap_t * mem * Z) :=
  match fuel with
  | O => None
  | S fuel' =>
      if p =? NULL then Some (h, m, NOBLOCK)
      else
        let s := getsize (sze m p) in
        if sz <=? s then
          '(h, m) <-
            (if u32 (sz + MINSIZE) <? s then
               let q := block2ptr (mh h) (u32 (ptr2block (mh h) p + sz)) in
               let m := set_sze m q (setsize (u32 (s - sz))) in
               let m := untag m q in
               let m := set_sze m p (setsize sz) in
               breplace lf h m p q
             else
               let m := set_sze m p (setsize (getsize (sze m p))) in
               Some (bremove h m p)) ;;
          let m := tag m p in
          Some (h, m, P2B h p)
        else getblock_loop fuel' lf h m sz (B2P h (nxt m p))
  end.

Definition getblock (fuel : nat) (h : heap_t) (m : mem) (sz : Z)
  : option (heap_t * mem * Z) :=
  getblock_loop fuel fuel h m sz (B2P h (first h)).

Definition freeblock (fuel : nat) (h : heap_t) (m : mem) (add : Z)
  : option (heap_t * mem * Z) :=
  let b := block2ptr (mh h) add in
  let s := getsize (sze m b) in
  let t := gettag (sze m b) in
  if t =? 0 then Some (h, m, NOTFOUND)
  else
    '(h, m, b, rc) <-
      (if (0 <? add) && negb (tagged m (block2ptr (mh h) (u32 (add - 1))))
       then
         p <- bfind fuel h m add ;;
         if p =? NULL then Some (h, m, b, -1)
         else
           let m := set_sze m p (setsize (u32 (getsize (sze m p) + s))) in
           let '(h, m) := bremove h m p in
           Some (h, m, p, 0)
       else Some (h, m, b, 0)) ;;
    if rc =? 0 then
      let q := block2ptr (mh h) (u32 (add + s)) in
      let '(h, m) :=
        if (u32 (add + s) <? hs h) && (gettag (sze m q) =? 0) then
          let ns := getsize (sze m q) in
          let m := set_sze m b (setsize (u32 (getsize (sze m b) + ns))) in
          bremove h m q
        else (h, m) in
      let m := untag m b in
      '(h, m) <- binssort fuel h m b ;;
      Some (h, m, rc)
    else Some (h, m, rc).

(** The blocks of an available list lie apart in a heap of [hs] bytes: a
    walk that needs more than [hs] steps is going in circles. *)
Definition list_fuel (h : heap_t) : nat := Z.to_nat (hs h).

Definition ffit_init (h : heap_t) (m : mem) : heap_t * mem * Z :=
  let h := set_first h 0 in
  let h := set_last h 0 in
  let b := mh h in
  if 32 <? hs h then
    let m := set_sze m b (setsize (u32 (hs h))) in
    let m := untag m b in
    let m := set_nxt m b NOBLOCK in
    let m := set_prv m b NOBLOCK in
    (h, m, 0)
  else (h, m, -1).

Definition ffit_get_block (h : heap_t) (m : mem) (sz : Z)
  : option (heap_t * mem * Z) :=
  if 0 <? sz then
    let s := u32 (u32 sz + 5) in
    let s := if s <? MINSIZE then MINSIZE else s in
    if s <? hs h then
      '(h, m, b) <- getblock (list_fuel h) h m s ;;
      if negb (b =? NOBLOCK) then Some (h, m, B2P h (u32 (b + 4)))
      else Some (h, m, NULL)
    else Some (h, m, NULL)
  else Some (h, m, NULL).

Definition ffit_free_block (h : heap_t) (m : mem) (ptr : Z)
  : option (heap_t * mem * Z) :=
  if (mh h <=? u64 (ptr - 4)) && (u64 (ptr + 5) <? u64 (mh h + hs h)) then
    let b := P2B h (u64 (ptr - 4)) in
    freeblock (list_fuel h) h m b
  else Some (h, m, 0).

(** The result is the heap, the store, the returned pointer and [*rc]. *)
Definition ffit_extend_block (h : heap_t) (m : mem) (ptr sz : Z)
  : option (heap_t * mem * Z * Z) :=
  if ptr =? NULL then
    '(h, m, ret) <- ffit_get_block h m sz ;;
    Some (h, m, ret, 0)
  else if sz =? 0 then
    '(h, m, rc) <- ffit_free_block h m ptr ;;
    Some (h, m, NULL, rc)
  else if u64 (mh h + hs h) <=? ptr then Some (h, m, NULL, 0)
  else
    let s := u32 (u32 sz + 5) in
    let s := if s <? MINSIZE then MINSIZE else s in
    if s <? hs h then
      let add := P2B h (u64 (ptr - 4)) in
      let b := B2P h add in
      let os := getsize (sze m b) in
      if os =? s then Some (h, m, ptr, 0)
      else
        '(h, m, ret) <- ffit_get_block h m s ;;
        if negb (ret =? NULL) then
          let k := u32 (if s <? os then sz else u32 (os - 5)) in
          let m := memcpy m (ret + 4) (ptr + 4) k in
          '(h, m, rc) <- ffit_free_block h m ptr ;;
          Some (h, m, ret, rc)
        else Some (h, m, ret, 0)
    else Some (h, m, NULL, 0).

End ffit.

(** ** Buddy system (buddy.c) *)

Module buddy.

Definition MINSIZE : Z := 8.
Definition NOTFOUND : Z := 4.
Definition INTERNAL : Z := -1.
Definition OK : Z := 0.
Definition NOBLOCK : Z := 0xffffffff.

Record buddy_heap_t := mkheap {
  mh : Z;     (* main heap address         (set by user) *)
  hs : Z;     (* overall heap size         (set by user) *)
  e : Z;      (* with emergency heap, 0/1  (set by user) *)
  eh : Z;     (* emergency heap *)
  ah : Z;     (* available lists *)
  sh : Z;     (* size area *)
  msize : Z;  (* size of main heap *)
  asize : Z;  (* size of available lists *)
  ssize : Z;  (* size of size area *)
  esize : Z;  (* size of emergency heap *)
  AMAX : Z;   (* max available list *)
  ffh : ffit.ffit_heap_t  (* emergency heap descriptor *)
}.

Definition set_ffh (h : buddy_heap_t) (f : ffit.ffit_heap_t) : buddy_heap_t :=
  mkheap (mh h) (hs h) (e h) (eh h) (ah h) (sh h) (msize h) (asize h)
         (ssize h) (esize h) (AMAX h) f.

Definition block2ptr (h : buddy_heap_t) (add : Z) : Z :=
  if add =? NOBLOCK then NULL else u64 (add + mh h).

Definition ptr2block (h : buddy_heap_t) (ptr : Z) : Z :=
  if ptr =? NULL then NOBLOCK else u32 (u64 (ptr - mh h)).

Definition block2size (add : Z) : Z := Z.shiftr add 3.

(** Modelled from the spec: [clz] is the compiler's [__builtin_clz], the
    number of leading zero bits of a 32-bit word, which is what makes
    [buddy_log2] the floor of the binary logarithm.  The builtin leaves
    [clz 0] undefined; 32 is taken here, which makes [buddy_log2 0] 255
    where the compiled code may answer anything. *)
Definition clz (n : Z) : Z := if n =? 0 then 32 else 31 - Z.log2 n.

Definition buddy_log2 (n : Z) : Z := u8 (8 * 4 - 1 - clz n).

Definition modpow2 (n d : Z) : Z := Z.land n (u32 (d - 1)).

Definition nextpow2 (sz : Z) : Z :=
  let sz := u32 (sz - 1) in
  let sz := Z.lor sz (Z.shiftr sz 1) in
  let sz := Z.lor sz (Z.shiftr sz 2) in
  let sz := Z.lor sz (Z.shiftr sz 4) in
  let sz := Z.lor sz (Z.shiftr sz 8) in
  let sz := Z.lor sz (Z.shiftr sz 16) in
  u32 (sz + 1).

Definition findbuddy (block s : Z) : Z :=
  let k := u32 (Z.shiftl 1 s) in
  if Z.land block (u32 (u32 (Z.shiftl k 1) - 1)) =? 0
  then u32 (block + k)
  else u32 (block - k).

(** *** Block size interface *)

Definition sh_get (h : buddy_heap_t) (m : mem) (y : Z) : Z :=
  load8 m (sh h + y).
Definition sh_set (h : buddy_heap_t) (m : mem) (y v : Z) : mem :=
  store8 m (sh h + y) v.

Definition init_size (h : buddy_heap_t) (m : mem) : mem :=
  memset m (sh h) 0 (ssize h).

Definition putsize (h : buddy_heap_t) (m : mem) (i c : Z) : mem :=
  let p := u32 (i * 6) in
  let y := p / 8 in
  let b := modpow2 p 8 in
  let m := sh_set h m y (Z.lor (sh_get h m y) (Z.shiftr (Z.shiftl c 2) b)) in
  sh_set h m (y + 1)
         (Z.lor (sh_get h m (y + 1)) (Z.shiftl (Z.shiftl c 2) (8 - b))).

Definition getsize (h : buddy_heap_t) (m : mem) (i : Z) : Z :=
  let p := u32 (i * 6) in
  let y := p / 8 in
  let b := modpow2 p 8 in
  let x := u8 (Z.shiftl (sh_get h m y) b) in
  let x := Z.lor x (Z.shiftr (sh_get h m (y + 1)) (8 - b)) in
  Z.shiftr x 2.

Definition erasesize (h : buddy_heap_t) (m : mem) (i : Z) : mem :=
  let p := u32 (i * 6) in
  let y := p / 8 in
  let b := modpow2 p 8 in
  if b =? 0 then
    sh_set h m y (Z.land (sh_get h m y) (Z.shiftr 0xff 6))
  else
    let m := sh_set h m y (Z.land (sh_get h m y) (Z.shiftl 0xff (8 - b))) in
    sh_set h m (y + 1) (Z.land (sh_get h m (y + 1)) (Z.shiftr 0xff (b - 2))).

(** *** Block list interface *)

(** The fields of [block_list_t], at a host pointer. *)
Definition nxt (m : mem) (p : Z) : Z := load32 m p.
Definition prv (m : mem) (p : Z) : Z := load32 m (p + 4).
Definition set_nxt (m : mem) (p v : Z) : mem := store32 m p v.
Definition set_prv (m : mem) (p v : Z) : mem := store32 m (p + 4) v.

Definition REFBLOCK (h : buddy_heap_t) (n : Z) : Z := block2ptr h n.

(** [h->ah[k]] *)
Definition ah_get (h : buddy_heap_t) (m : mem) (k : Z) : Z :=
  load32 m (ah h + 4 * k).
Definition ah_set (h : buddy_heap_t) (m : mem) (k v : Z) : mem :=
  store32 m (ah h + 4 * k) v.

Definition block_clean (h : buddy_heap_t) (m : mem) (add : Z) : mem :=
  memset m (block2ptr h add) 0xff 8.

Definition block_insert (h : buddy_heap_t) (m : mem) (list add : Z) : mem :=
  let tmp := block2ptr h add in
  let m := set_nxt m tmp list in
  let m := set_prv m tmp NOBLOCK in
  if negb (list =? NOBLOCK) then
    let tmp := block2ptr h list in
    set_prv m tmp add
  else m.

(** The walk shared by [block_remove] and [block_is_in]:
    [while (tmp != NULL && tmp->nxt != add) tmp = block2ptr(h, tmp->nxt);] *)
Fixpoint walk (fuel : nat) (h : buddy_heap_t) (m : mem) (add tmp : Z)
  : option Z :=
  match fuel with
  | O => None
  | S fuel' =>
      if negb (tmp =? NULL) && negb (nxt m tmp =? add)
      then walk fuel' h m add (block2ptr h (nxt m tmp))
      else Some tmp
  end.

(** The blocks of a list lie apart in a main heap of [msize] bytes: a
    walk that needs more than [msize] steps is going in circles. *)
Definition list_fuel (h : buddy_heap_t) : nat := Z.to_nat (msize h).

Definition block_remove (h : buddy_heap_t) (m : mem) (list add : Z)
  : option (mem * Z) :=
  let tmp := block2ptr h list in
  if list =? add then
    if negb (list =? NOBLOCK) then
      let head := nxt m tmp in
      Some (block_clean h m list, head)
    else Some (m, list)
  else
    tmp <- walk (list_fuel h) h m add tmp ;;
    if negb (tmp =? NULL) then
      let node := block2ptr h (nxt m tmp) in
      let m := set_nxt m tmp (nxt m node) in
      let m := if negb (nxt m node =? NOBLOCK)
               then set_prv m (REFBLOCK h (nxt m node)) (prv m node)
               else m in
      Some (block_clean h m (ptr2block h node), list)
    else Some (m, list).

Definition block_is_in (h : buddy_heap_t) (m : mem) (list add : Z)
  : option bool :=
  let tmp := block2ptr h list in
  if list =? add then Some true
  else
    tmp <- walk (list_fuel h) h m add tmp ;;
    Some (negb (tmp =? NULL)).

(** *** "High level" interface *)

(** [assert(h->ah[sz] < h->msize || h->ah[sz] == NOBLOCK)] *)
Definition ah_assert (h : buddy_heap_t) (m : mem) (sz : Z) : option unit :=
  c_assert ((ah_get h m sz <? msize h) || (ah_get h m sz =? NOBLOCK)).

Definition binsert (h : buddy_heap_t) (m : mem) (add sz : Z) : option mem :=
  let m := block_insert h m (ah_get h m sz) add in
  let m := ah_set h m sz add in
  _ <- ah_assert h m sz ;;
  Some m.

Definition bremove (h : buddy_heap_t) (m : mem) (add sz : Z) : option mem :=
  '(m, head) <- block_remove h m (ah_get h m sz) add ;;
  let m := ah_set h m sz head in
  _ <- ah_assert h m sz ;;
  Some m.

Definition bisin (h : buddy_heap_t) (m : mem) (add sz : Z) : option bool :=
  block_is_in h m (ah_get h m sz) add.

Definition bsplit (h : buddy_heap_t) (m : mem) (add sz : Z) : option mem :=
  m <- bremove h m add sz ;;
  let sz := u8 (sz - 1) in
  let s := u32 (Z.shiftl 1 sz) in
  m <- binsert h m (u32 (add + s)) sz ;;
  binsert h m add sz.

(** [for (s = sz; s < h->AMAX; s++)], at most [n] rounds left. *)
Fixpoint bjoin_loop (n : nat) (h : buddy_heap_t) (m : mem) (b s rc : Z)
  : option (mem * Z) :=
  match n with
  | O => Some (m, rc)
  | S n' =>
      if s <? AMAX h then
        let buddy := findbuddy b s in
        isin <- bisin h m buddy s ;;
        if isin : bool then
          m <- bremove h m buddy s ;;
          m <- (if negb (rc =? 0) then bremove h m b s else Some m) ;;
          let b := if b <? buddy then b else buddy in
          m <- binsert h m b (u8 (s + 1)) ;;
          let rc := if rc =? 0 then 1 else rc in
          bjoin_loop n' h m b (u8 (s + 1)) rc
        else Some (m, rc)
      else Some (m, rc)
  end.

Definition bjoin (h : buddy_heap_t) (m : mem) (add sz : Z)
  : option (mem * Z) :=
  bjoin_loop (Z.to_nat (AMAX h - sz)) h m add sz 0.

(** The dry run of [bextend]; the result is the [i] it stops at. *)
Fixpoint bextend_dry (n : nat) (h : buddy_heap_t) (m : mem) (b i s : Z)
  : option Z :=
  match n with
  | O => Some i
  | S n' =>
      if i <? s then
        let buddy := findbuddy b i in
        if buddy <? b then Some i
        else
          isin <- bisin h m buddy i ;;
          if negb isin then Some i
          else bextend_dry n' h m b (u8 (i + 1)) s
      else Some i
  end.

Fixpoint bextend_real (n : nat) (h : buddy_heap_t) (m : mem) (b i s : Z)
  : option mem :=
  match n with
  | O => Some m
  | S n' =>
      if i <? s then
        let buddy := findbuddy b i in
        m <- bremove h m buddy i ;;
        bextend_real n' h m b (u8 (i + 1)) s
      else Some m
  end.

Definition bextend (h : buddy_heap_t) (m : mem) (b c s : Z)
  : option (mem * Z) :=
  i <- bextend_dry (Z.to_nat (s - c)) h m b c s ;;
  if i =? s then
    m <- bextend_real (Z.to_nat (s - c)) h m b c s ;;
    let k := block2size b in
    let m := erasesize h m k in
    let m := putsize h m k s in
    Some (m, 1)
  else Some (m, 0).

(** The [while (cz > 0)] loop of [bshrink].  Next to the store it answers
    the blocks it has inserted, as (address, list index), in order. *)
Fixpoint bshrink_loop (fuel : nat) (h : buddy_heap_t) (m : mem) (b cz : Z)
  : option (mem * list (Z * Z)) :=
  match fuel with
  | O => None
  | S fuel' =>
      if 0 <? cz then
        let k := nextpow2 cz in
        let k := if negb (cz =? k) then Z.shiftr k 2 else k in
        m <- binsert h m b (buddy_log2 k) ;;
        '(m, log) <- bshrink_loop fuel' h m (u32 (b + k)) (u32 (cz - k)) ;;
        Some (m, (b, buddy_log2 k) :: log)
      else Some (m, [])
  end.

(** Every round of the loop takes at least one byte off [cz]. *)
Definition bshrink (h : buddy_heap_t) (m : mem) (b c s : Z)
  : option (mem * list (Z * Z)) :=
  let cz := u32 (Z.shiftl 1 c) in
  let sz := u32 (Z.shiftl 1 s) in
  let k := block2size b in
  let m := erasesize h m k in
  let m := putsize h m k s in
  let b := u32 (b + sz) in
  m <- binsert h m b s ;;
  let b1 := u32 (b + sz) in
  let cz := u32 (cz - u32 (Z.shiftl sz 1)) in
  '(m, log) <- bshrink_loop (S (Z.to_nat cz)) h m b1 cz ;;
  Some (m, (b, s) :: log).

(** *** malloc, free, realloc on the main heap *)

(** [for (i = s; i <= h->AMAX; i++)]: the first non-empty list. *)
Fixpoint getblock_find (n : nat) (h : buddy_heap_t) (m : mem) (i b : Z)
  : Z * Z :=
  match n with
  | O => (i, b)
  | S n' =>
      if i <=? AMAX h then
        if negb (ah_get h m i =? NOBLOCK) then (i, ah_get h m i)
        else getblock_find n' h m (u8 (i + 1)) b
      else (i, b)
  end.

(** [for (; i > s; i--)]: split down to the requested size. *)
Fixpoint getblock_split (n : nat) (h : buddy_heap_t) (m : mem) (i s b : Z)
  : option (mem * Z * Z) :=
  match n with
  | O => Some (m, i, b)
  | S n' =>
      if s <? i then
        let b := ah_get h m i in
        if b =? NOBLOCK then Some (m, i, b)
        else
          m <- bsplit h m b i ;;
          getblock_split n' h m (u8 (i - 1)) s b
      else Some (m, i, b)
  end.

Definition getblock (h : buddy_heap_t) (m : mem) (sz : Z) : option (mem * Z) :=
  let b := NOBLOCK in
  let s := buddy_log2 sz in
  let '(i, b) := getblock_find (Z.to_nat (AMAX h + 1 - s)) h m s b in
  '(m, i, b) <-
    (if i <=? AMAX h then getblock_split (Z.to_nat (i - s)) h m i s b
     else Some (m, i, b)) ;;
  if (i =? s) && negb (b =? NOBLOCK) then
    _ <- c_assert (getsize h m (block2size b) =? 0) ;;
    m <- bremove h m b s ;;
    let m := putsize h m (block2size b) s in
    Some (m, b)
  else Some (m, NOBLOCK).

Definition freeblock (h : buddy_heap_t) (m : mem) (block : Z)
  : option (mem * Z) :=
  if modpow2 block MINSIZE =? 0 then
    let s := getsize h m (block2size block) in
    if negb (s =? 0) then
      let m := erasesize h m (block2size block) in
      '(m, joined) <- bjoin h m block s ;;
      m <- (if joined =? 0 then binsert h m block s else Some m) ;;
      Some (m, OK)
    else Some (m, NOTFOUND)
  else Some (m, NOTFOUND).

(** The result is the store, the returned block and [*rc]. *)
Definition extendblock (h : buddy_heap_t) (m : mem) (b sz rc : Z)
  : option (mem * Z * Z) :=
  if negb (modpow2 b MINSIZE =? 0) then Some (m, NOBLOCK, NOTFOUND)
  else
    let cs := getsize h m (block2size b) in
    if cs =? 0 then Some (m, NOBLOCK, NOTFOUND)
    else
      let csz := u32 (Z.shiftl 1 cs) in
      if csz =? sz then Some (m, b, rc)
      else if csz <? sz then
        '(m, ext) <- bextend h m b cs (buddy_log2 sz) ;;
        if negb (ext =? 0) then Some (m, b, rc)
        else
          '(m, ret) <- getblock h m sz ;;
          if negb (ret =? NOBLOCK) then
            let m := memcpy m (block2ptr h ret) (block2ptr h b) csz in
            '(m, rc) <- freeblock h m b ;;
            _ <- c_assert (Z.land rc NOTFOUND =? 0) ;;
            _ <- c_assert (0 <=? rc) ;;
            Some (m, ret, OK)
          else Some (m, ret, rc)
      else
        '(m, _) <- bshrink h m b cs (buddy_log2 sz) ;;
        Some (m, b, rc).

(** *** Public interface *)

Definition init_avail (h : buddy_heap_t) (m : mem) : option mem :=
  let m := memset m (ah h) 0xff (asize h) in
  binsert h m 0 (buddy_log2 (msize h)).

(** [h] carries the fields the user sets: [mh], [hs] and [e].  For a
    main heap of 8 or 16 bytes [asize + ssize] is more than [msize], so
    [esize] wraps around and [ah] and [sh] lie about [2^32] bytes behind
    the region; the store of the model is total and takes the writes. *)
Definition buddy_init (h : buddy_heap_t) (m : mem)
  : option (buddy_heap_t * mem * Z) :=
  if negb (mh h =? 0) && negb (hs h =? 0) then
    let msize := u32 (hs h / 2) in
    let eh := u64 (mh h + msize) in
    let AMAX := buddy_log2 msize in
    let asize := u32 ((AMAX + 1) * 4) in
    let ssize := u32 (msize / 8 + 1) in
    let ssize := u32 (ssize * 6) in
    let ssize := ssize / 8 in
    let esize := u32 (msize - u32 (asize + ssize)) in
    let ah := u64 (eh + esize) in
    let sh := u64 (ah + asize) in
    let h := mkheap (mh h) (hs h) (e h) eh ah sh msize asize ssize esize
                    AMAX (ffh h) in
    let m := memset m (mh h) 0xff msize in
    let m := init_size h m in
    m <- init_avail h m ;;
    if negb (e h =? 0) then
      let f := ffit.mkheap eh esize (ffit.first (ffh h)) (ffit.last (ffh h)) in
      let '(f, m, rc) := ffit.ffit_init f m in
      Some (set_ffh h f, m, rc)
    else Some (h, m, OK)
  else Some (h, m, -1).

Definition buddy_get_block (h : buddy_heap_t) (m : mem) (sz : Z)
  : option (buddy_heap_t * mem * Z) :=
  if 0 <? sz then
    let s := if sz <? MINSIZE then MINSIZE else nextpow2 (u32 sz) in
    if s <? msize h then
      '(m, b) <- getblock h m s ;;
      if negb (b =? NOBLOCK) then Some (h, m, block2ptr h b)
      else if negb (e h =? 0) then
        '(f, m, ret) <- ffit.ffit_get_block (ffh h) m sz ;;
        Some (set_ffh h f, m, ret)
      else Some (h, m, NULL)
    else Some (h, m, NULL)
  else Some (h, m, NULL).

Definition buddy_free_block (h : buddy_heap_t) (m : mem) (ptr : Z)
  : option (buddy_heap_t * mem * Z) :=
  if (ptr <? mh h) || (u64 (u64 (mh h + msize h) + esize h) <=? ptr) then
    Some (h, m, NOTFOUND)
  else if eh h <=? ptr then
    if negb (e h =? 0) then
      '(f, m, rc) <- ffit.ffit_free_block (ffh h) m ptr ;;
      Some (set_ffh h f, m, rc)
    else Some (h, m, NOTFOUND)
  else
    '(m, rc) <- freeblock h m (ptr2block h ptr) ;;
    let rc := if Z.land rc NOTFOUND =? NOTFOUND then NOTFOUND
              else if rc <? 0 then INTERNAL else OK in
    Some (h, m, rc).

(** The result is the heap, the store, the returned pointer and [*rc]. *)
Definition buddy_extend_block (h : buddy_heap_t) (m : mem) (ptr sz : Z)
  : option (buddy_heap_t * mem * Z * Z) :=
  let rc := OK in
  if ptr =? NULL then
    '(h, m, ret) <- buddy_get_block h m sz ;;
    Some (h, m, ret, rc)
  else if sz =? 0 then
    '(h, m, rc) <- buddy_free_block h m ptr ;;
    Some (h, m, NULL, rc)
  else if u64 (mh h + hs h) <=? ptr then Some (h, m, NULL, rc)
  else if eh h <=? ptr then
    if negb (e h =? 0) then
      '(f, m, ret, rc) <- ffit.ffit_extend_block (ffh h) m ptr sz ;;
      Some (set_ffh h f, m, ret, rc)
    else Some (h, m, NULL, rc)
  else
    let s := if sz <? MINSIZE then MINSIZE else nextpow2 (u32 sz) in
    if s <? msize h then
      '(m, ret, rc) <- extendblock h m (ptr2block h ptr) s rc ;;
      Some (h, m, block2ptr h ret, rc)
    else Some (h, m, NULL, rc).

End buddy.

(** ** Arenas and runs the properties are checked on *)

Definition zero_mem : mem := fun _ => 0.

(** The returned pointer or result code of an operation. *)
Definition result {S : Type} (r : option (S * Z)) : option Z :=
  option_map snd r.

(** The [n] bytes at [p] lie within the region [[mh, mh+hs)]. *)
Definition within_region (mh hs p n : Z) : Prop :=
  mh <= p /\ p + n <= mh + hs.

Definition ceil_div (a b : Z) : Z := (a + b - 1) / b.

(** The first-fit arena of the test programs: one MiB. *)
Definition ffit_arena : ffit.heap_t := ffit.mkheap 0x10000 0x100000 0 0.

Definition ffit_fresh : ffit.heap_t * mem * Z :=
  ffit.ffit_init ffit_arena zero_mem.

(** A buddy descriptor as the user hands it to [buddy_init]. *)
Definition buddy_arena (hs e : Z) : buddy.buddy_heap_t :=
  buddy.mkheap 0x10000 hs e 0 0 0 0 0 0 0 0 (ffit.mkheap 0 0 0 0).

(** The buddy arena of the test programs: two MiB, no emergency heap. *)
Definition buddy_fresh : buddy.buddy_heap_t * mem * Z :=
  match buddy.buddy_init (buddy_arena 0x200000 0) zero_mem with
  | Some r => r
  | None => (buddy_arena 0x200000 0, zero_mem, -1)
  end.

(** Two neighbours are allocated and released in address order, so that
    the second release merges with the block before it; then the second
    pointer is released once more. *)
Definition ffit_free_twice : option (Z * Z * Z) :=
  let '(h, m, _) := ffit_fresh in
  '(h, m, p1) <- ffit.ffit_get_block h m 27 ;;
  '(h, m, p2) <- ffit.ffit_get_block h m 27 ;;
  '(h, m, r1) <- ffit.ffit_free_block h m p1 ;;
  '(h, m, r2) <- ffit.ffit_free_block h m p2 ;;
  '(h, m, r3) <- ffit.ffit_free_block h m p2 ;;
  Some (r1, r2, r3).

Definition buddy_free_twice : option (Z * Z) :=
  let '(h, m, _) := buddy_fresh in
  '(h, m, p) <- buddy.buddy_get_block h m 100 ;;
  '(h, m, r1) <- buddy.buddy_free_block h m p ;;
  '(h, m, r2) <- buddy.buddy_free_block h m p ;;
  Some (r1, r2).

Definition payload : list Z := map Z.of_nat (seq 1 27).

(** A block of 27 bytes is filled by its owner and extended to 100 bytes.
    The run answers both pointers, [rc] and the first 27 bytes of the new
    block. *)
Definition ffit_extend_copy : option (Z * Z * Z * list Z) :=
  let '(h, m, _) := ffit_fresh in
  '(h, m, p) <- ffit.ffit_get_block h m 27 ;;
  let m := store_bytes m p payload in
  '(h, m, q, rc) <- ffit.ffit_extend_block h m p 100 ;;
  Some (p, q, rc, load_bytes m q 27).

Definition buddy_extend_copy : option (Z * Z * Z * list Z) :=
  let '(h, m, _) := buddy_fresh in
  '(h, m, p1) <- buddy.buddy_get_block h m 27 ;;
  '(h, m, p2) <- buddy.buddy_get_block h m 27 ;;
  let m := store_bytes m p2 payload in
  '(h, m, q, rc) <- buddy.buddy_extend_block h m p2 100 ;;
  Some (p2, q, rc, load_bytes m q 27).

(** The arena and the pointer after one block of 27 bytes was taken from
    the fresh first-fit arena. *)
Definition ffit_held : ffit.heap_t * mem * Z :=
  let '(h, m, _) := ffit_fresh in
  match ffit.ffit_get_block h m 27 with
  | Some r => r
  | None => (h, m, NULL)
  end.

(** The same for a block of 100 bytes from the fresh buddy arena. *)
Definition buddy_held : buddy.buddy_heap_t * mem * Z :=
  let '(h, m, _) := buddy_fresh in
  match buddy.buddy_get_block h m 100 with
  | Some r => r
  | None => (h, m, NULL)
  end.

(** One byte more than half the main heap is asked of the fresh buddy
    arena. *)
Definition buddy_get_above_half : option Z :=
  let '(h, m, _) := buddy_fresh in
  result (buddy.buddy_get_block h m (2 ^ 19 + 1)).

(** ** The size area as a stream of bits *)

(** Bit [r] of a byte, counted from its most significant bit. *)
Definition bit_of (x r : Z) : bool := Z.testbit x (7 - r).

(** Bit [q] of the size area, counted from the most significant bit of
    its first byte.  Entry [i] owns the bits [6i .. 6i+5]. *)
Definition sizebit (h : buddy.buddy_heap_t) (m : mem) (q : Z) : bool :=
  bit_of (buddy.sh_get h m (q / 8)) (q mod 8).

Definition from_bits (bit : Z -> bool) : Z :=
  fold_left (fun acc t => 2 * acc + Z.b2z (bit t)) [0; 1; 2; 3; 4; 5] 0.

(** The number written in the six bits of entry [i]. *)
Definition slot_value (h : buddy.buddy_heap_t) (m : mem) (i : Z) : Z :=
  from_bits (fun t => sizebit h m (6 * i + t)).

(** What [putsize], [getsize] and [erasesize] do to the two bytes they
    touch, for an entry that starts at bit [b] of the first one. *)
Definition put_hi (b x v : Z) : Z := u8 (Z.lor x (Z.shiftr (Z.shiftl v 2) b)).
Definition put_lo (b y v : Z) : Z :=
  u8 (Z.lor y (Z.shiftl (Z.shiftl v 2) (8 - b))).
Definition get_byte (b x y : Z) : Z :=
  Z.shiftr (Z.lor (u8 (Z.shiftl x b)) (Z.shiftr y (8 - b))) 2.
Definition erase_hi (b x : Z) : Z :=
  if b =? 0 then u8 (Z.land x (Z.shiftr 0xff 6))
  else u8 (Z.land x (Z.shiftl 0xff (8 - b))).
Definition erase_lo (b y : Z) : Z :=
  if b =? 0 then y else u8 (Z.land y (Z.shiftr 0xff (b - 2))).

(** What the first and the second byte give to the value [getsize]
    reads. *)
Definition get_hi (b x : Z) : Z := Z.shiftr (u8 (Z.shiftl x b)) 2.
Definition get_lo (b y : Z) : Z := Z.shiftr (Z.shiftr y (8 - b)) 2.

(** The masks of [erasesize]. *)
Definition mask_hi (b : Z) : Z :=
  if b =? 0 then Z.shiftr 0xff 6 else Z.shiftl 0xff (8 - b).
Definition mask_lo (b : Z) : Z := Z.shiftr 0xff (b - 2).

Definition range (n : nat) : list Z := map Z.of_nat (seq 0 n).

(** An entry starts at bit 0, 2, 4 or 6 of a byte. *)
Definition offsets : list Z := [0; 2; 4; 6].

(** [P] holds for every offset and every number below [n]. *)
Definition check_off (n : nat) (P : Z -> Z -> bool) : bool :=
  let l := range n in forallb (fun b => forallb (P b) l) offsets.

(** Bit [r] of the first byte lies outside an entry that starts at [b]. *)
Definition outside_hi (b r : Z) : bool := (r <? b) || (b + 6 <=? r).
(** Bit [r] of the second byte lies outside that entry. *)
Definition outside_lo (b r : Z) : bool := b + 6 <=? 8 + r.

Definition hi_put_ok (b x : Z) : bool :=
  if get_hi b x =? 0
  then forallb (fun v => get_hi b (put_hi b x v) =? get_hi b (put_hi b 0 v))
               (range 64)
  else true.

Definition lo_put_ok (b y : Z) : bool :=
  if get_lo b y =? 0
  then forallb (fun v => get_lo b (put_lo b y v) =? get_lo b (put_lo b 0 v))
               (range 64)
  else true.

Definition join_ok (b v : Z) : bool :=
  Z.lor (get_hi b (put_hi b 0 v)) (get_lo b (put_lo b 0 v)) =? v.

Definition hi_erase_ok (b x : Z) : bool := get_hi b (erase_hi b x) =? 0.
Definition lo_erase_ok (b y : Z) : bool := get_lo b (erase_lo b y) =? 0.

Definition hi_bits_ok (b x : Z) : bool :=
  get_hi b x
  =? from_bits (fun t => if b + t <? 8 then bit_of x (b + t) else false).

Definition lo_bits_ok (b y : Z) : bool :=
  get_lo b y
  =? from_bits (fun t => if b + t <? 8 then false else bit_of y (b + t - 8)).

(** What [putsize] ors into the two bytes, and the masks of [erasesize],
    leave the bits outside the entry alone. *)
Definition put_clear_ok (b v : Z) : bool :=
  forallb (fun r =>
             (if outside_hi b r
              then negb (Z.testbit (Z.shiftr (Z.shiftl v 2) b) (7 - r))
              else true)
             && (if outside_lo b r
                 then negb (Z.testbit (Z.shiftl (Z.shiftl v 2) (8 - b))
                                      (7 - r))
                 else true))
          (range 8).

Definition mask_ok (b r : Z) : bool :=
  (if outside_hi b r then Z.testbit (mask_hi b) (7 - r) else true)
  && (if outside_lo b r
      then (b =? 0) || Z.testbit (mask_lo b) (7 - r)
      else true).

(** ** Requests and the blocks they map to *)

(** The block size a request of [sz] bytes maps to in [ffit_get_block] and
    [ffit_extend_block]. *)
Definition ffit_request (sz : Z) : Z :=
  let s := u32 (u32 sz + 5) in
  if s <? ffit.MINSIZE then ffit.MINSIZE else s.

(** The size [ffit_extend_block] reads from the header of the block that
    [ptr] belongs to. *)
Definition ffit_block_size (h : ffit.heap_t) (m : mem) (ptr : Z) : Z :=
  ffit.getsize (ffit.sze m (ffit.B2P h (ffit.P2B h (u64 (ptr - 4))))).

(** The block size a request of [sz] bytes maps to in [buddy_get_block]
    and [buddy_extend_block]. *)
Definition buddy_request (sz : Z) : Z :=
  if sz <? buddy.MINSIZE then buddy.MINSIZE else buddy.nextpow2 (u32 sz).

(** The size of the block at [ptr], as [extendblock] computes it from the
    size area. *)
Definition buddy_block_size (h : buddy.buddy_heap_t) (m : mem) (ptr : Z) : Z :=
  u32 (Z.shiftl 1 (buddy.getsize h m
                     (buddy.block2size (buddy.ptr2block h ptr)))).

(** [ptr] is the address of a block in use in the main heap. *)
Definition buddy_in_use (h : buddy.buddy_heap_t) (m : mem) (ptr : Z) : Prop :=
  0 < buddy.mh h <= ptr /\ ptr < buddy.eh h
  /\ ptr - buddy.mh h < 2 ^ 32
  /\ ptr < u64 (buddy.mh h + buddy.hs h)
  /\ buddy.modpow2 (buddy.ptr2block h ptr) buddy.MINSIZE = 0
  /\ buddy.getsize h m (buddy.block2size (buddy.ptr2block h ptr)) <> 0.

(** A first-fit arena of 40 bytes hands out its only block whole; the
    run then asks to extend the block to the size it already has. *)
Definition ffit_extend_whole_arena : option (Z * Z * Z * Z * Z) :=
  let '(h, m, _) := ffit.ffit_init (ffit.mkheap 0x10000 40 0 0) zero_mem in
  '(h, m, p) <- ffit.ffit_get_block h m 27 ;;
  '(_, _, q, rc) <- ffit.ffit_extend_block h m p 35 ;;
  Some (p, ffit_block_size h m p, ffit_request 35, q, rc).

(** ** Blocks released by a shrink *)

(** The blocks of [l], given as (address, size exponent), lie one after
    the other and fill [[lo, hi)] exactly. *)
Fixpoint tiles (l : list (Z * Z)) (lo hi : Z) : Prop :=
  match l with
  | [] => lo = hi
  | (a, k) :: l' => a = lo /\ 0 <= k /\ tiles l' (lo + 2 ^ k) hi
  end.

(** [binsert] applied to the blocks of [l] in order. *)
Fixpoint insert_all (h : buddy.buddy_heap_t) (m : mem) (l : list (Z * Z))
  : option mem :=
  match l with
  | [] => Some m
  | (a, k) :: l' => m <- buddy.binsert h m a k ;; insert_all h m l'
  end.

(** The five [sz |= sz >> k] steps of [nextpow2]. *)
Definition smear (x : Z) : Z :=
  let x := Z.lor x (Z.shiftr x 1) in
  let x := Z.lor x (Z.shiftr x 2) in
  let x := Z.lor x (Z.shiftr x 4) in
  let x := Z.lor x (Z.shiftr x 8) in
  Z.lor x (Z.shiftr x 16).

(** [y] has bit [i] set when [x] has a bit set among the [w] bits from
    [i] upwards. *)
Definition spread (x y w : Z) : Prop :=
  forall i, 0 <= i ->
    (Z.testbit y i = true <-> exists j, i <= j < i + w /\ Z.testbit x j = true).

(** ** A freshly initialised buddy arena *)

(** The descriptor of a main heap of [2^A] bytes with the table of
    available lists behind the main heap and the size area behind the
    table. *)
Definition laid_out (h : buddy.buddy_heap_t) (A : Z) : Prop :=
  3 <= A <= 31 /\ buddy.AMAX h = A /\ buddy.msize h = 2 ^ A
  /\ 0 < buddy.mh h /\ buddy.mh h + buddy.msize h <= buddy.ah h
  /\ buddy.ah h + 4 * (A + 1) <= buddy.sh h
  /\ buddy.mh h + buddy.msize h < 2 ^ 64.

(** A pseudo pointer that [block_insert] may follow: no block, or a block
    inside the main heap. *)
Definition link_ok (h : buddy.buddy_heap_t) (b : Z) : Prop :=
  b = buddy.NOBLOCK \/ (0 <= b /\ b + 8 <= buddy.msize h).

(** The bytes of the size area are in [m'] what they are in [m]. *)
Definition keeps_sizes (h : buddy.buddy_heap_t) (m m' : mem) : Prop :=
  forall y, 0 <= y -> buddy.sh_get h m' y = buddy.sh_get h m y.

(** The main heap is one free block: list [i] starts with the block at
    offset 0, whose link leads to a block of the main heap or nowhere,
    the lists from [s] up to [i] are empty, and no block is recorded at
    offset 0. *)
Definition top_free (h : buddy.buddy_heap_t) (m : mem) (s i : Z) : Prop :=
  buddy.ah_get h m i = 0
  /\ (forall j, s <= j < i -> buddy.ah_get h m j = buddy.NOBLOCK)
  /\ link_ok h (buddy.nxt m (buddy.mh h))
  /\ buddy.getsize h m 0 = 0.



(** ** Heap statistics (buddy.c, ffit.c) *)

(** [for(; s<=h->AMAX; s++) if (bisin(h, block, s)) break;] of
    [printBlocks]; the result is the [s] the loop stops at. *)
Fixpoint find_list (fuel : nat) (h : buddy.buddy_heap_t) (m : mem)
    (block s : Z) : option Z :=
  match fuel with
  | O => None
  | S fuel' =>
      if s <=? buddy.AMAX h then
        isin <- buddy.bisin h m block s ;;
        if isin : bool then Some s
        else find_list fuel' h m block (u8 (s + 1))
      else Some s
  end.

(** The [do ... while (block < h->msize)] loop of [printBlocks] without
    the printing ([p = 0]); the result is [*sum], [*usd] and [*fre].  A
    round adds [1 << s] to [block]. *)
Fixpoint printBlocks_loop (fuel : nat) (h : buddy.buddy_heap_t) (m : mem)
    (block sum usd fre : Z) : option (Z * Z * Z) :=
  match fuel with
  | O => None
  | S fuel' =>
      let s := buddy.getsize h m (buddy.block2size block) in
      '(f, s) <-
        (if s =? 0 then
           s <- find_list (Z.to_nat (buddy.AMAX h + 2)) h m block s ;;
           Some (0, s)
         else Some (1, s)) ;;
      if (f =? 0) && (buddy.AMAX h <? s) then Some (sum, usd, fre)
      else
        let sz := u32 (Z.shiftl 1 s) in
        let '(usd, fre) :=
          if negb (f =? 0) then (u32 (usd + sz), fre)
          else (usd, u32 (fre + sz)) in
        let sum := u32 (sum + sz) in
        let block := u32 (block + sz) in
        if block <? buddy.msize h
        then printBlocks_loop fuel' h m block sum usd fre
        else Some (sum, usd, fre)
  end.

Definition printBlocks (h : buddy.buddy_heap_t) (m : mem) (sum usd fre : Z)
  : option (Z * Z * Z) :=
  printBlocks_loop (S (Z.to_nat (buddy.msize h))) h m 0 sum usd fre.

(** The counters are the caller's: the function adds to them. *)
Definition buddy_get_stats (h : buddy.buddy_heap_t) (m : mem)
    (mem0 usd fre : Z) : option (Z * Z * Z) :=
  printBlocks h m mem0 usd fre.




(** ** States of a buddy arena with one block in use *)

(** No size is recorded for the blocks at the offsets [2^j]. *)
Definition sizes_clear (h : buddy.buddy_heap_t) (m : mem) (A : Z) : Prop :=
  forall j, 3 <= j < A -> buddy.getsize h m (2 ^ (j - 3)) = 0.

(** The main heap is free and split down to class [i]: the block at
    offset 0 heads list [i], every list below is empty, and for [j] from
    [i] to [A - 1] the block at offset [2^j] is the last of list [j]. *)
Definition split_down (h : buddy.buddy_heap_t) (m : mem) (i A : Z) : Prop :=
  buddy.ah_get h m i = 0
  /\ buddy.nxt m (buddy.mh h) = (if i =? A then buddy.NOBLOCK else 2 ^ i)
  /\ (forall j, 0 <= j < i -> buddy.ah_get h m j = buddy.NOBLOCK)
  /\ (forall j, i < j < A -> buddy.ah_get h m j = 2 ^ j)
  /\ (forall j, i <= j < A ->
        buddy.nxt m (buddy.mh h + 2 ^ j) = buddy.NOBLOCK)
  /\ (i < A -> buddy.ah_get h m A = buddy.NOBLOCK)
  /\ buddy.getsize h m 0 = 0
  /\ sizes_clear h m A.

(** The main heap behind the block at offset 0 is free: the lists below
    [i] are empty, and for [j] from [i] to [A - 1] the block at offset
    [2^j] is alone in list [j]. *)
Definition rest_free (h : buddy.buddy_heap_t) (m : mem) (i A : Z) : Prop :=
  (forall j, 0 <= j < i -> buddy.ah_get h m j = buddy.NOBLOCK)
  /\ (forall j, i <= j < A ->
        buddy.ah_get h m j = 2 ^ j
        /\ buddy.nxt m (buddy.mh h + 2 ^ j) = buddy.NOBLOCK)
  /\ buddy.ah_get h m A = buddy.NOBLOCK.

(** The block at offset 0 is in use with class [k], and the rest of the
    main heap is free. *)
Definition first_held (h : buddy.buddy_heap_t) (m : mem) (k A : Z) : Prop :=
  rest_free h m k A /\ buddy.getsize h m 0 = k /\ sizes_clear h m A.

(** The main heap comes first in the region: its addresses lie below
    the emergency heap and below the two ends that [buddy_free_block] and
    [buddy_extend_block] test. *)
Definition main_heap_first (h : buddy.buddy_heap_t) : Prop :=
  buddy.mh h + buddy.msize h <= buddy.eh h
  /\ buddy.mh h + buddy.msize h
     <= u64 (u64 (buddy.mh h + buddy.msize h) + buddy.esize h)
  /\ buddy.mh h + buddy.msize h <= u64 (buddy.mh h + buddy.hs h).

(** ** States of a first-fit arena with one block in use *)

(** The region is one free block: it is the only block of the available
    list and its header gives the size of the region. *)
Definition ffit_one_free (h : ffit.heap_t) (m : mem) : Prop :=
  ffit.first h = 0 /\ ffit.last h = 0
  /\ ffit.sze m (ffit.mh h) = ffit.setsize (ffit.hs h)
  /\ ffit.nxt m (ffit.mh h) = ffit.NOBLOCK
  /\ ffit.prv m (ffit.mh h) = ffit.NOBLOCK.

(** The block at the start of the region is in use with [bs] bytes: it
    is the whole region and the available list is empty, or the rest of
    the region is the only free block. *)
Definition ffit_first_held (h : ffit.heap_t) (m : mem) (bs : Z) : Prop :=
  ffit.sze m (ffit.mh h) = 2 * bs + 1
  /\ ((bs = ffit.hs h /\ ffit.first h = ffit.NOBLOCK
       /\ ffit.last h = ffit.NOBLOCK)
      \/ (bs + 32 < ffit.hs h /\ ffit.first h = bs /\ ffit.last h = bs
          /\ ffit.sze m (ffit.mh h + bs) = ffit.setsize (ffit.hs h - bs)
          /\ ffit.nxt m (ffit.mh h + bs) = ffit.NOBLOCK
          /\ ffit.prv m (ffit.mh h + bs) = ffit.NOBLOCK)).

(** The size of the block [getblock] cuts from a free block of [hs] bytes
    for a request of [r] bytes: the request, or the whole block when the
    rest would not be larger than the minimal size. *)
Definition ffit_cut (hs r : Z) : Z :=
  if u32 (r + ffit.MINSIZE) <? hs then r else hs.

(** ** States of a buddy arena with two blocks in use *)

(** The blocks at the offsets 0 and [2^k] are in use with class [k], and
    the rest of the main heap is free. *)
Definition pair_held (h : buddy.buddy_heap_t) (m : mem) (k A : Z) : Prop :=
  rest_free h m (k + 1) A
  /\ buddy.getsize h m 0 = k /\ buddy.getsize h m (2 ^ (k - 3)) = k
  /\ (forall j, 3 <= j < A -> j <> k ->
        buddy.getsize h m (2 ^ (j - 3)) = 0).

(** The block at offset [2^k] is in use with class [k]; the block at
    offset 0 is alone in list [k], and the rest of the main heap is
    free. *)
Definition second_held (h : buddy.buddy_heap_t) (m : mem) (k A : Z) : Prop :=
  buddy.ah_get h m k = 0
  /\ buddy.nxt m (buddy.mh h) = buddy.NOBLOCK
  /\ (forall j, 0 <= j < k -> buddy.ah_get h m j = buddy.NOBLOCK)
  /\ (forall j, k < j < A ->
        buddy.ah_get h m j = 2 ^ j
        /\ buddy.nxt m (buddy.mh h + 2 ^ j) = buddy.NOBLOCK)
  /\ buddy.ah_get h m A = buddy.NOBLOCK
  /\ buddy.getsize h m 0 = 0 /\ buddy.getsize h m (2 ^ (k - 3)) = k
  /\ (forall j, 3 <= j < A -> j <> k ->
        buddy.getsize h m (2 ^ (j - 3)) = 0).

(** ** States of a first-fit arena with two blocks in use *)

(** The region from the offset [o] on is one free block, the only block
    of the available list. *)
Definition ffit_tail_free (h : ffit.heap_t) (m : mem) (o : Z) : Prop :=
  ffit.first h = o /\ ffit.last h = o
  /\ ffit.sze m (ffit.mh h + o) = ffit.setsize (ffit.hs h - o)
  /\ ffit.nxt m (ffit.mh h + o) = ffit.NOBLOCK
  /\ ffit.prv m (ffit.mh h + o) = ffit.NOBLOCK.

(** The first block, of [ba] bytes, and the block behind it, of [bb]
    bytes, are in use, the last byte of the first block carries its tag,
    and the rest of the region is free. *)
Definition ffit_pair_held (h : ffit.heap_t) (m : mem) (ba bb : Z) : Prop :=
  ffit.sze m (ffit.mh h) = 2 * ba + 1
  /\ load8 m (ffit.mh h + ba - 1) = 1
  /\ ffit.sze m (ffit.mh h + ba) = 2 * bb + 1
  /\ ffit_tail_free h m (ba + bb).

(** The first block, of [ba] bytes, has been released and its tag byte
    cleared, the block behind it, of [bb] bytes, is in use; the available
    list holds the first block and the rest of the region, the smaller
    one first. *)
Definition ffit_second_held (h : ffit.heap_t) (m : mem) (ba bb : Z) : Prop :=
  ffit.sze m (ffit.mh h) = 2 * ba
  /\ load8 m (ffit.mh h + ba - 1) = 0
  /\ ffit.sze m (ffit.mh h + ba) = 2 * bb + 1
  /\ ffit.sze m (ffit.mh h + (ba + bb))
     = ffit.setsize (ffit.hs h - (ba + bb))
  /\ ((ffit.first h = 0 /\ ffit.last h = ba + bb
       /\ ffit.prv m (ffit.mh h) = ffit.NOBLOCK
       /\ ffit.nxt m (ffit.mh h) = ba + bb
       /\ ffit.prv m (ffit.mh h + (ba + bb)) = 0
       /\ ffit.nxt m (ffit.mh h + (ba + bb)) = ffit.NOBLOCK)
      \/ (ffit.first h = ba + bb /\ ffit.last h = 0
          /\ ffit.prv m (ffit.mh h + (ba + bb)) = ffit.NOBLOCK
          /\ ffit.nxt m (ffit.mh h + (ba + bb)) = 0
          /\ ffit.prv m (ffit.mh h) = ba + bb
          /\ ffit.nxt m (ffit.mh h) = ffit.NOBLOCK)).

(** ** The emergency heap of a buddy arena *)

(** The emergency heap of [h] is switched on, its first-fit descriptor
    covers the emergency area, and the area is one free block. *)
Definition emergency_free (h : buddy.buddy_heap_t) (m : mem) : Prop :=
  buddy.e h <> 0
  /\ ffit.mh (buddy.ffh h) = buddy.eh h
  /\ ffit.hs (buddy.ffh h) = buddy.esize h
  /\ ffit_one_free (buddy.ffh h) m.

(** A buddy arena of 256 bytes with emergency heap after its main heap of
    128 bytes was handed out in two blocks of 64 bytes. *)
Definition buddy_emergency : buddy.buddy_heap_t * mem :=
  match ('(h, m, _) <- buddy.buddy_init (buddy_arena 256 1) zero_mem ;;
         '(h, m, _) <- buddy.buddy_get_block h m 64 ;;
         '(h, m, _) <- buddy.buddy_get_block h m 64 ;;
         Some (h, m)) with
  | Some r => r
  | None => (buddy_arena 256 1, zero_mem)
  end.

(** * Properties *)

(** ** Machine words and the byte store *)

(** A comparison of the model decided from the facts at hand. *)
Ltac test_true c :=
  replace c with true
    by (symmetry; first [apply Z.ltb_lt | apply Z.leb_le | apply Z.eqb_eq];
        lia).
Ltac test_false c :=
  replace c with false
    by (symmetry; first [apply Z.ltb_ge | apply Z.leb_gt | apply Z.eqb_neq];
        lia).

Lemma eqb_false_of_neq x y : x <> y -> (x =? y) = false.
Proof. apply Z.eqb_neq. Qed.

Lemma u8_range x : 0 <= u8 x < 256.
Proof. unfold u8. change (2 ^ 8) with 256. apply Z.mod_pos_bound. lia. Qed.

Lemma u8_idem x : u8 (u8 x) = u8 x.
Proof. unfold u8. apply Z.mod_mod. discriminate. Qed.

Lemma u8_small x : 0 <= x < 256 -> u8 x = x.
Proof. intros Hx. unfold u8. apply Z.mod_small. exact Hx. Qed.

Lemma u32_small x : 0 <= x < 2 ^ 32 -> u32 x = x.
Proof. intros Hx. unfold u32. apply Z.mod_small. exact Hx. Qed.

Lemma u64_small x : 0 <= x < 2 ^ 64 -> u64 x = x.
Proof. intros Hx. unfold u64. apply Z.mod_small. exact Hx. Qed.

Lemma shiftl_1 k : 0 <= k -> Z.shiftl 1 k = 2 ^ k.
Proof. intros Hk. rewrite Z.shiftl_1_l. reflexivity. Qed.

Lemma pow2_le_31 k : 0 <= k <= 31 -> 0 < 2 ^ k <= 2 ^ 31.
Proof.
  intros Hk. split; [apply Z.pow_pos_nonneg; lia|].
  apply Z.pow_le_mono_r; lia.
Qed.

Lemma pow2_half i : 0 < i -> 2 ^ i = 2 * 2 ^ (i - 1).
Proof.
  intros Hi. replace i with (i - 1 + 1) at 1 by lia.
  rewrite Z.pow_add_r by lia. lia.
Qed.

Lemma pow2_lt_inv a b : 0 <= b -> 2 ^ a < 2 ^ b -> a < b.
Proof.
  intros Hb H. destruct (Z.lt_ge_cases a b) as [|Hge]; [assumption|].
  pose proof (Z.pow_le_mono_r 2 b a ltac:(lia) Hge). lia.
Qed.

(** The size exponents of a 32-bit heap, one by one. *)
Lemma small_cases (k : Z) (P : Z -> Prop) :
  3 <= k <= 31 ->
  (forall n, (n < 29)%nat -> P (3 + Z.of_nat n)) -> P k.
Proof.
  intros Hk H. replace k with (3 + Z.of_nat (Z.to_nat (k - 3))) by lia.
  apply H. lia.
Qed.

Lemma load8_range m a : 0 <= load8 m a < 256.
Proof. apply u8_range. Qed.

Lemma load8_store8 m a v a' :
  load8 (store8 m a v) a' = if a' =? a then u8 v else load8 m a'.
Proof.
  unfold load8, store8. destruct (a' =? a); [apply u8_idem | reflexivity].
Qed.

Lemma load32_range m a : 0 <= load32 m a < 2 ^ 32.
Proof.
  unfold load32.
  pose proof (load8_range m a). pose proof (load8_range m (a + 1)).
  pose proof (load8_range m (a + 2)). pose proof (load8_range m (a + 3)).
  lia.
Qed.

Lemma load8_memset m a c n a' :
  load8 (memset m a c n) a'
  = if (a <=? a') && (a' <? a + n) then u8 c else load8 m a'.
Proof.
  unfold load8, memset.
  destruct ((a <=? a') && (a' <? a + n)); [apply u8_idem | reflexivity].
Qed.

Lemma load8_store32_other m a v a' :
  a' < a \/ a + 4 <= a' -> load8 (store32 m a v) a' = load8 m a'.
Proof.
  intros H. unfold store32. rewrite !load8_store8.
  repeat match goal with
         | |- context [?x =? ?y] =>
             destruct (Z.eqb_spec x y); [lia|]
         end.
  reflexivity.
Qed.

Lemma load32_store32_other m a v a' :
  a' + 4 <= a \/ a + 4 <= a' -> load32 (store32 m a v) a' = load32 m a'.
Proof.
  intros H. unfold load32. rewrite !load8_store32_other by lia. reflexivity.
Qed.

Lemma word_bytes v :
  0 <= v < 2 ^ 32 ->
  u8 v + 2 ^ 8 * u8 (Z.shiftr v 8) + 2 ^ 16 * u8 (Z.shiftr v 16)
  + 2 ^ 24 * u8 (Z.shiftr v 24) = v.
Proof.
  intros Hv. unfold u8. rewrite !Z.shiftr_div_pow2 by lia.
  change (2 ^ 8) with 256. change (2 ^ 16) with 65536.
  change (2 ^ 24) with 16777216. change (2 ^ 32) with 4294967296 in Hv.
  Z.div_mod_to_equations. lia.
Qed.

Lemma load32_store32_same m a v :
  0 <= v < 2 ^ 32 -> load32 (store32 m a v) a = v.
Proof.
  intros Hv. unfold load32, store32. rewrite !load8_store8.
  repeat match goal with
         | |- context [?x =? ?y] =>
             destruct (Z.eqb_spec x y); [try lia|try lia]
         end.
  apply word_bytes. exact Hv.
Qed.

Lemma load32_memset_other m a c n a' :
  a' + 4 <= a \/ a + n <= a' -> load32 (memset m a c n) a' = load32 m a'.
Proof.
  intros H. unfold load32. rewrite !load8_memset.
  repeat match goal with
         | |- context [(?x <=? ?y) && (?z <? ?w)] =>
             replace ((x <=? y) && (z <? w)) with false
               by (symmetry; apply andb_false_iff;
                   destruct (Z.leb_spec x y); [right; apply Z.ltb_ge; lia
                                              | left; reflexivity])
         end.
  reflexivity.
Qed.

Lemma load32_memset_ff m a n a' :
  a <= a' -> a' + 4 <= a + n -> load32 (memset m a 0xff n) a' = 0xffffffff.
Proof.
  intros H1 H2. unfold load32. rewrite !load8_memset.
  repeat match goal with
         | |- context [(?x <=? ?y) && (?z <? ?w)] =>
             replace ((x <=? y) && (z <? w)) with true
               by (symmetry; apply andb_true_iff;
                   split; [apply Z.leb_le | apply Z.ltb_lt]; lia)
         end.
  reflexivity.
Qed.

(** ** Requests that do not fit 32 bits *)

(** C1. A first-fit and a buddy arena both answer a block for the request
    of [2^32 + 8] bytes, because the size is cut to 32 bits before it is
    checked; the bytes requested do not lie within the region. *)
Theorem get_block_truncated_size_escapes_region :
  (let '(h, m, _) := ffit_fresh in
   exists p, result (ffit.ffit_get_block h m (2 ^ 32 + 8)) = Some p
             /\ p <> NULL
             /\ ~ within_region (ffit.mh h) (ffit.hs h) p (2 ^ 32 + 8))
  /\
  (let '(h, m, _) := buddy_fresh in
   exists p, result (buddy.buddy_get_block h m (2 ^ 32 + 8)) = Some p
             /\ p <> NULL
             /\ ~ within_region (buddy.mh h) (buddy.hs h) p (2 ^ 32 + 8)).
Proof.
  split.
  - exists (0x10000 + 4). split; [vm_compute; reflexivity|].
    split; [discriminate|]. unfold within_region. cbn. lia.
  - exists 0x10000. split; [vm_compute; reflexivity|].
    split; [discriminate|]. unfold within_region. cbn. lia.
Qed.

(** ** Releasing a block twice *)

(** C2. On the first-fit arena the second release of a block that was
    merged with its previous neighbour answers -1: the header of the
    released block keeps its tag. *)
Theorem ffit_free_twice_after_merge :
  ffit_free_twice = Some (0, 0, -1).
Proof. vm_compute. reflexivity. Qed.

Lemma buddy_free_twice_not_found :
  buddy_free_twice = Some (0, 4).
Proof. vm_compute. reflexivity. Qed.

(** ** Pointers outside the region *)

Lemma buddy_free_block_outside (h : buddy.buddy_heap_t) (m : mem) (ptr : Z) :
  ptr < buddy.mh h
  \/ u64 (u64 (buddy.mh h + buddy.msize h) + buddy.esize h) <= ptr ->
  buddy.buddy_free_block h m ptr = Some (h, m, 4).
Proof.
  intros H. unfold buddy.buddy_free_block.
  replace ((ptr <? buddy.mh h)
           || (u64 (u64 (buddy.mh h + buddy.msize h) + buddy.esize h) <=? ptr))
    with true; [reflexivity|].
  symmetry. apply orb_true_iff.
  destruct H; [left; apply Z.ltb_lt | right; apply Z.leb_le]; assumption.
Qed.

(** C3. [ffit_free_block] answers 0, not 4, for every pointer that fails
    its range check, and leaves the arena as it is. *)
Theorem ffit_free_block_outside (h : ffit.heap_t) (m : mem) (ptr : Z) :
  u64 (ptr - 4) < ffit.mh h
  \/ u64 (ffit.mh h + ffit.hs h) <= u64 (ptr + 5) ->
  ffit.ffit_free_block h m ptr = Some (h, m, 0).
Proof.
  intros H. unfold ffit.ffit_free_block.
  replace ((ffit.mh h <=? u64 (ptr - 4))
           && (u64 (ptr + 5) <? u64 (ffit.mh h + ffit.hs h)))
    with false; [reflexivity|].
  symmetry. apply andb_false_iff.
  destruct H; [left; apply Z.leb_gt | right; apply Z.ltb_ge]; assumption.
Qed.

Lemma ffit_free_block_outside_witness :
  u64 (ffit.mh ffit_arena + ffit.hs ffit_arena) <= u64 (0x110040 + 5)
  /\ ffit.ffit_free_block ffit_arena zero_mem 0x110040
     = Some (ffit_arena, zero_mem, 0).
Proof.
  assert (H : u64 (ffit.mh ffit_arena + ffit.hs ffit_arena)
              <= u64 (0x110040 + 5))
    by (apply Z.leb_le; vm_compute; reflexivity).
  split; [exact H|].
  apply (ffit_free_block_outside ffit_arena zero_mem 0x110040).
  right. exact H.
Defined.

(** ** Content of an extended block *)

(** C4. [ffit_extend_block] copies from the fifth byte on: the first four
    bytes of the new block are not those of the old one. *)
Theorem ffit_extend_block_loses_prefix :
  ffit_extend_copy =
    Some (0x10000 + 4, 0x10000 + 36, 0,
          [255; 255; 255; 255] ++ skipn 4 payload).
Proof. vm_compute. reflexivity. Qed.

Lemma buddy_extend_block_keeps_content :
  buddy_extend_copy = Some (0x10000 + 32, 0x10000 + 128, 0, payload).
Proof. vm_compute. reflexivity. Qed.

(** ** The secondary range without an emergency heap *)

(** C10. With [e = 0], [buddy_free_block] answers 4 for every pointer of
    the secondary range and changes neither the descriptor nor a byte. *)
Theorem buddy_free_block_secondary_no_emergency
    (h : buddy.buddy_heap_t) (m : mem) (ptr : Z) :
  buddy.e h = 0 ->
  buddy.eh h <= ptr < u64 (u64 (buddy.mh h + buddy.msize h) + buddy.esize h) ->
  buddy.buddy_free_block h m ptr = Some (h, m, buddy.NOTFOUND).
Proof.
  intros He [Hlo Hhi]. unfold buddy.buddy_free_block.
  destruct ((ptr <? buddy.mh h) || _); [reflexivity|].
  replace (buddy.eh h <=? ptr) with true by (symmetry; apply Z.leb_le; lia).
  rewrite He. reflexivity.
Qed.

Lemma buddy_free_block_secondary_no_emergency_witness :
  let h := fst (fst buddy_fresh) in
  buddy.e h = 0
  /\ buddy.eh h <= buddy.eh h + 64
                < u64 (u64 (buddy.mh h + buddy.msize h) + buddy.esize h)
  /\ buddy.buddy_free_block h zero_mem (buddy.eh h + 64)
     = Some (h, zero_mem, buddy.NOTFOUND).
Proof.
  intros h.
  assert (He : buddy.e h = 0) by reflexivity.
  assert (Hr : buddy.eh h <= buddy.eh h + 64
               < u64 (u64 (buddy.mh h + buddy.msize h) + buddy.esize h))
    by (split; [apply Z.leb_le | apply Z.ltb_lt]; vm_compute; reflexivity).
  split; [exact He|]. split; [exact Hr|].
  exact (buddy_free_block_secondary_no_emergency h zero_mem _ He Hr).
Defined.

(** ** The size-area codec *)


Lemma range_forallb (P : Z -> bool) (n : nat) :
  forallb P (range n) = true -> forall x, 0 <= x < Z.of_nat n -> P x = true.
Proof.
  intros H x Hx. rewrite forallb_forall in H. apply H.
  unfold range. replace x with (Z.of_nat (Z.to_nat x)) by lia.
  apply in_map, in_seq. lia.
Qed.

Lemma check_off_spec (n : nat) (P : Z -> Z -> bool) :
  check_off n P = true ->
  forall b x, In b offsets -> 0 <= x < Z.of_nat n -> P b x = true.
Proof.
  unfold check_off. cbv zeta. intros H b x Hb Hx.
  rewrite forallb_forall in H. exact (range_forallb _ n (H b Hb) x Hx).
Qed.

Lemma hi_put_checked : check_off 256 hi_put_ok = true.
Proof. vm_compute. reflexivity. Qed.

Lemma lo_put_checked : check_off 256 lo_put_ok = true.
Proof. vm_compute. reflexivity. Qed.

Lemma join_checked : check_off 64 join_ok = true.
Proof. vm_compute. reflexivity. Qed.

Lemma hi_erase_checked : check_off 256 hi_erase_ok = true.
Proof. vm_compute. reflexivity. Qed.

Lemma lo_erase_checked : check_off 256 lo_erase_ok = true.
Proof. vm_compute. reflexivity. Qed.

Lemma hi_bits_checked : check_off 256 hi_bits_ok = true.
Proof. vm_compute. reflexivity. Qed.

Lemma lo_bits_checked : check_off 256 lo_bits_ok = true.
Proof. vm_compute. reflexivity. Qed.

Lemma put_clear_checked : check_off 64 put_clear_ok = true.
Proof. vm_compute. reflexivity. Qed.

Lemma mask_checked : check_off 8 mask_ok = true.
Proof. vm_compute. reflexivity. Qed.

Lemma get_byte_split b x y : get_byte b x y = Z.lor (get_hi b x) (get_lo b y).
Proof. unfold get_byte, get_hi, get_lo. apply Z.shiftr_lor. Qed.

Lemma put_get_byte b x y v :
  In b offsets -> 0 <= x < 256 -> 0 <= y < 256 -> 0 <= v < 64 ->
  get_byte b x y = 0 -> get_byte b (put_hi b x v) (put_lo b y v) = v.
Proof.
  intros Hb Hx Hy Hv H0. rewrite get_byte_split in H0.
  apply Z.lor_eq_0_iff in H0. destruct H0 as [Hh Hl].
  pose proof (check_off_spec 256 hi_put_ok hi_put_checked b x Hb Hx) as H1.
  pose proof (check_off_spec 256 lo_put_ok lo_put_checked b y Hb Hy) as H2.
  unfold hi_put_ok in H1. unfold lo_put_ok in H2.
  rewrite Hh in H1. rewrite Hl in H2.
  change (0 =? 0) with true in H1, H2. cbv iota in H1, H2.
  apply (range_forallb _ 64) with (x := v) in H1; [|exact Hv].
  apply (range_forallb _ 64) with (x := v) in H2; [|exact Hv].
  apply Z.eqb_eq in H1, H2.
  rewrite get_byte_split, H1, H2. apply Z.eqb_eq.
  exact (check_off_spec 64 join_ok join_checked b v Hb Hv).
Qed.

Lemma erase_get_byte b x y :
  In b offsets -> 0 <= x < 256 -> 0 <= y < 256 ->
  get_byte b (erase_hi b x) (erase_lo b y) = 0.
Proof.
  intros Hb Hx Hy. rewrite get_byte_split.
  pose proof (check_off_spec 256 hi_erase_ok hi_erase_checked b x Hb Hx) as H1.
  pose proof (check_off_spec 256 lo_erase_ok lo_erase_checked b y Hb Hy) as H2.
  apply Z.eqb_eq in H1, H2. rewrite H1, H2. reflexivity.
Qed.

Lemma lor_double a b x y :
  Z.lor (2 * a + Z.b2z x) (2 * b + Z.b2z y) = 2 * Z.lor a b + Z.b2z (x || y).
Proof.
  apply Z.bits_inj'. intros n Hn.
  destruct (Z.eq_dec n 0) as [->|Hne].
  - rewrite Z.lor_spec, !Z.testbit_0_r. reflexivity.
  - replace n with (Z.succ (n - 1)) by lia.
    rewrite Z.lor_spec, !Z.testbit_succ_r by lia.
    rewrite Z.lor_spec. reflexivity.
Qed.

Lemma lor_from_bits f g :
  Z.lor (from_bits f) (from_bits g) = from_bits (fun t => f t || g t).
Proof.
  unfold from_bits. cbn [fold_left]. rewrite !lor_double. reflexivity.
Qed.

Lemma from_bits_ext (f g : Z -> bool) :
  (forall t, 0 <= t < 6 -> f t = g t) -> from_bits f = from_bits g.
Proof.
  intros H. unfold from_bits. cbn [fold_left].
  rewrite !H by lia. reflexivity.
Qed.

Lemma get_byte_bits b x y :
  In b offsets -> 0 <= x < 256 -> 0 <= y < 256 ->
  get_byte b x y =
    from_bits (fun t => if b + t <? 8 then bit_of x (b + t)
                        else bit_of y (b + t - 8)).
Proof.
  intros Hb Hx Hy. rewrite get_byte_split.
  pose proof (check_off_spec 256 hi_bits_ok hi_bits_checked b x Hb Hx) as H1.
  pose proof (check_off_spec 256 lo_bits_ok lo_bits_checked b y Hb Hy) as H2.
  apply Z.eqb_eq in H1, H2. rewrite H1, H2, lor_from_bits.
  apply from_bits_ext. intros t _.
  destruct (b + t <? 8); [apply orb_false_r | reflexivity].
Qed.

Lemma bit_of_u8_lor x w r :
  0 <= r < 8 -> bit_of (u8 (Z.lor x w)) r = bit_of x r || Z.testbit w (7 - r).
Proof.
  intros Hr. unfold bit_of, u8.
  rewrite Z.mod_pow2_bits_low by lia. apply Z.lor_spec.
Qed.

Lemma bit_of_u8_land x w r :
  0 <= r < 8 -> bit_of (u8 (Z.land x w)) r = bit_of x r && Z.testbit w (7 - r).
Proof.
  intros Hr. unfold bit_of, u8.
  rewrite Z.mod_pow2_bits_low by lia. apply Z.land_spec.
Qed.

Lemma put_clear b v r :
  In b offsets -> 0 <= v < 64 -> 0 <= r < 8 ->
  (outside_hi b r = true ->
   Z.testbit (Z.shiftr (Z.shiftl v 2) b) (7 - r) = false)
  /\ (outside_lo b r = true ->
      Z.testbit (Z.shiftl (Z.shiftl v 2) (8 - b)) (7 - r) = false).
Proof.
  intros Hb Hv Hr.
  pose proof (check_off_spec 64 put_clear_ok put_clear_checked b v Hb Hv) as H.
  apply (range_forallb _ 8) with (x := r) in H; [|exact Hr].
  apply andb_true_iff in H. destruct H as [H1 H2].
  split; intros Ho.
  - rewrite Ho in H1. apply negb_true_iff. exact H1.
  - rewrite Ho in H2. apply negb_true_iff. exact H2.
Qed.

Lemma mask_set b r :
  In b offsets -> 0 <= r < 8 ->
  (outside_hi b r = true -> Z.testbit (mask_hi b) (7 - r) = true)
  /\ (outside_lo b r = true -> b <> 0 ->
      Z.testbit (mask_lo b) (7 - r) = true).
Proof.
  intros Hb Hr.
  pose proof (check_off_spec 8 mask_ok mask_checked b r Hb Hr) as H.
  apply andb_true_iff in H. destruct H as [H1 H2].
  split.
  - intros Ho. rewrite Ho in H1. exact H1.
  - intros Ho Hnz. rewrite Ho in H2. apply orb_true_iff in H2.
    destruct H2 as [H2|H2]; [apply Z.eqb_eq in H2; contradiction|exact H2].
Qed.

Lemma hi_frame b x r :
  In b offsets -> 0 <= x < 256 -> 0 <= r < 8 -> r < b \/ b + 6 <= r ->
  (forall v, 0 <= v < 64 -> bit_of (put_hi b x v) r = bit_of x r)
  /\ bit_of (erase_hi b x) r = bit_of x r.
Proof.
  intros Hb Hx Hr Hc.
  assert (Ho : outside_hi b r = true).
  { unfold outside_hi. apply orb_true_iff.
    destruct Hc; [left; apply Z.ltb_lt | right; apply Z.leb_le]; lia. }
  split.
  - intros v Hv. unfold put_hi. rewrite bit_of_u8_lor by exact Hr.
    rewrite (proj1 (put_clear b v r Hb Hv Hr) Ho). apply orb_false_r.
  - replace (erase_hi b x) with (u8 (Z.land x (mask_hi b)))
      by (unfold erase_hi, mask_hi; destruct (b =? 0); reflexivity).
    rewrite bit_of_u8_land by exact Hr.
    rewrite (proj1 (mask_set b r Hb Hr) Ho). apply andb_true_r.
Qed.

Lemma lo_frame b y r :
  In b offsets -> 0 <= y < 256 -> 0 <= r < 8 -> b + 6 <= 8 + r ->
  (forall v, 0 <= v < 64 -> bit_of (put_lo b y v) r = bit_of y r)
  /\ bit_of (erase_lo b y) r = bit_of y r.
Proof.
  intros Hb Hy Hr Hc.
  assert (Ho : outside_lo b r = true) by (apply Z.leb_le; lia).
  split.
  - intros v Hv. unfold put_lo. rewrite bit_of_u8_lor by exact Hr.
    rewrite (proj2 (put_clear b v r Hb Hv Hr) Ho). apply orb_false_r.
  - unfold erase_lo. destruct (Z.eqb_spec b 0) as [_|Hnz]; [reflexivity|].
    fold (mask_lo b). rewrite bit_of_u8_land by exact Hr.
    rewrite (proj2 (mask_set b r Hb Hr) Ho Hnz). apply andb_true_r.
Qed.

(** *** From the store to the two bytes *)

Lemma sh_get_range h m y : 0 <= buddy.sh_get h m y < 256.
Proof. apply load8_range. Qed.

Lemma sh_get_set h m y v z :
  buddy.sh_get h (buddy.sh_set h m y v) z
  = if z =? y then u8 v else buddy.sh_get h m z.
Proof.
  unfold buddy.sh_get, buddy.sh_set. rewrite load8_store8.
  destruct (Z.eqb_spec z y) as [->|Hn].
  - rewrite Z.eqb_refl. reflexivity.
  - destruct (Z.eqb_spec (buddy.sh h + z) (buddy.sh h + y)); [lia|reflexivity].
Qed.

(** Where entry [i] starts: byte [6i/8], bit [6i mod 8]. *)
Lemma slot_pos i :
  0 <= i < 2 ^ 28 ->
  u32 (i * 6) = 6 * i
  /\ buddy.modpow2 (6 * i) 8 = (6 * i) mod 8
  /\ In ((6 * i) mod 8) offsets.
Proof.
  intros Hi. split; [|split].
  - unfold u32. rewrite Z.mod_small; lia.
  - unfold buddy.modpow2. change (u32 (8 - 1)) with (Z.ones 3).
    rewrite Z.land_ones by lia. reflexivity.
  - unfold offsets. cbn [In].
    pose proof (Z.mod_pos_bound (6 * i) 8 ltac:(lia)).
    pose proof (Z.div_mod (6 * i) 8 ltac:(lia)). lia.
Qed.

Lemma getsize_bytes h m i :
  0 <= i < 2 ^ 28 ->
  buddy.getsize h m i
  = get_byte ((6 * i) mod 8) (buddy.sh_get h m (6 * i / 8))
             (buddy.sh_get h m (6 * i / 8 + 1)).
Proof.
  intros Hi. destruct (slot_pos i Hi) as (Hp & Hb & _).
  unfold buddy.getsize. cbv zeta. rewrite Hp, Hb. reflexivity.
Qed.

Lemma putsize_bytes h m i v z :
  0 <= i < 2 ^ 28 ->
  buddy.sh_get h (buddy.putsize h m i v) z
  = if z =? 6 * i / 8 + 1
    then put_lo ((6 * i) mod 8) (buddy.sh_get h m (6 * i / 8 + 1)) v
    else if z =? 6 * i / 8
    then put_hi ((6 * i) mod 8) (buddy.sh_get h m (6 * i / 8)) v
    else buddy.sh_get h m z.
Proof.
  intros Hi. destruct (slot_pos i Hi) as (Hp & Hb & _).
  unfold buddy.putsize. cbv zeta. rewrite Hp, Hb.
  rewrite !sh_get_set.
  replace (6 * i / 8 + 1 =? 6 * i / 8) with false by (symmetry; lia).
  reflexivity.
Qed.

Lemma erasesize_bytes h m i z :
  0 <= i < 2 ^ 28 ->
  buddy.sh_get h (buddy.erasesize h m i) z
  = if z =? 6 * i / 8 + 1
    then erase_lo ((6 * i) mod 8) (buddy.sh_get h m (6 * i / 8 + 1))
    else if z =? 6 * i / 8
    then erase_hi ((6 * i) mod 8) (buddy.sh_get h m (6 * i / 8))
    else buddy.sh_get h m z.
Proof.
  intros Hi. destruct (slot_pos i Hi) as (Hp & Hb & _).
  unfold buddy.erasesize, erase_lo, erase_hi. cbv zeta. rewrite Hp, Hb.
  destruct ((6 * i) mod 8 =? 0).
  - rewrite sh_get_set.
    destruct (Z.eqb_spec z (6 * i / 8 + 1)) as [->|Hn]; [|reflexivity].
    replace (6 * i / 8 + 1 =? 6 * i / 8) with false by (symmetry; lia).
    reflexivity.
  - rewrite !sh_get_set.
    replace (6 * i / 8 + 1 =? 6 * i / 8) with false by (symmetry; lia).
    reflexivity.
Qed.

(** [getsize] reads the six bits of its entry and nothing else. *)
Lemma getsize_slot h m i :
  0 <= i < 2 ^ 28 -> buddy.getsize h m i = slot_value h m i.
Proof.
  intros Hi. rewrite getsize_bytes by exact Hi.
  destruct (slot_pos i Hi) as (_ & _ & Hb).
  rewrite get_byte_bits by (try exact Hb; apply sh_get_range).
  unfold slot_value. apply from_bits_ext. intros t Ht. unfold sizebit.
  pose proof (Z.mod_pos_bound (6 * i) 8 ltac:(lia)) as Hr.
  pose proof (Z.div_mod (6 * i) 8 ltac:(lia)) as Hd.
  destruct (Z.ltb_spec ((6 * i) mod 8 + t) 8) as [Hlt|Hge].
  - replace ((6 * i + t) / 8) with (6 * i / 8)
      by (apply (Z.div_unique _ 8 _ ((6 * i) mod 8 + t)); lia).
    replace ((6 * i + t) mod 8) with ((6 * i) mod 8 + t)
      by (apply (Z.mod_unique _ 8 (6 * i / 8)); lia).
    reflexivity.
  - replace ((6 * i + t) / 8) with (6 * i / 8 + 1)
      by (apply (Z.div_unique _ 8 _ ((6 * i) mod 8 + t - 8)); lia).
    replace ((6 * i + t) mod 8) with ((6 * i) mod 8 + t - 8)
      by (apply (Z.mod_unique _ 8 (6 * i / 8 + 1)); lia).
    reflexivity.
Qed.

(** A bit outside entry [i] is a bit of the first byte before or after
    the entry, a bit of the second byte after it, or in another byte. *)
Lemma outside_cases i q :
  0 <= i -> 0 <= q -> ~ (6 * i <= q < 6 * i + 6) ->
  0 <= q mod 8 < 8
  /\ (q / 8 = 6 * i / 8 + 1 -> (6 * i) mod 8 + 6 <= 8 + q mod 8)
  /\ (q / 8 = 6 * i / 8 ->
      q mod 8 < (6 * i) mod 8 \/ (6 * i) mod 8 + 6 <= q mod 8).
Proof.
  intros Hi Hq Hout.
  pose proof (Z.mod_pos_bound (6 * i) 8 ltac:(lia)).
  pose proof (Z.div_mod (6 * i) 8 ltac:(lia)).
  pose proof (Z.mod_pos_bound q 8 ltac:(lia)).
  pose proof (Z.div_mod q 8 ltac:(lia)).
  lia.
Qed.

Lemma putsize_frame h m i v q :
  0 <= i < 2 ^ 28 -> 0 <= v < 64 -> 0 <= q -> ~ (6 * i <= q < 6 * i + 6) ->
  sizebit h (buddy.putsize h m i v) q = sizebit h m q.
Proof.
  intros Hi Hv Hq Hout. unfold sizebit. rewrite putsize_bytes by exact Hi.
  destruct (slot_pos i Hi) as (_ & _ & Hb).
  destruct (outside_cases i q ltac:(lia) Hq Hout) as (Hr & Hlo & Hhi).
  destruct (Z.eqb_spec (q / 8) (6 * i / 8 + 1)) as [E|_].
  - rewrite E.
    apply (lo_frame _ _ _ Hb (sh_get_range _ _ _) Hr (Hlo E)). exact Hv.
  - destruct (Z.eqb_spec (q / 8) (6 * i / 8)) as [E|_]; [|reflexivity].
    rewrite E.
    apply (hi_frame _ _ _ Hb (sh_get_range _ _ _) Hr (Hhi E)). exact Hv.
Qed.

Lemma erasesize_frame h m i q :
  0 <= i < 2 ^ 28 -> 0 <= q -> ~ (6 * i <= q < 6 * i + 6) ->
  sizebit h (buddy.erasesize h m i) q = sizebit h m q.
Proof.
  intros Hi Hq Hout. unfold sizebit. rewrite erasesize_bytes by exact Hi.
  destruct (slot_pos i Hi) as (_ & _ & Hb).
  destruct (outside_cases i q ltac:(lia) Hq Hout) as (Hr & Hlo & Hhi).
  destruct (Z.eqb_spec (q / 8) (6 * i / 8 + 1)) as [E|_].
  - rewrite E.
    apply (lo_frame _ _ _ Hb (sh_get_range _ _ _) Hr (Hlo E)).
  - destruct (Z.eqb_spec (q / 8) (6 * i / 8)) as [E|_]; [|reflexivity].
    rewrite E.
    apply (hi_frame _ _ _ Hb (sh_get_range _ _ _) Hr (Hhi E)).
Qed.

Lemma getsize_putsize h m i v :
  0 <= i < 2 ^ 28 -> 0 <= v < 64 -> buddy.getsize h m i = 0 ->
  buddy.getsize h (buddy.putsize h m i v) i = v.
Proof.
  intros Hi Hv H0. rewrite getsize_bytes in H0 |- * by exact Hi.
  rewrite !putsize_bytes by exact Hi.
  rewrite Z.eqb_refl.
  replace (6 * i / 8 =? 6 * i / 8 + 1) with false by (symmetry; lia).
  rewrite Z.eqb_refl.
  destruct (slot_pos i Hi) as (_ & _ & Hb).
  apply put_get_byte; try assumption; apply sh_get_range.
Qed.

Lemma getsize_erasesize h m i :
  0 <= i < 2 ^ 28 -> buddy.getsize h (buddy.erasesize h m i) i = 0.
Proof.
  intros Hi. rewrite getsize_bytes by exact Hi.
  rewrite !erasesize_bytes by exact Hi.
  rewrite Z.eqb_refl.
  replace (6 * i / 8 =? 6 * i / 8 + 1) with false by (symmetry; lia).
  rewrite Z.eqb_refl.
  destruct (slot_pos i Hi) as (_ & _ & Hb).
  apply erase_get_byte; try assumption; apply sh_get_range.
Qed.

Lemma getsize_putsize_other h m i v j :
  0 <= i < 2 ^ 28 -> 0 <= v < 64 -> 0 <= j < 2 ^ 28 -> j <> i ->
  buddy.getsize h (buddy.putsize h m i v) j = buddy.getsize h m j.
Proof.
  intros Hi Hv Hj Hne. rewrite !getsize_slot by exact Hj.
  apply from_bits_ext. intros t Ht. apply putsize_frame; try assumption; lia.
Qed.

Lemma getsize_erasesize_other h m i j :
  0 <= i < 2 ^ 28 -> 0 <= j < 2 ^ 28 -> j <> i ->
  buddy.getsize h (buddy.erasesize h m i) j = buddy.getsize h m j.
Proof.
  intros Hi Hj Hne. rewrite !getsize_slot by exact Hj.
  apply from_bits_ext. intros t Ht. apply erasesize_frame; try assumption; lia.
Qed.

(** C7. Writing [v] into an empty entry and reading it back gives [v];
    erasing an entry makes it read 0; and neither operation changes a bit
    outside the six bits of the entry, so that every other entry reads as
    before. *)
Theorem size_codec_roundtrip h m i v :
  0 <= i < 2 ^ 28 -> 0 <= v <= 63 -> buddy.getsize h m i = 0 ->
  buddy.getsize h (buddy.putsize h m i v) i = v
  /\ (forall m', buddy.getsize h (buddy.erasesize h m' i) i = 0)
  /\ (forall q, 0 <= q -> ~ (6 * i <= q < 6 * i + 6) ->
        sizebit h (buddy.putsize h m i v) q = sizebit h m q
        /\ forall m', sizebit h (buddy.erasesize h m' i) q = sizebit h m' q)
  /\ (forall j, 0 <= j < 2 ^ 28 -> j <> i ->
        buddy.getsize h (buddy.putsize h m i v) j = buddy.getsize h m j
        /\ forall m', buddy.getsize h (buddy.erasesize h m' i) j
                      = buddy.getsize h m' j).
Proof.
  intros Hi Hv H0. split; [|split; [|split]].
  - apply getsize_putsize; try assumption; lia.
  - intros m'. apply getsize_erasesize. exact Hi.
  - intros q Hq Hout. split.
    + apply putsize_frame; try assumption; lia.
    + intros m'. apply erasesize_frame; assumption.
  - intros j Hj Hne. split.
    + apply getsize_putsize_other; try assumption; lia.
    + intros m'. apply getsize_erasesize_other; assumption.
Qed.

Lemma size_codec_roundtrip_witness :
  let h := fst (fst buddy_fresh) in
  let m := snd (fst buddy_fresh) in
  (0 <= 5 < 2 ^ 28 /\ 0 <= 7 <= 63 /\ buddy.getsize h m 5 = 0)
  /\ buddy.getsize h (buddy.putsize h m 5 7) 5 = 7.
Proof.
  intros h m.
  assert (H1 : 0 <= 5 < 2 ^ 28) by lia.
  assert (H2 : 0 <= 7 <= 63) by lia.
  assert (H3 : buddy.getsize h m 5 = 0) by (vm_compute; reflexivity).
  split; [auto|].
  exact (proj1 (size_codec_roundtrip h m 5 7 H1 H2 H3)).
Defined.


(** ** Rounding to a power of two: [nextpow2] and [buddy_log2] *)

Lemma spread_init x : spread x x 1.
Proof.
  intros i Hi. split.
  - intros H. exists i. split; [lia|exact H].
  - intros (j & Hj & H). replace i with j by lia. exact H.
Qed.

Lemma spread_step x y w :
  0 < w -> spread x y w -> spread x (Z.lor y (Z.shiftr y w)) (2 * w).
Proof.
  intros Hw H i Hi. rewrite Z.lor_spec, Z.shiftr_spec by lia.
  rewrite orb_true_iff, (H i Hi), (H (i + w)) by lia. split.
  - intros [(j & Hj & Hb)|(j & Hj & Hb)]; exists j; (split; [lia|exact Hb]).
  - intros (j & Hj & Hb). destruct (Z.lt_ge_cases j (i + w)).
    + left. exists j. split; [lia|exact Hb].
    + right. exists j. split; [lia|exact Hb].
Qed.

Lemma smear_spread x : spread x (smear x) 32.
Proof.
  unfold smear. cbv zeta.
  apply (spread_step x _ 16); [lia|].
  apply (spread_step x _ 8); [lia|].
  apply (spread_step x _ 4); [lia|].
  apply (spread_step x _ 2); [lia|].
  apply (spread_step x _ 1); [lia|].
  apply spread_init.
Qed.

Lemma smear_ones x :
  0 < x < 2 ^ 32 -> smear x = Z.ones (Z.log2 x + 1).
Proof.
  intros Hx.
  assert (Hl : 0 <= Z.log2 x < 32).
  { split; [apply Z.log2_nonneg|]. apply Z.log2_lt_pow2; lia. }
  apply Z.bits_inj'. intros i Hi.
  rewrite Z.testbit_ones_nonneg by lia.
  pose proof (smear_spread x i Hi) as [H1 H2].
  destruct (Z.ltb_spec i (Z.log2 x + 1)) as [Hlt|Hge].
  - apply H2. exists (Z.log2 x). split; [lia|]. apply Z.bit_log2. lia.
  - destruct (Z.testbit (smear x) i) eqn:E; [|reflexivity].
    destruct (H1 eq_refl) as (j & Hj & Hb).
    rewrite Z.bits_above_log2 in Hb by lia. discriminate.
Qed.

Lemma nextpow2_smear sz :
  buddy.nextpow2 sz = u32 (smear (u32 (sz - 1)) + 1).
Proof. reflexivity. Qed.

(** For a size between 1 and [2^31], [nextpow2] is the least power of two
    that is not below it. *)
Lemma nextpow2_spec n :
  1 <= n <= 2 ^ 31 ->
  exists k, 0 <= k <= 31 /\ buddy.nextpow2 n = 2 ^ k /\ n <= 2 ^ k < 2 * n.
Proof.
  intros Hn. destruct (Z.eq_dec n 1) as [->|Hne].
  - exists 0. split; [lia|]. split; [reflexivity|lia].
  - rewrite nextpow2_smear.
    assert (Hu : u32 (n - 1) = n - 1) by (unfold u32; apply Z.mod_small; lia).
    rewrite Hu, smear_ones by lia.
    pose proof (Z.log2_spec (n - 1) ltac:(lia)) as Hs.
    assert (Hl : 0 <= Z.log2 (n - 1) < 31).
    { split; [apply Z.log2_nonneg|]. apply Z.log2_lt_pow2; lia. }
    rewrite Z.ones_equiv.
    replace (Z.succ (Z.log2 (n - 1))) with (Z.log2 (n - 1) + 1) in Hs by lia.
    assert (Hp : 2 ^ (Z.log2 (n - 1) + 1) <= 2 ^ 31)
      by (apply Z.pow_le_mono_r; lia).
    exists (Z.log2 (n - 1) + 1). split; [lia|]. split.
    + unfold u32. rewrite Z.mod_small; lia.
    + rewrite Z.pow_add_r in * by lia. lia.
Qed.

Lemma buddy_log2_pow2 k : 0 <= k <= 31 -> buddy.buddy_log2 (2 ^ k) = k.
Proof.
  intros Hk. unfold buddy.buddy_log2, buddy.clz.
  assert (0 < 2 ^ k) by (apply Z.pow_pos_nonneg; lia).
  replace (2 ^ k =? 0) with false by (symmetry; apply Z.eqb_neq; lia).
  rewrite Z.log2_pow2 by lia. unfold u8. rewrite Z.mod_small; lia.
Qed.

(** ** Shrinking a block in place *)

(** The block the loop cuts off a remainder [cz]: a power of two that is
    not larger than [cz]. *)
Lemma shrink_piece cz :
  1 <= cz <= 2 ^ 31 ->
  let k := buddy.nextpow2 cz in
  let k := if negb (cz =? k) then Z.shiftr k 2 else k in
  exists j, 0 <= j <= 31 /\ k = 2 ^ j /\ 1 <= k <= cz.
Proof.
  intros Hcz. cbv zeta.
  destruct (nextpow2_spec cz Hcz) as (j & Hj & -> & Hlo & Hhi).
  destruct (Z.eqb_spec cz (2 ^ j)) as [E|Hne]; cbn [negb].
  - exists j. split; [lia|]. split; [reflexivity|lia].
  - assert (2 <= j).
    { destruct (Z.lt_ge_cases j 2) as [Hlt|]; [|assumption].
      assert (j = 0 \/ j = 1) as [->| ->] by lia;
        [change (2 ^ 0) with 1 in * | change (2 ^ 1) with 2 in *]; lia. }
    assert (Hs : Z.shiftr (2 ^ j) 2 = 2 ^ (j - 2)).
    { rewrite Z.shiftr_div_pow2 by lia.
      replace j with (j - 2 + 2) at 1 by lia.
      rewrite Z.pow_add_r by lia. apply Z.div_mul. discriminate. }
    rewrite Hs. exists (j - 2). split; [lia|]. split; [reflexivity|].
    assert (0 < 2 ^ (j - 2)) by (apply Z.pow_pos_nonneg; lia).
    assert (2 ^ j = 4 * 2 ^ (j - 2)).
    { replace j with (j - 2 + 2) at 1 by lia.
      rewrite Z.pow_add_r by lia. lia. }
    lia.
Qed.

(** [binsert] of a block inside the main heap passes its assertion. *)
Lemma binsert_some h m add k :
  0 <= add < buddy.msize h -> buddy.msize h < 2 ^ 32 ->
  buddy.binsert h m add k
  = Some (buddy.ah_set h (buddy.block_insert h m (buddy.ah_get h m k) add)
                       k add).
Proof.
  intros Ha Hm. unfold buddy.binsert, buddy.ah_assert. cbv zeta.
  set (m1 := buddy.ah_set h _ k add).
  assert (E : buddy.ah_get h m1 k = add)
    by (apply load32_store32_same; lia).
  rewrite E. test_true (add <? buddy.msize h). reflexivity.
Qed.

Lemma bshrink_loop_tiles fuel : forall h m b cz,
  0 <= cz <= 2 ^ 31 -> 0 <= b -> b + cz <= buddy.msize h ->
  buddy.msize h < 2 ^ 32 -> (Z.to_nat cz < fuel)%nat ->
  exists m' log,
    buddy.bshrink_loop fuel h m b cz = Some (m', log)
    /\ insert_all h m log = Some m'
    /\ tiles log b (b + cz).
Proof.
  induction fuel as [|fuel IH]; intros h m b cz Hcz Hb Hend Hm Hfuel; [lia|].
  cbn [buddy.bshrink_loop].
  destruct (Z.ltb_spec 0 cz) as [Hpos|Hz].
  - pose proof (shrink_piece cz ltac:(lia)) as Hp. cbv zeta in Hp.
    destruct Hp as (j & Hj & Hk & Hk1).
    set (k := if negb (cz =? buddy.nextpow2 cz)
              then Z.shiftr (buddy.nextpow2 cz) 2
              else buddy.nextpow2 cz) in *.
    replace (buddy.buddy_log2 k) with j
      by (rewrite Hk; symmetry; apply buddy_log2_pow2; exact Hj).
    rewrite (u32_small (b + k)), (u32_small (cz - k)) by lia.
    rewrite binsert_some by lia. cbn [obind].
    set (m1 := buddy.ah_set h _ j b).
    destruct (IH h m1 (b + k) (cz - k)) as (m' & log & -> & Hins & Ht);
      try lia.
    exists m', ((b, j) :: log). split; [reflexivity|]. split.
    + cbn [insert_all]. rewrite binsert_some by lia. exact Hins.
    + cbn [tiles]. split; [reflexivity|]. split; [lia|].
      rewrite <- Hk. replace (b + cz) with (b + k + (cz - k)) by lia.
      exact Ht.
  - exists m, []. split; [reflexivity|]. split; [reflexivity|]. cbn. lia.
Qed.

(** C8. For size exponents [s < c] with [2^s] at least the minimal size
    and a block of [2^c] bytes at offset [b] of the main heap, [bshrink]
    comes to an end, what it does to the store after it has set the new
    size is to insert the blocks of its log, one after the other, and
    these blocks fill the released tail [[b + 2^s, b + 2^c)] exactly. *)
Theorem bshrink_tiles h m b c s :
  c <= 31 -> buddy.MINSIZE <= 2 ^ s < 2 ^ c ->
  0 <= b -> b + 2 ^ c <= buddy.msize h -> buddy.msize h < 2 ^ 32 ->
  exists m' log,
    buddy.bshrink h m b c s = Some (m', log)
    /\ insert_all h (buddy.putsize h (buddy.erasesize h m
                                        (buddy.block2size b))
                                    (buddy.block2size b) s) log = Some m'
    /\ tiles log (b + 2 ^ s) (b + 2 ^ c).
Proof.
  intros Hc31 [Hmin Hlt] Hb Hend Hm. unfold buddy.MINSIZE in Hmin.
  assert (Hs : 0 <= s).
  { destruct (Z.lt_ge_cases s 0) as [Hneg|]; [|assumption].
    rewrite (Z.pow_neg_r 2 s Hneg) in Hmin. lia. }
  assert (Hc : s < c).
  { apply pow2_lt_inv; [|exact Hlt].
    destruct (Z.lt_ge_cases c 0) as [Hneg|]; [|assumption].
    rewrite (Z.pow_neg_r 2 c Hneg) in Hlt. lia. }
  pose proof (pow2_le_31 s ltac:(lia)) as Hps.
  pose proof (pow2_le_31 c ltac:(lia)) as Hpc.
  assert (H2 : 2 ^ (s + 1) = 2 * 2 ^ s)
    by (rewrite Z.pow_add_r by lia; lia).
  assert (Hle : 2 ^ (s + 1) <= 2 ^ c) by (apply Z.pow_le_mono_r; lia).
  unfold buddy.bshrink. cbv zeta.
  rewrite !shiftl_1 by lia.
  rewrite (u32_small (2 ^ c)), (u32_small (2 ^ s)) by lia.
  rewrite (u32_small (b + 2 ^ s)) by lia.
  rewrite Z.shiftl_mul_pow2 by lia. change (2 ^ 1) with 2.
  rewrite (u32_small (2 ^ s * 2)), (u32_small (b + 2 ^ s + 2 ^ s)) by lia.
  rewrite (u32_small (2 ^ c - 2 ^ s * 2)) by lia.
  rewrite binsert_some by lia. cbn [obind].
  set (m0 := buddy.putsize h _ (buddy.block2size b) s).
  set (m1 := buddy.ah_set h _ s (b + 2 ^ s)).
  destruct (bshrink_loop_tiles (S (Z.to_nat (2 ^ c - 2 ^ s * 2))) h m1
              (b + 2 ^ s + 2 ^ s) (2 ^ c - 2 ^ s * 2))
    as (m' & log & -> & Hins & Ht); try lia.
  exists m', ((b + 2 ^ s, s) :: log).
  split; [reflexivity|]. split.
  - cbn [insert_all]. rewrite binsert_some by lia. exact Hins.
  - cbn [tiles]. split; [reflexivity|]. split; [exact Hs|].
    replace (b + 2 ^ c) with (b + 2 ^ s + 2 ^ s + (2 ^ c - 2 ^ s * 2)) by lia.
    exact Ht.
Qed.

Lemma bshrink_tiles_witness :
  let h := fst (fst buddy_fresh) in
  (7 <= 31 /\ buddy.MINSIZE <= 2 ^ 3 < 2 ^ 7
   /\ 0 <= 0 /\ 0 + 2 ^ 7 <= buddy.msize h /\ buddy.msize h < 2 ^ 32)
  /\ exists m' log,
       buddy.bshrink h zero_mem 0 7 3 = Some (m', log)
       /\ tiles log (0 + 2 ^ 3) (0 + 2 ^ 7).
Proof.
  intros h.
  assert (H1 : 7 <= 31) by lia.
  assert (H2 : buddy.MINSIZE <= 2 ^ 3 < 2 ^ 7)
    by (unfold buddy.MINSIZE; lia).
  assert (H3 : 0 <= 0) by lia.
  assert (H4 : 0 + 2 ^ 7 <= buddy.msize h)
    by (apply Z.leb_le; vm_compute; reflexivity).
  assert (H5 : buddy.msize h < 2 ^ 32)
    by (apply Z.ltb_lt; vm_compute; reflexivity).
  split; [auto 10|].
  destruct (bshrink_tiles h zero_mem 0 7 3 H1 H2 H3 H4 H5)
    as (m' & log & E & _ & T).
  exists m', log. split; assumption.
Defined.

(** The blocks released when a block of 128 bytes at offset 0 shrinks to
    8 bytes. *)
Lemma bshrink_log_128_to_8 :
  option_map snd (buddy.bshrink (fst (fst buddy_fresh)) zero_mem 0 7 3)
  = Some [(8, 3); (16, 5); (48, 5); (80, 4); (96, 5)].
Proof. vm_compute. reflexivity. Qed.

(** ** A freshly initialised buddy arena *)

(** *** The lists and the size area of a laid-out heap *)

Section Arena.

Variables (h : buddy.buddy_heap_t) (A : Z).
Hypothesis L : laid_out h A.

Lemma msize_bounds : 8 <= buddy.msize h <= 2 ^ 31.
Proof.
  destruct L as (HA & _ & -> & _). split.
  - change 8 with (2 ^ 3). apply Z.pow_le_mono_r; lia.
  - apply Z.pow_le_mono_r; lia.
Qed.

Lemma block2ptr_heap add :
  0 <= add < buddy.msize h -> buddy.block2ptr h add = buddy.mh h + add.
Proof.
  intros Ha. pose proof msize_bounds as Hm.
  destruct L as (_ & _ & _ & Hmh & _ & _ & H64).
  unfold buddy.block2ptr, buddy.NOBLOCK.
  test_false (add =? 0xffffffff). rewrite u64_small; lia.
Qed.

Lemma ah_get_heap_store m a v j :
  buddy.mh h <= a -> a + 4 <= buddy.mh h + buddy.msize h -> 0 <= j ->
  buddy.ah_get h (store32 m a v) j = buddy.ah_get h m j.
Proof.
  intros H1 H2 Hj. destruct L as (_ & _ & _ & _ & Hah & _).
  unfold buddy.ah_get. apply load32_store32_other. lia.
Qed.

Lemma ah_get_heap_memset m a c n j :
  buddy.mh h <= a -> a + n <= buddy.mh h + buddy.msize h -> 0 <= j ->
  buddy.ah_get h (memset m a c n) j = buddy.ah_get h m j.
Proof.
  intros H1 H2 Hj. destruct L as (_ & _ & _ & _ & Hah & _).
  unfold buddy.ah_get. apply load32_memset_other. lia.
Qed.

Lemma ah_get_set_same m i v :
  0 <= v < 2 ^ 32 -> buddy.ah_get h (buddy.ah_set h m i v) i = v.
Proof. intros Hv. apply load32_store32_same. exact Hv. Qed.

Lemma ah_get_set_other m i v j :
  j <> i -> buddy.ah_get h (buddy.ah_set h m i v) j = buddy.ah_get h m j.
Proof.
  intros Hj. unfold buddy.ah_get, buddy.ah_set.
  apply load32_store32_other. lia.
Qed.

Lemma ah_get_block_insert m list add j :
  0 <= add -> add + 8 <= buddy.msize h -> link_ok h list -> 0 <= j ->
  buddy.ah_get h (buddy.block_insert h m list add) j = buddy.ah_get h m j.
Proof.
  intros Ha1 Ha2 Hl Hj. unfold buddy.block_insert. cbv zeta.
  rewrite (block2ptr_heap add) by lia.
  destruct (Z.eqb_spec list buddy.NOBLOCK) as [E|Hne]; cbn [negb].
  - unfold buddy.set_prv, buddy.set_nxt.
    rewrite !ah_get_heap_store by lia. reflexivity.
  - destruct Hl as [E|[Hl1 Hl2]]; [contradiction|].
    rewrite (block2ptr_heap list) by lia.
    unfold buddy.set_prv, buddy.set_nxt.
    rewrite !ah_get_heap_store by lia. reflexivity.
Qed.

(** What is written below the size area leaves its entries alone. *)
Lemma keeps_store m a v :
  a + 4 <= buddy.sh h -> keeps_sizes h m (store32 m a v).
Proof.
  intros Ha y Hy. unfold buddy.sh_get. apply load8_store32_other. lia.
Qed.

Lemma keeps_memset m a c n :
  a + n <= buddy.sh h -> keeps_sizes h m (memset m a c n).
Proof.
  intros Ha y Hy. unfold buddy.sh_get. rewrite load8_memset.
  destruct (Z.leb_spec a (buddy.sh h + y)); cbn [andb]; [|reflexivity].
  test_false (buddy.sh h + y <? a + n). reflexivity.
Qed.


Lemma keeps_trans m1 m2 m3 :
  keeps_sizes h m1 m2 -> keeps_sizes h m2 m3 -> keeps_sizes h m1 m3.
Proof. intros H1 H2 y Hy. rewrite H2, H1 by exact Hy. reflexivity. Qed.

Lemma getsize_keeps m m' i :
  keeps_sizes h m m' -> buddy.getsize h m' i = buddy.getsize h m i.
Proof.
  intros K. unfold buddy.getsize. cbv zeta.
  assert (Hy : 0 <= u32 (i * 6) / 8).
  { apply Z.div_pos; [|lia]. apply Z.mod_pos_bound. lia. }
  rewrite !K by lia. reflexivity.
Qed.

Lemma heap_below_sizes a n :
  a + n <= buddy.mh h + buddy.msize h -> a + n <= buddy.sh h.
Proof. destruct L as (? & _ & _ & _ & ? & ? & _). lia. Qed.

Lemma keeps_ah_set m k v :
  0 <= k <= A -> keeps_sizes h m (buddy.ah_set h m k v).
Proof.
  intros Hk. destruct L as (_ & _ & _ & _ & _ & Hsh & _).
  apply keeps_store. lia.
Qed.

Lemma keeps_block_insert m list add :
  0 <= add -> add + 8 <= buddy.msize h -> link_ok h list ->
  keeps_sizes h m (buddy.block_insert h m list add).
Proof.
  intros Ha1 Ha2 Hl. unfold buddy.block_insert. cbv zeta.
  rewrite (block2ptr_heap add) by lia.
  unfold buddy.set_prv, buddy.set_nxt.
  assert (K2 : forall m0, keeps_sizes h m0
                 (store32 (store32 m0 (buddy.mh h + add) list)
                          (buddy.mh h + add + 4) buddy.NOBLOCK)).
  { intros m0. eapply keeps_trans; apply keeps_store;
      apply heap_below_sizes; lia. }
  destruct (Z.eqb_spec list buddy.NOBLOCK) as [E|Hne]; cbn [negb].
  - apply K2.
  - destruct Hl as [E|[Hl1 Hl2]]; [contradiction|].
    rewrite (block2ptr_heap list) by lia.
    eapply keeps_trans; [apply K2|].
    apply keeps_store. apply heap_below_sizes. lia.
Qed.

(** The assertion on the head of a list. *)
Lemma ah_assert_ok m k :
  link_ok h (buddy.ah_get h m k) -> buddy.ah_assert h m k = Some tt.
Proof.
  intros [E|[H1 H2]]; unfold buddy.ah_assert.
  - rewrite E, Z.eqb_refl, orb_true_r. reflexivity.
  - test_true (buddy.ah_get h m k <? buddy.msize h). reflexivity.
Qed.

Lemma binsert_lists m add k :
  0 <= add -> add + 8 <= buddy.msize h -> link_ok h (buddy.ah_get h m k) ->
  0 <= k <= A ->
  exists m',
    buddy.binsert h m add k = Some m'
    /\ buddy.ah_get h m' k = add
    /\ (forall j, 0 <= j -> j <> k ->
          buddy.ah_get h m' j = buddy.ah_get h m j)
    /\ keeps_sizes h m m'
    /\ (buddy.ah_get h m k = buddy.NOBLOCK \/ add <= buddy.ah_get h m k ->
        buddy.nxt m' (buddy.mh h + add) = buddy.ah_get h m k).
Proof.
  intros Ha1 Ha2 Hl Hk. pose proof msize_bounds as Hm.
  rewrite binsert_some by lia. eexists. split; [reflexivity|].
  split; [apply ah_get_set_same; lia|]. split; [|split].
  - intros j Hj Hne. rewrite ah_get_set_other by exact Hne.
    apply ah_get_block_insert; assumption.
  - apply (keeps_trans m (buddy.block_insert h m (buddy.ah_get h m k) add)).
    + apply keeps_block_insert; assumption.
    + apply keeps_ah_set. exact Hk.
  - intros Hord. set (list := buddy.ah_get h m k) in *.
    assert (Hr : 0 <= list < 2 ^ 32) by apply load32_range.
    destruct L as (_ & _ & _ & _ & Hah & _).
    unfold buddy.nxt, buddy.ah_set.
    rewrite load32_store32_other by lia.
    unfold buddy.block_insert. cbv zeta.
    rewrite (block2ptr_heap add) by lia.
    unfold buddy.set_prv, buddy.set_nxt.
    destruct (Z.eqb_spec list buddy.NOBLOCK) as [E|Hne]; cbn [negb].
    + rewrite load32_store32_other by lia.
      apply load32_store32_same. exact Hr.
    + destruct Hl as [E|[Hl1 Hl2]]; [contradiction|].
      destruct Hord as [E|Hord]; [contradiction|].
      rewrite (block2ptr_heap list) by lia.
      rewrite !load32_store32_other by lia.
      apply load32_store32_same. exact Hr.
Qed.

(** Removing the block at the head of its list. *)
Lemma bremove_head m add k :
  0 <= add -> add + 8 <= buddy.msize h -> buddy.ah_get h m k = add ->
  link_ok h (buddy.nxt m (buddy.mh h + add)) -> 0 <= k <= A ->
  exists m',
    buddy.bremove h m add k = Some m'
    /\ (forall j, 0 <= j -> j <> k ->
          buddy.ah_get h m' j = buddy.ah_get h m j)
    /\ keeps_sizes h m m'.
Proof.
  intros Ha1 Ha2 Hhead Hl Hk. pose proof msize_bounds as Hm.
  unfold buddy.bremove, buddy.block_remove. rewrite Hhead, Z.eqb_refl.
  replace (add =? buddy.NOBLOCK) with false
    by (symmetry; apply Z.eqb_neq; unfold buddy.NOBLOCK; lia).
  cbn [negb obind]. cbv zeta.
  rewrite (block2ptr_heap add) by lia.
  set (head := buddy.nxt m (buddy.mh h + add)) in *.
  set (m1 := buddy.ah_set h _ k head).
  assert (E : buddy.ah_get h m1 k = head).
  { apply ah_get_set_same. apply load32_range. }
  rewrite ah_assert_ok by (rewrite E; exact Hl).
  cbn [obind]. exists m1. split; [reflexivity|]. split.
  - intros j Hj Hne. unfold m1. rewrite ah_get_set_other by exact Hne.
    unfold buddy.block_clean. rewrite (block2ptr_heap add) by lia.
    apply ah_get_heap_memset; lia.
  - eapply keeps_trans; [|apply keeps_ah_set; exact Hk].
    unfold buddy.block_clean. rewrite (block2ptr_heap add) by lia.
    apply keeps_memset. apply heap_below_sizes. lia.
Qed.

(** Splitting the block at offset 0 moves it one list down. *)
Lemma bsplit_top m s i :
  3 <= s -> s < i <= A -> top_free h m s i ->
  exists m', buddy.bsplit h m 0 i = Some m' /\ top_free h m' s (i - 1).
Proof.
  intros Hs Hi (H0 & Hemp & Hnx & Hsz). pose proof msize_bounds as Hm.
  assert (HA3 : 3 <= A <= 31) by (apply L).
  assert (Hmsz : buddy.msize h = 2 ^ A) by (apply L).
  assert (Hpi : 8 <= 2 ^ (i - 1)).
  { change 8 with (2 ^ 3). apply Z.pow_le_mono_r; lia. }
  assert (Hpm : 2 ^ i <= buddy.msize h).
  { rewrite Hmsz. apply Z.pow_le_mono_r; lia. }
  pose proof (pow2_half i ltac:(lia)) as Hhalf.
  destruct (bremove_head m 0 i) as (m1 & E1 & F1 & K1);
    [lia|lia|exact H0|rewrite Z.add_0_r; exact Hnx|lia|].
  unfold buddy.bsplit. rewrite E1. cbn [obind]. cbv zeta.
  rewrite (u8_small (i - 1)) by lia.
  rewrite Z.shiftl_1_l.
  rewrite (u32_small (2 ^ (i - 1))) by lia.
  rewrite (u32_small (0 + 2 ^ (i - 1))) by lia.
  cbn [Z.add].
  assert (E2 : buddy.ah_get h m1 (i - 1) = buddy.NOBLOCK).
  { rewrite F1 by lia. apply Hemp. lia. }
  destruct (binsert_lists m1 (2 ^ (i - 1)) (i - 1))
    as (m2 & E3 & G2 & F2 & K2 & _); [lia|lia|left; exact E2|lia|].
  rewrite E3. cbn [obind].
  destruct (binsert_lists m2 0 (i - 1)) as (m3 & E4 & G3 & F3 & K3 & N3);
    [lia|lia|right; rewrite G2; lia|lia|].
  exists m3. split; [exact E4|]. split; [exact G3|]. split; [|split].
  - intros j Hj. rewrite F3, F2, F1 by lia. apply Hemp. lia.
  - rewrite Z.add_0_r in N3. rewrite N3 by (right; rewrite G2; lia).
    rewrite G2. right. lia.
  - rewrite (getsize_keeps m m3); [exact Hsz|].
    eapply keeps_trans; [exact K1|]. eapply keeps_trans; eassumption.
Qed.

Lemma getblock_split_top n : forall m s i,
  3 <= s -> s <= i <= A -> Z.of_nat n = i - s -> top_free h m s i ->
  exists m',
    buddy.getblock_split n h m i s 0 = Some (m', s, 0) /\ top_free h m' s s.
Proof.
  assert (HA3 : 3 <= A <= 31) by (apply L).
  induction n as [|n IH]; intros m s i Hs Hi Hn Ht.
  - assert (i = s) as -> by lia. exists m. split; [reflexivity|exact Ht].
  - cbn [buddy.getblock_split]. test_true (s <? i).
    rewrite (proj1 Ht). change (0 =? buddy.NOBLOCK) with false. cbv iota.
    destruct (bsplit_top m s i Hs ltac:(lia) Ht) as (m1 & E & Ht1).
    rewrite E. cbn [obind]. rewrite (u8_small (i - 1)) by lia.
    apply IH; try assumption; lia.
Qed.

Lemma getblock_find_top n : forall m s i b,
  0 <= s -> s <= i <= A -> Z.of_nat n = A + 1 - i -> top_free h m s A ->
  buddy.getblock_find n h m i b = (A, 0).
Proof.
  assert (HA : buddy.AMAX h = A) by (apply L).
  assert (HA3 : 3 <= A <= 31) by (apply L).
  induction n as [|n IH]; intros m s i b Hs Hi Hn Ht; [lia|].
  cbn [buddy.getblock_find]. rewrite HA. test_true (i <=? A).
  destruct (Z.eq_dec i A) as [->|Hne].
  - rewrite (proj1 Ht). reflexivity.
  - rewrite (proj1 (proj2 Ht) i) by lia.
    rewrite Z.eqb_refl. cbn [negb]. rewrite (u8_small (i + 1)) by lia.
    apply (IH m s); try lia. exact Ht.
Qed.

(** With the whole main heap free, [getblock] answers the block at
    offset 0 for every size class below the top one. *)
Lemma getblock_top m k :
  3 <= k < A -> top_free h m k A ->
  exists m', buddy.getblock h m (2 ^ k) = Some (m', 0).
Proof.
  intros Hk Ht. pose proof msize_bounds as Hm.
  assert (HA3 : 3 <= A <= 31) by (apply L).
  assert (HA : buddy.AMAX h = A) by (apply L).
  unfold buddy.getblock. cbv zeta.
  rewrite buddy_log2_pow2 by lia. rewrite HA.
  rewrite (getblock_find_top _ m k k) by (try assumption; lia).
  rewrite Z.leb_refl.
  destruct (getblock_split_top (Z.to_nat (A - k)) m k A)
    as (m1 & E & (H0 & _ & Hnx & Hsz)); try assumption; try lia.
  rewrite E. cbn [obind]. rewrite Z.eqb_refl.
  change (negb (0 =? buddy.NOBLOCK)) with true. cbn [andb].
  change (buddy.block2size 0) with 0. rewrite Hsz. cbn [Z.eqb c_assert obind].
  destruct (bremove_head m1 0 k) as (m2 & E2 & _);
    [lia|lia|exact H0|rewrite Z.add_0_r; exact Hnx|lia|].
  rewrite E2. cbn [obind]. eexists. reflexivity.
Qed.

End Arena.

(** ** [buddy_init] and the size area *)

(** [buddy_init] succeeds on a region of at least two bytes; the sizes
    it computes. *)
Lemma buddy_init_sizes (h : buddy.buddy_heap_t) (m : mem) :
  buddy.mh h <> 0 -> 0 < u32 (buddy.hs h / 2) ->
  exists h' m' rc,
    buddy.buddy_init h m = Some (h', m', rc)
    /\ buddy.msize h' = u32 (buddy.hs h / 2)
    /\ buddy.ssize h' = u32 (u32 (u32 (buddy.hs h / 2) / 8 + 1) * 6) / 8.
Proof.
  destruct h as [mh hs e eh ah sh msize asize ssize esize AMAX ffh].
  cbn [buddy.mh buddy.hs]. intros Hm Hs.
  assert (Hs0 : hs <> 0) by (intros ->; cbn in Hs; lia).
  unfold buddy.buddy_init. cbn [buddy.mh buddy.hs buddy.e buddy.ffh].
  rewrite (eqb_false_of_neq mh 0 Hm), (eqb_false_of_neq hs 0 Hs0).
  cbn [negb andb]. cbv zeta. unfold buddy.init_avail. cbv zeta.
  rewrite binsert_some;
    [|cbn [buddy.msize]; lia
     |cbn [buddy.msize]; apply Z.mod_pos_bound; lia].
  cbn [obind]. destruct (negb (e =? 0)).
  - destruct (ffit.ffit_init _ _) as [[f m'] rc].
    eexists. eexists. eexists. split; [reflexivity|]. split; reflexivity.
  - eexists. eexists. eexists. split; [reflexivity|]. split; reflexivity.
Qed.

(** C9. [buddy_init] divides by 8 rounding down: for every main heap of
    [2^k] bytes the size area it reserves is one byte shorter than the
    rounded-up quotient. *)
Theorem buddy_init_ssize_floor (h : buddy.buddy_heap_t) (m : mem) (k : Z) :
  buddy.mh h <> 0 -> 3 <= k <= 31 -> buddy.hs h = 2 ^ (k + 1) ->
  exists h' m' rc,
    buddy.buddy_init h m = Some (h', m', rc)
    /\ buddy.msize h' = 2 ^ k
    /\ buddy.ssize h' = (buddy.msize h' / 8 + 1) * 6 / 8
    /\ buddy.ssize h' + 1 = ceil_div ((buddy.msize h' / 8 + 1) * 6) 8.
Proof.
  intros Hm Hk Hs.
  assert (Hhalf : buddy.hs h / 2 = 2 ^ k).
  { rewrite Hs, (pow2_half (k + 1)) by lia.
    replace (k + 1 - 1) with k by lia.
    rewrite Z.mul_comm. apply Z.div_mul. discriminate. }
  pose proof (pow2_le_31 k ltac:(lia)) as Hp.
  destruct (buddy_init_sizes h m Hm) as (h' & m' & rc & E & Ems & Ess).
  { rewrite Hhalf, u32_small; lia. }
  exists h', m', rc. split; [exact E|].
  rewrite Ess, Ems, Hhalf. clear - Hk.
  pattern k; apply small_cases; [exact Hk|].
  intros n Hn.
  do 29 (destruct n as [|n]; [vm_compute; repeat split; reflexivity|]). lia.
Qed.

Lemma buddy_init_ssize_floor_witness :
  let h := buddy_arena 64 0 in
  (buddy.mh h <> 0 /\ 3 <= 5 <= 31 /\ buddy.hs h = 2 ^ (5 + 1))
  /\ exists h' m' rc,
       buddy.buddy_init h zero_mem = Some (h', m', rc)
       /\ buddy.ssize h' = 3
       /\ ceil_div ((buddy.msize h' / 8 + 1) * 6) 8 = 4.
Proof.
  intros h.
  assert (H1 : buddy.mh h <> 0) by discriminate.
  assert (H2 : 3 <= 5 <= 31) by lia.
  assert (H3 : buddy.hs h = 2 ^ (5 + 1)) by reflexivity.
  split; [auto|].
  destruct (buddy_init_ssize_floor h zero_mem 5 H1 H2 H3)
    as (h' & m' & rc & E & Hm & Hs & Hc).
  exists h', m', rc. split; [exact E|]. rewrite Hs, Hm. split; reflexivity.
Defined.

(** The entry of the last unit of a main heap of at least 32 bytes starts
    in the last byte of the size area: the second byte that [putsize],
    [getsize] and [erasesize] touch for it has index [ssize]. *)
Lemma size_area_last_entry (k : Z) :
  5 <= k <= 31 ->
  let msize := 2 ^ k in
  let ssize := u32 (u32 (msize / 8 + 1) * 6) / 8 in
  u32 ((msize / 8 - 1) * 6) / 8 + 1 = ssize.
Proof.
  intros Hk. assert (Hk3 : 3 <= k <= 31) by lia.
  revert Hk. pattern k. apply small_cases; [exact Hk3|].
  clear k Hk3. intros n Hn Hk.
  do 29 (destruct n as [|n];
         [first [vm_compute; reflexivity | exfalso; cbn in Hk; lia]|]).
  lia.
Qed.

(** In the arena of the test programs the size area ends where the
    region ends: the byte with index [ssize] is the first byte behind the
    region. *)
Lemma size_area_ends_with_region :
  let h := fst (fst buddy_fresh) in
  buddy.sh h + buddy.ssize h = buddy.mh h + buddy.hs h
  /\ u32 ((buddy.msize h / 8 - 1) * 6) / 8 + 1 = buddy.ssize h.
Proof. vm_compute. split; reflexivity. Qed.

Lemma size_area_nonempty (A : Z) :
  3 <= A <= 31 -> 1 <= u32 (u32 (2 ^ A / 8 + 1) * 6) / 8.
Proof.
  intros HA. pattern A. apply small_cases; [exact HA|].
  intros n Hn.
  do 29 (destruct n as [|n]; [apply Z.leb_le; vm_compute; reflexivity|]).
  lia.
Qed.

Lemma get_byte_empty y : 0 <= y < 256 -> get_byte 0 0 y = 0.
Proof.
  intros Hy. unfold get_byte. change (8 - 0) with 8.
  rewrite (Z.shiftr_div_pow2 y 8) by lia. change (2 ^ 8) with 256.
  rewrite Z.div_small by lia. reflexivity.
Qed.

(** After [buddy_init] without emergency heap the main heap is one free
    block. *)
Lemma buddy_init_fresh h0 m0 A :
  0 < buddy.mh h0 -> buddy.mh h0 + 2 ^ 33 <= 2 ^ 64 -> 3 <= A <= 31 ->
  buddy.hs h0 / 2 = 2 ^ A -> buddy.e h0 = 0 ->
  exists h m,
    buddy.buddy_init h0 m0 = Some (h, m, buddy.OK)
    /\ buddy.mh h = buddy.mh h0 /\ buddy.e h = 0
    /\ laid_out h A /\ top_free h m 0 A.
Proof.
  destruct h0 as [mh hs e eh ah sh msize asize ssize esize AMAX ffh].
  cbn [buddy.mh buddy.hs buddy.e]. intros Hmh Hhi HA Hhs He. subst e.
  pose proof (pow2_le_31 A ltac:(lia)) as HpA.
  assert (Hhs0 : hs <> 0).
  { intros ->. cbn in Hhs. lia. }
  unfold buddy.buddy_init. cbn [buddy.mh buddy.hs buddy.e buddy.ffh].
  rewrite (eqb_false_of_neq mh 0) by lia.
  rewrite (eqb_false_of_neq hs 0) by exact Hhs0.
  cbn [negb andb Z.eqb]. cbv zeta. rewrite Hhs.
  rewrite (u32_small (2 ^ A)) by lia.
  rewrite buddy_log2_pow2 by lia.
  replace (u32 ((A + 1) * 4)) with (4 * A + 4) by (rewrite u32_small; lia).
  pose proof (size_area_nonempty A HA) as Hssz.
  set (ssz := u32 (u32 (2 ^ A / 8 + 1) * 6) / 8) in *.
  set (esz := u32 (2 ^ A - u32 (4 * A + 4 + ssz))).
  assert (Hesz : 0 <= esz < 2 ^ 32)
    by (apply Z.mod_pos_bound; lia).
  rewrite (u64_small (mh + 2 ^ A)) by lia.
  rewrite (u64_small (mh + 2 ^ A + esz)) by lia.
  rewrite (u64_small (mh + 2 ^ A + esz + (4 * A + 4))) by lia.
  set (h := buddy.mkheap mh hs 0 (mh + 2 ^ A) (mh + 2 ^ A + esz)
                         (mh + 2 ^ A + esz + (4 * A + 4)) (2 ^ A)
                         (4 * A + 4) ssz esz A ffh).
  assert (HL : laid_out h A).
  { unfold laid_out, h.
    cbn [buddy.AMAX buddy.msize buddy.mh buddy.ah buddy.sh].
    repeat split; lia. }
  unfold buddy.init_avail, buddy.init_size. cbv zeta.
  change (buddy.msize h) with (2 ^ A). change (buddy.asize h) with (4 * A + 4).
  change (buddy.ssize h) with ssz.
  change (buddy.ah h) with (mh + 2 ^ A + esz).
  change (buddy.sh h) with (mh + 2 ^ A + esz + (4 * A + 4)).
  rewrite buddy_log2_pow2 by lia.
  set (mm := memset _ (mh + 2 ^ A + esz) 255 (4 * A + 4)).
  assert (Hff : forall j, 0 <= j <= A -> buddy.ah_get h mm j = buddy.NOBLOCK).
  { intros j Hj. unfold buddy.ah_get, mm.
    change (buddy.ah h) with (mh + 2 ^ A + esz).
    apply load32_memset_ff; lia. }
  assert (H8 : 2 ^ 3 <= 2 ^ A) by (apply Z.pow_le_mono_r; lia).
  destruct (binsert_lists h A HL mm 0 A) as (m & E & G & F & K & N).
  - lia.
  - change (buddy.msize h) with (2 ^ A). lia.
  - left. apply Hff. lia.
  - lia.
  - rewrite E. cbn [obind]. exists h, m. split; [reflexivity|].
    split; [reflexivity|]. split; [reflexivity|]. split; [exact HL|].
    split; [exact G|]. split; [|split].
    + intros j Hj. rewrite F by lia. apply Hff. lia.
    + change (buddy.mh h) with mh in *. rewrite Z.add_0_r in N.
      rewrite N by (left; apply Hff; lia). left. apply Hff. lia.
    + rewrite (getsize_keeps h mm m 0 K).
      rewrite getsize_bytes by lia.
      change ((6 * 0) mod 8) with 0. change (6 * 0 / 8) with 0.
      replace (buddy.sh_get h mm 0) with 0;
        [apply get_byte_empty; apply sh_get_range|].
      unfold buddy.sh_get, mm.
      change (buddy.sh h) with (mh + 2 ^ A + esz + (4 * A + 4)).
      rewrite !load8_memset.
      test_false (mh + 2 ^ A + esz + (4 * A + 4) + 0
                  <? mh + 2 ^ A + esz + (4 * A + 4)).
      rewrite andb_false_r.
      test_true (mh + 2 ^ A + esz + (4 * A + 4)
                 <=? mh + 2 ^ A + esz + (4 * A + 4) + 0).
      test_true (mh + 2 ^ A + esz + (4 * A + 4) + 0
                 <? mh + 2 ^ A + esz + (4 * A + 4) + ssz).
      reflexivity.
Qed.

(** ** The size gate of [buddy_get_block] *)

Lemma buddy_get_block_rejects h m sz :
  sz = 0 \/ (0 < sz /\ buddy.msize h <= buddy_request sz) ->
  buddy.buddy_get_block h m sz = Some (h, m, NULL).
Proof.
  intros [->|[Hpos Hbig]]; [reflexivity|].
  unfold buddy.buddy_get_block. fold (buddy_request sz).
  replace (0 <? sz) with true by (symmetry; apply Z.ltb_lt; lia).
  replace (buddy_request sz <? buddy.msize h) with false
    by (symmetry; apply Z.ltb_ge; lia).
  reflexivity.
Qed.

Lemma buddy_get_block_searches h m sz :
  0 < sz -> buddy_request sz < buddy.msize h ->
  buddy.buddy_get_block h m sz
  = ('(m', b) <- buddy.getblock h m (buddy_request sz) ;;
     if negb (b =? buddy.NOBLOCK) then Some (h, m', buddy.block2ptr h b)
     else if negb (buddy.e h =? 0) then
       '(f, m', ret) <- ffit.ffit_get_block (buddy.ffh h) m' sz ;;
       Some (buddy.set_ffh h f, m', ret)
     else Some (h, m', NULL)).
Proof.
  intros Hpos Hlt. unfold buddy.buddy_get_block. fold (buddy_request sz).
  replace (0 <? sz) with true by (symmetry; apply Z.ltb_lt; lia).
  replace (buddy_request sz <? buddy.msize h) with true
    by (symmetry; apply Z.ltb_lt; lia).
  reflexivity.
Qed.

(** The size a request between 1 and [2^31] bytes is rounded to. *)
Lemma buddy_request_spec sz :
  0 < sz <= 2 ^ 31 ->
  exists k, 3 <= k <= 31 /\ buddy_request sz = 2 ^ k
            /\ sz <= 2 ^ k /\ (k = 3 \/ 2 ^ k < 2 * sz).
Proof.
  intros Hsz. unfold buddy_request, buddy.MINSIZE.
  destruct (Z.ltb_spec sz 8) as [Hlt|Hge].
  - exists 3. change (2 ^ 3) with 8. lia.
  - rewrite (u32_small sz) by lia.
    destruct (nextpow2_spec sz ltac:(lia)) as (k & Hk & -> & Hlo & Hhi).
    exists k.
    assert (3 <= k).
    { destruct (Z.lt_ge_cases k 3) as [Hk3|]; [|assumption].
      assert (2 ^ k <= 2 ^ 2) by (apply Z.pow_le_mono_r; lia).
      change (2 ^ 2) with 4 in *. lia. }
    repeat split; lia.
Qed.

(** For a main heap of at least 16 bytes the gate lets through the
    requests of at most half the main heap. *)
Lemma buddy_gate_half h A sz :
  4 <= A <= 31 -> buddy.msize h = 2 ^ A -> 0 < sz <= 2 ^ 31 ->
  buddy_request sz < buddy.msize h <-> sz <= buddy.msize h / 2.
Proof.
  intros HA Hms Hsz.
  pose proof (pow2_half A ltac:(lia)) as Hhalf.
  assert (Hdiv : buddy.msize h / 2 = 2 ^ (A - 1)).
  { rewrite Hms, Hhalf. rewrite Z.mul_comm. apply Z.div_mul. discriminate. }
  rewrite Hdiv, Hms.
  destruct (buddy_request_spec sz Hsz) as (k & Hk & -> & Hlo & Hup).
  split; intros H.
  - pose proof (pow2_lt_inv k A ltac:(lia) H).
    assert (2 ^ k <= 2 ^ (A - 1)) by (apply Z.pow_le_mono_r; lia). lia.
  - destruct Hup as [->|Hup]; [|lia].
    apply Z.pow_lt_mono_r; lia.
Qed.

(** C5, as stated: the fresh buddy arena with a main heap of [2^20]
    bytes answers null to a request of [2^19 + 1] bytes. *)
Lemma buddy_get_block_refuses_above_half :
  buddy.msize (fst (fst buddy_fresh)) = 2 ^ 20
  /\ 0 < 2 ^ 19 + 1 < 2 ^ 20
  /\ buddy_get_above_half = Some NULL.
Proof.
  split; [reflexivity|]. split; [lia|]. vm_compute. reflexivity.
Qed.

(** C5. On a freshly initialised arena without emergency heap and with a
    main heap of at least 32 bytes, [buddy_get_block] answers null for
    size 0 and for every size whose rounding [max(8, nextpow2 sz)] is not
    below [msize]; for every other size of at most [2^31] bytes it
    answers the start of the main heap.  The sizes let through are those
    of at most [msize / 2]. *)
Theorem buddy_get_block_size_gate h0 m0 A sz :
  0 < buddy.mh h0 -> buddy.mh h0 + 2 ^ 33 <= 2 ^ 64 -> 5 <= A <= 31 ->
  buddy.hs h0 / 2 = 2 ^ A -> buddy.e h0 = 0 -> 0 <= sz <= 2 ^ 31 ->
  exists h m,
    buddy.buddy_init h0 m0 = Some (h, m, buddy.OK)
    /\ buddy.msize h = 2 ^ A
    /\ (sz = 0 \/ buddy.msize h <= buddy_request sz ->
        buddy.buddy_get_block h m sz = Some (h, m, NULL))
    /\ (0 < sz -> buddy_request sz < buddy.msize h ->
        exists m', buddy.buddy_get_block h m sz = Some (h, m', buddy.mh h)
                   /\ buddy.mh h <> NULL)
    /\ (0 < sz ->
        (buddy_request sz < buddy.msize h <-> sz <= buddy.msize h / 2)).
Proof.
  intros Hmh Hhi HA5 Hhs He Hsz.
  assert (HA : 3 <= A <= 31) by lia.
  destruct (buddy_init_fresh h0 m0 A Hmh Hhi HA Hhs He)
    as (h & m & E & Emh & Ee & HL & Ht).
  assert (Hms : buddy.msize h = 2 ^ A) by (apply HL).
  exists h, m. split; [exact E|]. split; [exact Hms|]. split; [|split].
  - intros [->|Hbig]; [reflexivity|].
    destruct (Z.eq_dec sz 0) as [->|Hnz]; [reflexivity|].
    apply buddy_get_block_rejects. right. lia.
  - intros Hpos Hlt.
    destruct (buddy_request_spec sz ltac:(lia)) as (k & Hk & Ek & _).
    rewrite buddy_get_block_searches by assumption.
    rewrite Ek, Hms in *.
    pose proof (pow2_lt_inv k A ltac:(lia) Hlt) as HkA.
    destruct (getblock_top h A HL m k ltac:(lia)) as (m' & ->).
    { destruct Ht as (H0 & Hemp & Hnx & Hsz0). split; [exact H0|].
      split; [|split; assumption].
      intros j Hj. apply Hemp. lia. }
    cbn [obind]. change (negb (0 =? buddy.NOBLOCK)) with true. cbv iota.
    rewrite (block2ptr_heap h A HL 0) by (rewrite Hms; lia).
    exists m'. rewrite Z.add_0_r. split; [reflexivity|].
    unfold NULL. lia.
  - intros Hpos. apply (buddy_gate_half h A sz); try assumption; lia.
Qed.

Lemma buddy_get_block_size_gate_witness :
  let h0 := buddy_arena 0x200000 0 in
  (0 < buddy.mh h0 /\ buddy.mh h0 + 2 ^ 33 <= 2 ^ 64 /\ 5 <= 20 <= 31
   /\ buddy.hs h0 / 2 = 2 ^ 20 /\ buddy.e h0 = 0 /\ 0 <= 100 <= 2 ^ 31)
  /\ exists h m m',
       buddy.buddy_init h0 zero_mem = Some (h, m, buddy.OK)
       /\ buddy.buddy_get_block h m 100 = Some (h, m', buddy.mh h).
Proof.
  intros h0.
  assert (H1 : 0 < buddy.mh h0) by reflexivity.
  assert (H2 : buddy.mh h0 + 2 ^ 33 <= 2 ^ 64) by (cbn; lia).
  assert (H3 : 5 <= 20 <= 31) by lia.
  assert (H4 : buddy.hs h0 / 2 = 2 ^ 20) by reflexivity.
  assert (H5 : buddy.e h0 = 0) by reflexivity.
  assert (H6 : 0 <= 100 <= 2 ^ 31) by lia.
  split; [auto 10|].
  destruct (buddy_get_block_size_gate h0 zero_mem 20 100
              H1 H2 H3 H4 H5 H6) as (h & m & E & Hms & _ & Hget & _).
  destruct Hget as (m' & Em & _).
  - lia.
  - rewrite Hms. apply Z.ltb_lt. vm_compute. reflexivity.
  - exists h, m, m'. split; [exact E|]. exact Em.
Defined.
(** ** The special cases of extend *)

(** C6. On the first-fit arena extend to a size that maps to the size of
    the block answers null, not the pointer, when the block is as large
    as the arena: an arena of 40 bytes hands out its only block whole, 40
    bytes; the request of 35 bytes maps to 40 bytes, the size of the
    block, and [ffit_extend_block] answers null with [rc = 0], because
    the size gate, 40 below the size of the arena, is tested before the
    sizes are compared. *)
Theorem ffit_extend_same_size_refused :
  ffit_extend_whole_arena = Some (0x10004, 40, 40, NULL, 0).
Proof. vm_compute. reflexivity. Qed.

Lemma ffit_extend_null h m n :
  ffit.ffit_extend_block h m NULL n
  = ('(h', m', p) <- ffit.ffit_get_block h m n ;; Some (h', m', p, 0)).
Proof. reflexivity. Qed.

Lemma ffit_extend_zero h m p :
  p <> NULL ->
  ffit.ffit_extend_block h m p 0
  = ('(h', m', rc) <- ffit.ffit_free_block h m p ;; Some (h', m', NULL, rc)).
Proof.
  intros Hp. unfold ffit.ffit_extend_block.
  rewrite (eqb_false_of_neq _ _ Hp). reflexivity.
Qed.

Lemma ffit_extend_same h m p n :
  p <> NULL -> n <> 0 -> p < u64 (ffit.mh h + ffit.hs h) ->
  ffit_request n < ffit.hs h -> ffit_block_size h m p = ffit_request n ->
  ffit.ffit_extend_block h m p n = Some (h, m, p, 0).
Proof.
  intros Hp Hn Hin Hgate Hsame. unfold ffit.ffit_extend_block.
  rewrite (eqb_false_of_neq _ _ Hp), (eqb_false_of_neq _ _ Hn).
  replace (u64 (ffit.mh h + ffit.hs h) <=? p) with false
    by (symmetry; apply Z.leb_gt; exact Hin).
  fold (ffit_request n). cbv zeta.
  replace (ffit_request n <? ffit.hs h) with true
    by (symmetry; apply Z.ltb_lt; exact Hgate).
  fold (ffit_block_size h m p). rewrite Hsame, Z.eqb_refl. reflexivity.
Qed.

Lemma buddy_extend_null h m n :
  buddy.buddy_extend_block h m NULL n
  = ('(h', m', p) <- buddy.buddy_get_block h m n ;;
     Some (h', m', p, buddy.OK)).
Proof. reflexivity. Qed.

Lemma buddy_extend_zero h m p :
  p <> NULL ->
  buddy.buddy_extend_block h m p 0
  = ('(h', m', rc) <- buddy.buddy_free_block h m p ;;
     Some (h', m', NULL, rc)).
Proof.
  intros Hp. unfold buddy.buddy_extend_block.
  rewrite (eqb_false_of_neq _ _ Hp). reflexivity.
Qed.

Lemma buddy_ptr2block h m p :
  buddy_in_use h m p -> buddy.ptr2block h p = p - buddy.mh h.
Proof.
  intros (Hr & _ & H32 & _). unfold buddy.ptr2block.
  rewrite (eqb_false_of_neq p NULL) by (unfold NULL; lia).
  unfold u64, u32.
  rewrite (Z.mod_small (p - buddy.mh h) (2 ^ 64)) by lia.
  apply Z.mod_small. lia.
Qed.

Lemma buddy_block_ptr h m p :
  buddy_in_use h m p ->
  buddy.block2ptr h (buddy.ptr2block h p) = p.
Proof.
  intros Hu. pose proof (buddy_ptr2block h m p Hu) as Hb. rewrite Hb.
  destruct Hu as (Hr & _ & H32 & Hend & Hal & _). rewrite Hb in Hal.
  assert (H64 : p < 2 ^ 64).
  { pose proof (Z.mod_pos_bound (buddy.mh h + buddy.hs h) (2 ^ 64)
                                ltac:(lia)).
    unfold u64 in Hend. lia. }
  unfold buddy.block2ptr.
  destruct (Z.eqb_spec (p - buddy.mh h) buddy.NOBLOCK) as [E|_].
  - rewrite E in Hal. vm_compute in Hal. discriminate.
  - unfold u64. rewrite Z.mod_small; lia.
Qed.

Lemma buddy_extend_same h m p n :
  n <> 0 -> buddy_in_use h m p ->
  buddy_request n < buddy.msize h -> buddy_block_size h m p = buddy_request n ->
  buddy.buddy_extend_block h m p n = Some (h, m, p, buddy.OK).
Proof.
  intros Hn Hu Hgate Hsame.
  pose proof (buddy_block_ptr h m p Hu) as Hptr.
  destruct Hu as (Hr & Heh & H32 & Hend & Hal & Hcs).
  unfold buddy.buddy_extend_block. cbv zeta.
  rewrite (eqb_false_of_neq p NULL) by (unfold NULL; lia).
  rewrite (eqb_false_of_neq _ _ Hn).
  replace (u64 (buddy.mh h + buddy.hs h) <=? p) with false
    by (symmetry; apply Z.leb_gt; exact Hend).
  replace (buddy.eh h <=? p) with false
    by (symmetry; apply Z.leb_gt; exact Heh).
  fold (buddy_request n).
  replace (buddy_request n <? buddy.msize h) with true
    by (symmetry; apply Z.ltb_lt; exact Hgate).
  unfold buddy.extendblock. cbv zeta.
  rewrite Hal. cbn [Z.eqb negb].
  rewrite (eqb_false_of_neq _ _ Hcs).
  fold (buddy_block_size h m p). rewrite Hsame, Z.eqb_refl.
  cbn [obind]. rewrite Hptr. reflexivity.
Qed.

(** The special cases of extend that hold on both arenas: extend of the
    null pointer is get with [rc = 0], for every size; extend of a
    pointer to size 0 is free with the null pointer for an answer and the
    result of free in [rc]; and extend to a size other than 0 that maps
    to the size of the block answers the pointer and changes nothing
    where that size passes the size gate of the arena. *)
Theorem extend_special_cases
    (fh : ffit.heap_t) (bh : buddy.buddy_heap_t) (m : mem) (p n : Z) :
  p <> NULL ->
  ffit.ffit_extend_block fh m NULL n
  = ('(h', m', q) <- ffit.ffit_get_block fh m n ;; Some (h', m', q, 0))
  /\ ffit.ffit_extend_block fh m p 0
     = ('(h', m', rc) <- ffit.ffit_free_block fh m p ;;
        Some (h', m', NULL, rc))
  /\ (n <> 0 -> p < u64 (ffit.mh fh + ffit.hs fh) ->
      ffit_request n < ffit.hs fh ->
      ffit_block_size fh m p = ffit_request n ->
      ffit.ffit_extend_block fh m p n = Some (fh, m, p, 0))
  /\ buddy.buddy_extend_block bh m NULL n
     = ('(h', m', q) <- buddy.buddy_get_block bh m n ;;
        Some (h', m', q, buddy.OK))
  /\ buddy.buddy_extend_block bh m p 0
     = ('(h', m', rc) <- buddy.buddy_free_block bh m p ;;
        Some (h', m', NULL, rc))
  /\ (n <> 0 -> buddy_in_use bh m p ->
      buddy_request n < buddy.msize bh ->
      buddy_block_size bh m p = buddy_request n ->
      buddy.buddy_extend_block bh m p n = Some (bh, m, p, buddy.OK)).
Proof.
  intros Hp. repeat split.
  - apply ffit_extend_zero. exact Hp.
  - intros. apply ffit_extend_same; assumption.
  - apply buddy_extend_zero. exact Hp.
  - intros. apply buddy_extend_same; assumption.
Qed.

Lemma extend_special_cases_witness :
  let fh := fst (fst ffit_held) in
  let fm := snd (fst ffit_held) in
  let fp := snd ffit_held in
  let bh := fst (fst buddy_held) in
  let bm := snd (fst buddy_held) in
  let bp := snd buddy_held in
  (fp <> NULL /\ 27 <> 0 /\ fp < u64 (ffit.mh fh + ffit.hs fh)
   /\ ffit_request 27 < ffit.hs fh
   /\ ffit_block_size fh fm fp = ffit_request 27)
  /\ ffit.ffit_extend_block fh fm fp 27 = Some (fh, fm, fp, 0)
  /\ (bp <> NULL /\ 100 <> 0 /\ buddy_in_use bh bm bp
      /\ buddy_request 100 < buddy.msize bh
      /\ buddy_block_size bh bm bp = buddy_request 100)
  /\ buddy.buddy_extend_block bh bm bp 100 = Some (bh, bm, bp, buddy.OK).
Proof.
  intros fh fm fp bh bm bp.
  assert (F1 : fp <> NULL) by (apply Z.eqb_neq; vm_compute; reflexivity).
  assert (F2 : 27 <> 0) by lia.
  assert (F3 : fp < u64 (ffit.mh fh + ffit.hs fh))
    by (apply Z.ltb_lt; vm_compute; reflexivity).
  assert (F4 : ffit_request 27 < ffit.hs fh)
    by (apply Z.ltb_lt; vm_compute; reflexivity).
  assert (F5 : ffit_block_size fh fm fp = ffit_request 27)
    by (vm_compute; reflexivity).
  assert (B1 : bp <> NULL) by (apply Z.eqb_neq; vm_compute; reflexivity).
  assert (B2 : 100 <> 0) by lia.
  assert (B3 : buddy_in_use bh bm bp).
  { unfold buddy_in_use.
    repeat match goal with
           | |- _ /\ _ => split
           | |- _ < _ => apply Z.ltb_lt; vm_compute; reflexivity
           | |- _ <= _ => apply Z.leb_le; vm_compute; reflexivity
           | |- _ = _ => vm_compute; reflexivity
           | |- _ <> _ => apply Z.eqb_neq; vm_compute; reflexivity
           end. }
  assert (B4 : buddy_request 100 < buddy.msize bh)
    by (apply Z.ltb_lt; vm_compute; reflexivity).
  assert (B5 : buddy_block_size bh bm bp = buddy_request 100)
    by (vm_compute; reflexivity).
  split; [auto 10|]. split.
  - exact (proj1 (proj2 (proj2
             (extend_special_cases fh bh fm fp 27 F1))) F2 F3 F4 F5).
  - split; [auto 10|].
    exact (proj2 (proj2 (proj2 (proj2 (proj2
             (extend_special_cases fh bh bm bp 100 B1))))) B2 B3 B4 B5).
Defined.

(** ** Arithmetic of sizes and addresses *)

(** X1. For a size between 1 and [2^31], [nextpow2] answers the least
    power of two that is not below the size; above [2^31] the sum wraps
    and the answer is 0, as it is for size 0. *)
Theorem nextpow2_least_power n :
  1 <= n < 2 ^ 32 ->
  (n <= 2 ^ 31 ->
     exists k, 0 <= k <= 31 /\ buddy.nextpow2 n = 2 ^ k /\ n <= 2 ^ k
               /\ forall j, 0 <= j -> n <= 2 ^ j -> k <= j)
  /\ (2 ^ 31 < n -> buddy.nextpow2 n = 0)
  /\ buddy.nextpow2 0 = 0.
Proof.
  intros Hn. split; [|split; [|reflexivity]].
  - intros Hle.
    destruct (nextpow2_spec n ltac:(lia)) as (k & Hk & E & Hlo & Hhi).
    exists k. split; [exact Hk|]. split; [exact E|]. split; [exact Hlo|].
    intros j Hj Hnj. destruct (Z.lt_ge_cases j k) as [Hlt|]; [|assumption].
    assert (2 ^ j <= 2 ^ (k - 1)) by (apply Z.pow_le_mono_r; lia).
    pose proof (pow2_half k ltac:(lia)). lia.
  - intros Hgt. rewrite nextpow2_smear.
    assert (Hu : u32 (n - 1) = n - 1) by (unfold u32; apply Z.mod_small; lia).
    rewrite Hu, smear_ones by lia.
    assert (Hl : Z.log2 (n - 1) = 31).
    { apply Z.log2_unique; [lia|]. change (2 ^ (31 + 1)) with (2 ^ 32). lia. }
    rewrite Hl. reflexivity.
Qed.

Lemma nextpow2_least_power_witness :
  1 <= 100 < 2 ^ 32 /\ buddy.nextpow2 100 = 2 ^ 7.
Proof.
  split; [lia|].
  destruct (nextpow2_least_power 100 ltac:(lia)) as (H & _).
  destruct (H ltac:(lia)) as (k & Hk & E & Hlo & Hmin).
  rewrite E. f_equal.
  assert (k <= 7) by (apply Hmin; lia).
  destruct (Z.lt_ge_cases k 7) as [Hlt|]; [|lia].
  assert (2 ^ k <= 2 ^ 6) by (apply Z.pow_le_mono_r; lia). lia.
Defined.

Lemma modpow2_mod n k :
  0 <= n -> 0 <= k <= 31 -> buddy.modpow2 n (2 ^ k) = n mod 2 ^ k.
Proof.
  intros Hn Hk. unfold buddy.modpow2.
  pose proof (pow2_le_31 k Hk).
  rewrite u32_small by lia.
  replace (2 ^ k - 1) with (Z.ones k) by (rewrite Z.ones_equiv; lia).
  apply Z.land_ones. lia.
Qed.

(** The mask [(k << 1) - 1] of [findbuddy], for [k = 2^s]. *)
Lemma findbuddy_cases block s :
  0 <= s <= 30 -> 0 <= block ->
  buddy.findbuddy block s
  = if block mod 2 ^ (s + 1) =? 0 then u32 (block + 2 ^ s)
    else u32 (block - 2 ^ s).
Proof.
  intros Hs Hb. unfold buddy.findbuddy. cbv zeta.
  rewrite shiftl_1 by lia.
  pose proof (pow2_le_31 s ltac:(lia)) as Hp.
  pose proof (pow2_le_31 (s + 1) ltac:(lia)) as Hp1.
  rewrite (u32_small (2 ^ s)) by lia.
  rewrite Z.shiftl_mul_pow2 by lia. change (2 ^ 1) with 2.
  replace (2 ^ s * 2) with (2 ^ (s + 1))
    by (rewrite Z.pow_add_r by lia; lia).
  rewrite (u32_small (2 ^ (s + 1))) by lia.
  rewrite (u32_small (2 ^ (s + 1) - 1)) by lia.
  replace (2 ^ (s + 1) - 1) with (Z.ones (s + 1))
    by (rewrite Z.ones_equiv; lia).
  rewrite Z.land_ones by lia. reflexivity.
Qed.

(** X2. [findbuddy] pairs the blocks of size [2^s]: the buddy of a block
    aligned to [2^s] lies [2^s] bytes above or below it and is aligned as
    well, the lower of the two is aligned to [2^(s+1)], and the buddy of
    the buddy is the block. *)
Theorem findbuddy_involution block s :
  0 <= s <= 30 -> 0 <= block -> block mod 2 ^ s = 0 ->
  block + 2 ^ s < 2 ^ 32 ->
  let b := buddy.findbuddy block s in
  buddy.findbuddy b s = block
  /\ 0 <= b /\ b mod 2 ^ s = 0
  /\ Z.abs (b - block) = 2 ^ s
  /\ Z.min block b mod 2 ^ (s + 1) = 0.
Proof.
  intros Hs Hb Hal Hhi.
  pose proof (pow2_le_31 s ltac:(lia)) as Hp.
  assert (Hp1 : 2 ^ (s + 1) = 2 * 2 ^ s)
    by (rewrite Z.pow_add_r by lia; lia).
  apply Z.mod_divide in Hal; [|lia]. destruct Hal as [q Hq].
  assert (Hq0 : 0 <= q) by nia.
  assert (Hm : forall r, (2 ^ s * r) mod 2 ^ s = 0).
  { intros r. rewrite Z.mul_comm. apply Z.mod_mul. lia. }
  assert (Heven : forall r, (2 ^ s * (2 * r)) mod 2 ^ (s + 1) = 0).
  { intros r. rewrite Hp1.
    replace (2 ^ s * (2 * r)) with (r * (2 * 2 ^ s)) by lia.
    apply Z.mod_mul. lia. }
  assert (Hodd : forall r, 0 <= r ->
                   (2 ^ s * (2 * r + 1)) mod 2 ^ (s + 1) = 2 ^ s).
  { intros r Hr. rewrite Hp1.
    replace (2 ^ s * (2 * r + 1)) with (2 ^ s + r * (2 * 2 ^ s)) by lia.
    rewrite Z.mod_add by lia. apply Z.mod_small. lia. }
  cbv zeta. rewrite (findbuddy_cases block s) by lia.
  destruct (Z.even q) eqn:Ev.
  - apply Z.even_spec in Ev. destruct Ev as [r Hr].
    assert (Hr0 : 0 <= r) by lia.
    assert (Eb : block = 2 ^ s * (2 * r)) by (subst; lia).
    rewrite Eb, Heven. cbn [Z.eqb].
    rewrite u32_small by lia.
    replace (2 ^ s * (2 * r) + 2 ^ s) with (2 ^ s * (2 * r + 1)) by lia.
    rewrite findbuddy_cases by nia.
    rewrite Hodd by lia.
    replace (2 ^ s =? 0) with false by (symmetry; apply Z.eqb_neq; lia).
    rewrite u32_small by nia.
    split; [lia|]. split; [nia|]. split; [apply Hm|]. split; [lia|].
    rewrite Z.min_l by lia. apply Heven.
  - assert (Od : Z.odd q = true) by (rewrite <- Z.negb_even, Ev; reflexivity).
    apply Z.odd_spec in Od. destruct Od as [r Hr].
    assert (Hr0 : 0 <= r) by lia.
    assert (Eb : block = 2 ^ s * (2 * r + 1)) by (subst; lia).
    rewrite Eb, Hodd by lia.
    replace (2 ^ s =? 0) with false by (symmetry; apply Z.eqb_neq; lia).
    replace (2 ^ s * (2 * r + 1) - 2 ^ s) with (2 ^ s * (2 * r)) by lia.
    rewrite u32_small by nia.
    rewrite findbuddy_cases by nia.
    rewrite Heven. cbn [Z.eqb].
    rewrite u32_small by nia.
    split; [lia|]. split; [nia|]. split; [apply Hm|]. split; [lia|].
    rewrite Z.min_r by lia. apply Heven.
Qed.

Lemma findbuddy_involution_witness :
  (0 <= 4 <= 30 /\ 0 <= 48 /\ 48 mod 2 ^ 4 = 0 /\ 48 + 2 ^ 4 < 2 ^ 32)
  /\ buddy.findbuddy (buddy.findbuddy 48 4) 4 = 48.
Proof.
  assert (H1 : 0 <= 4 <= 30) by lia.
  assert (H2 : 0 <= 48) by lia.
  assert (H3 : 48 mod 2 ^ 4 = 0) by reflexivity.
  assert (H4 : 48 + 2 ^ 4 < 2 ^ 32) by lia.
  split; [auto|].
  exact (proj1 (findbuddy_involution 48 4 H1 H2 H3 H4)).
Defined.

Lemma lor_even_1 s : Z.lor (2 * s) 1 = 2 * s + 1.
Proof.
  apply Z.bits_inj'. intros i Hi. rewrite Z.lor_spec.
  destruct (Z.eq_dec i 0) as [->|Hne].
  - rewrite Z.testbit_odd_0, Z.testbit_even_0. reflexivity.
  - rewrite (Z.bits_above_log2 1 i) by (cbn; lia). rewrite orb_false_r.
    replace i with (Z.succ (i - 1)) by lia.
    rewrite Z.testbit_odd_succ, Z.testbit_even_succ by lia. reflexivity.
Qed.

Lemma land_1_mod x : Z.land x 1 = x mod 2.
Proof. apply (Z.land_ones x 1). lia. Qed.

(** X3. The size word of a first-fit block: a size below [2^31] is read
    back as it was written, with the tag bit clear, and setting the tag
    bit leaves the size alone; a size from [2^31] on loses its top
    bit. *)
Theorem ffit_size_word s :
  0 <= s < 2 ^ 32 ->
  (s < 2 ^ 31 ->
     ffit.getsize (ffit.setsize s) = s
     /\ ffit.gettag (ffit.setsize s) = 0
     /\ ffit.getsize (Z.lor (ffit.setsize s) 1) = s
     /\ ffit.gettag (Z.lor (ffit.setsize s) 1) = 1)
  /\ (2 ^ 31 <= s -> ffit.getsize (ffit.setsize s) = s - 2 ^ 31).
Proof.
  intros Hs. unfold ffit.getsize, ffit.setsize, ffit.gettag.
  rewrite Z.shiftl_mul_pow2 by lia. change (2 ^ 1) with 2.
  replace (s * 2) with (2 * s) by lia. split.
  - intros Hlt. rewrite u32_small by lia.
    rewrite lor_even_1, !land_1_mod, !Z.shiftr_div_pow2 by lia.
    change (2 ^ 1) with 2. unfold u8. change (2 ^ 8) with 256.
    repeat split; Z.div_mod_to_equations; lia.
  - intros Hge. unfold u32.
    replace (2 * s) with (2 * (s - 2 ^ 31) + 1 * 2 ^ 32) by lia.
    rewrite Z.mod_add by lia. rewrite Z.mod_small by lia.
    rewrite Z.shiftr_div_pow2 by lia. change (2 ^ 1) with 2.
    rewrite Z.mul_comm. apply Z.div_mul. lia.
Qed.

Lemma ffit_size_word_witness :
  0 <= 40 < 2 ^ 32 /\ ffit.getsize (ffit.setsize 40) = 40.
Proof.
  split; [lia|].
  exact (proj1 (proj1 (ffit_size_word 40 ltac:(lia)) ltac:(lia))).
Defined.

(** X4. Pseudo pointers and host pointers: inside the first [2^32 - 1]
    bytes from [mh] the two conversions undo each other, null and
    [NOBLOCK] are mapped to each other, and the host pointer at offset
    [2^32 - 1] is taken for no block. *)
Theorem pseudo_pointer_round_trip (h : buddy.buddy_heap_t) (p add : Z) :
  0 < buddy.mh h -> buddy.mh h + 2 ^ 32 <= 2 ^ 64 ->
  buddy.mh h <= p < buddy.mh h + (2 ^ 32 - 1) -> 0 <= add < 2 ^ 32 - 1 ->
  buddy.block2ptr h (buddy.ptr2block h p) = p
  /\ buddy.ptr2block h (buddy.block2ptr h add) = add
  /\ ffit.block2ptr (buddy.mh h) (ffit.ptr2block (buddy.mh h) p) = p
  /\ ffit.ptr2block (buddy.mh h) (ffit.block2ptr (buddy.mh h) add) = add
  /\ buddy.ptr2block h NULL = buddy.NOBLOCK
  /\ buddy.block2ptr h buddy.NOBLOCK = NULL
  /\ buddy.block2ptr h (buddy.ptr2block h (buddy.mh h + (2 ^ 32 - 1))) = NULL.
Proof.
  intros Hmh H64 Hp Ha.
  assert (Ep : u32 (u64 (p - buddy.mh h)) = p - buddy.mh h).
  { rewrite u64_small by lia. apply u32_small. lia. }
  assert (Ea : u32 (u64 (u64 (add + buddy.mh h) - buddy.mh h)) = add).
  { rewrite (u64_small (add + buddy.mh h)) by lia.
    replace (add + buddy.mh h - buddy.mh h) with add by lia.
    rewrite u64_small by lia. apply u32_small. lia. }
  assert (El : u32 (u64 (buddy.mh h + (2 ^ 32 - 1) - buddy.mh h))
               = buddy.NOBLOCK).
  { replace (buddy.mh h + (2 ^ 32 - 1) - buddy.mh h) with (2 ^ 32 - 1) by lia.
    reflexivity. }
  unfold buddy.block2ptr, buddy.ptr2block, ffit.block2ptr, ffit.ptr2block.
  rewrite (eqb_false_of_neq p NULL) by (unfold NULL; lia).
  rewrite (eqb_false_of_neq (buddy.mh h + (2 ^ 32 - 1)) NULL)
    by (unfold NULL; lia).
  rewrite Ep, El.
  rewrite (eqb_false_of_neq (p - buddy.mh h) buddy.NOBLOCK)
    by (unfold buddy.NOBLOCK; lia).
  change ffit.NOBLOCK with buddy.NOBLOCK.
  rewrite (eqb_false_of_neq (p - buddy.mh h) buddy.NOBLOCK)
    by (unfold buddy.NOBLOCK; lia).
  rewrite (eqb_false_of_neq add buddy.NOBLOCK)
    by (unfold buddy.NOBLOCK; lia).
  rewrite (eqb_false_of_neq (u64 (add + buddy.mh h)) NULL)
    by (rewrite u64_small by lia; unfold NULL; lia).
  rewrite Ea, Z.eqb_refl.
  replace (p - buddy.mh h + buddy.mh h) with p by lia.
  rewrite (u64_small p) by lia.
  repeat split; reflexivity.
Qed.

Lemma pseudo_pointer_round_trip_witness :
  let h := buddy_arena 64 0 in
  (0 < buddy.mh h /\ buddy.mh h + 2 ^ 32 <= 2 ^ 64
   /\ buddy.mh h <= 0x10008 < buddy.mh h + (2 ^ 32 - 1)
   /\ 0 <= 8 < 2 ^ 32 - 1)
  /\ buddy.block2ptr h (buddy.ptr2block h 0x10008) = 0x10008.
Proof.
  intros h.
  assert (H1 : 0 < buddy.mh h) by reflexivity.
  assert (H2 : buddy.mh h + 2 ^ 32 <= 2 ^ 64) by (cbn; lia).
  assert (H3 : buddy.mh h <= 0x10008 < buddy.mh h + (2 ^ 32 - 1))
    by (cbn; lia).
  assert (H4 : 0 <= 8 < 2 ^ 32 - 1) by lia.
  split; [auto|].
  exact (proj1 (pseudo_pointer_round_trip h 0x10008 8 H1 H2 H3 H4)).
Defined.

(** ** Requests the managers turn down *)

Lemma buddy_ptr2block_main h ptr :
  0 < buddy.mh h <= ptr -> ptr - buddy.mh h < 2 ^ 32 ->
  buddy.ptr2block h ptr = ptr - buddy.mh h.
Proof.
  intros Hp H32. unfold buddy.ptr2block.
  rewrite (eqb_false_of_neq ptr NULL) by (unfold NULL; lia).
  rewrite u64_small by lia. apply u32_small. lia.
Qed.

Lemma modpow2_minsize x : 0 <= x -> buddy.modpow2 x buddy.MINSIZE = x mod 8.
Proof.
  intros Hx. change buddy.MINSIZE with (2 ^ 3).
  rewrite modpow2_mod by lia. reflexivity.
Qed.

Lemma block2size_div x : buddy.block2size x = x / 8.
Proof. unfold buddy.block2size. rewrite Z.shiftr_div_pow2 by lia. reflexivity. Qed.

Lemma freeblock_not_in_use h m b :
  0 <= b -> b mod 8 <> 0 \/ buddy.getsize h m (b / 8) = 0 ->
  buddy.freeblock h m b = Some (m, buddy.NOTFOUND).
Proof.
  intros Hb Hn. unfold buddy.freeblock.
  rewrite modpow2_minsize, block2size_div by exact Hb.
  destruct (Z.eqb_spec (b mod 8) 0) as [E|_]; [|reflexivity].
  destruct Hn as [Hn|Hn]; [contradiction|]. rewrite Hn. reflexivity.
Qed.

Lemma extendblock_not_in_use h m b sz rc :
  0 <= b -> b mod 8 <> 0 \/ buddy.getsize h m (b / 8) = 0 ->
  buddy.extendblock h m b sz rc = Some (m, buddy.NOBLOCK, buddy.NOTFOUND).
Proof.
  intros Hb Hn. unfold buddy.extendblock.
  rewrite modpow2_minsize, block2size_div by exact Hb.
  destruct (Z.eqb_spec (b mod 8) 0) as [E|_]; [|reflexivity].
  destruct Hn as [Hn|Hn]; [contradiction|]. rewrite Hn. reflexivity.
Qed.

(** X5. A pointer into the main heap that is not the address of a block
    in use, because it is not a multiple of 8 bytes from the start or
    because no size is recorded for it, is turned down with NOTFOUND by
    [buddy_free_block] and by [buddy_extend_block], and nothing is
    changed. *)
Theorem buddy_block_not_in_use h m ptr sz :
  0 < buddy.mh h <= ptr -> ptr < buddy.eh h -> ptr - buddy.mh h < 2 ^ 32 ->
  ptr < u64 (u64 (buddy.mh h + buddy.msize h) + buddy.esize h) ->
  ptr < u64 (buddy.mh h + buddy.hs h) ->
  (ptr - buddy.mh h) mod 8 <> 0
  \/ buddy.getsize h m ((ptr - buddy.mh h) / 8) = 0 ->
  buddy.buddy_free_block h m ptr = Some (h, m, buddy.NOTFOUND)
  /\ (sz <> 0 -> buddy_request sz < buddy.msize h ->
      buddy.buddy_extend_block h m ptr sz
      = Some (h, m, NULL, buddy.NOTFOUND)).
Proof.
  intros Hp Heh H32 Hend Hhs Hn.
  pose proof (buddy_ptr2block_main h ptr Hp H32) as Eb. split.
  - unfold buddy.buddy_free_block.
    test_false (ptr <? buddy.mh h).
    replace (u64 (u64 (buddy.mh h + buddy.msize h) + buddy.esize h) <=? ptr)
      with false by (symmetry; apply Z.leb_gt; exact Hend).
    test_false (buddy.eh h <=? ptr). cbn [orb].
    rewrite Eb, freeblock_not_in_use by (try assumption; lia).
    reflexivity.
  - intros Hsz Hgate. unfold buddy.buddy_extend_block. cbv zeta.
    rewrite (eqb_false_of_neq ptr NULL) by (unfold NULL; lia).
    rewrite (eqb_false_of_neq sz 0 Hsz).
    replace (u64 (buddy.mh h + buddy.hs h) <=? ptr) with false
      by (symmetry; apply Z.leb_gt; exact Hhs).
    test_false (buddy.eh h <=? ptr). fold (buddy_request sz).
    replace (buddy_request sz <? buddy.msize h) with true
      by (symmetry; apply Z.ltb_lt; exact Hgate).
    rewrite Eb, extendblock_not_in_use by (try assumption; lia).
    reflexivity.
Qed.

Lemma buddy_block_not_in_use_witness :
  let h := fst (fst buddy_fresh) in
  let m := snd (fst buddy_fresh) in
  (0 < buddy.mh h <= 0x10003 /\ 0x10003 < buddy.eh h
   /\ 0x10003 - buddy.mh h < 2 ^ 32
   /\ 0x10003 < u64 (u64 (buddy.mh h + buddy.msize h) + buddy.esize h)
   /\ 0x10003 < u64 (buddy.mh h + buddy.hs h)
   /\ (0x10003 - buddy.mh h) mod 8 <> 0)
  /\ buddy.buddy_free_block h m 0x10003 = Some (h, m, buddy.NOTFOUND).
Proof.
  intros h m.
  assert (H1 : 0 < buddy.mh h <= 0x10003)
    by (split; [apply Z.ltb_lt | apply Z.leb_le]; vm_compute; reflexivity).
  assert (H2 : 0x10003 < buddy.eh h)
    by (apply Z.ltb_lt; vm_compute; reflexivity).
  assert (H3 : 0x10003 - buddy.mh h < 2 ^ 32)
    by (apply Z.ltb_lt; vm_compute; reflexivity).
  assert (H4 : 0x10003
               < u64 (u64 (buddy.mh h + buddy.msize h) + buddy.esize h))
    by (apply Z.ltb_lt; vm_compute; reflexivity).
  assert (H5 : 0x10003 < u64 (buddy.mh h + buddy.hs h))
    by (apply Z.ltb_lt; vm_compute; reflexivity).
  assert (H6 : (0x10003 - buddy.mh h) mod 8 <> 0)
    by (apply Z.eqb_neq; vm_compute; reflexivity).
  split; [auto 10|].
  exact (proj1 (buddy_block_not_in_use h m 0x10003 1 H1 H2 H3 H4 H5
                  (or_introl H6))).
Defined.

(** X6. [buddy_extend_block] answers null and leaves [rc] at OK, with
    nothing changed, for a pointer behind the region, for a pointer into
    the secondary range when there is no emergency heap, and for a
    pointer into the main heap when the rounded size does not pass the
    size gate. *)
Theorem buddy_extend_block_null_ok h m ptr sz :
  ptr <> NULL -> sz <> 0 ->
  u64 (buddy.mh h + buddy.hs h) <= ptr
  \/ (buddy.eh h <= ptr /\ buddy.e h = 0)
  \/ (ptr < buddy.eh h /\ buddy.msize h <= buddy_request sz) ->
  buddy.buddy_extend_block h m ptr sz = Some (h, m, NULL, buddy.OK).
Proof.
  intros Hp Hsz Hc. unfold buddy.buddy_extend_block. cbv zeta.
  rewrite (eqb_false_of_neq ptr NULL Hp), (eqb_false_of_neq sz 0 Hsz).
  destruct (Z.leb_spec (u64 (buddy.mh h + buddy.hs h)) ptr) as [|Hlt];
    [reflexivity|].
  destruct Hc as [Hc|[[Hc He]|[Hc Hg]]]; [lia| |].
  - test_true (buddy.eh h <=? ptr). rewrite He. reflexivity.
  - test_false (buddy.eh h <=? ptr). fold (buddy_request sz).
    test_false (buddy_request sz <? buddy.msize h). reflexivity.
Qed.

Lemma buddy_extend_block_null_ok_witness :
  let h := fst (fst buddy_fresh) in
  let m := snd (fst buddy_fresh) in
  (0x110000 <> NULL /\ 100 <> 0
   /\ buddy.eh h <= 0x110000 /\ buddy.e h = 0)
  /\ buddy.buddy_extend_block h m 0x110000 100
     = Some (h, m, NULL, buddy.OK).
Proof.
  intros h m.
  assert (H1 : 0x110000 <> NULL) by discriminate.
  assert (H2 : 100 <> 0) by discriminate.
  assert (H3 : buddy.eh h <= 0x110000)
    by (apply Z.leb_le; vm_compute; reflexivity).
  assert (H4 : buddy.e h = 0) by (vm_compute; reflexivity).
  split; [auto|].
  apply (buddy_extend_block_null_ok h m 0x110000 100 H1 H2).
  right. left. split; assumption.
Defined.

(** The search of [getblock] through empty lists runs to the end of the
    table. *)
Lemma getblock_find_empty h m n : forall i b,
  0 <= i -> buddy.AMAX h < 255 ->
  Z.of_nat n = Z.max 0 (buddy.AMAX h + 1 - i) ->
  (forall j, i <= j <= buddy.AMAX h ->
     buddy.ah_get h m j = buddy.NOBLOCK) ->
  buddy.getblock_find n h m i b = (Z.max i (buddy.AMAX h + 1), b).
Proof.
  induction n as [|n IH]; intros i b Hi HA Hn He.
  - cbn [buddy.getblock_find]. f_equal. lia.
  - cbn [buddy.getblock_find]. test_true (i <=? buddy.AMAX h).
    rewrite He by lia. rewrite Z.eqb_refl. cbn [negb].
    rewrite (u8_small (i + 1)) by lia.
    rewrite IH; [f_equal; lia|lia|exact HA|lia|].
    intros j Hj. apply He. lia.
Qed.

Lemma getblock_exhausted h m s :
  buddy.AMAX h < 255 ->
  (forall j, buddy.buddy_log2 s <= j <= buddy.AMAX h ->
     buddy.ah_get h m j = buddy.NOBLOCK) ->
  buddy.getblock h m s = Some (m, buddy.NOBLOCK).
Proof.
  intros HA He. unfold buddy.getblock. cbv zeta.
  assert (Hs : 0 <= buddy.buddy_log2 s) by (apply Z.mod_pos_bound; lia).
  rewrite (getblock_find_empty h m _ (buddy.buddy_log2 s)); try assumption;
    [|lia].
  test_false (Z.max (buddy.buddy_log2 s) (buddy.AMAX h + 1) <=? buddy.AMAX h).
  cbn [obind]. rewrite Z.eqb_refl. cbn [negb]. rewrite andb_false_r.
  reflexivity.
Qed.



(** ** The layout [buddy_init] computes *)

Lemma layout_fits A :
  5 <= A <= 31 ->
  4 * (A + 1) + u32 (u32 (2 ^ A / 8 + 1) * 6) / 8 < 2 ^ A
  /\ 0 <= u32 (u32 (2 ^ A / 8 + 1) * 6) / 8.
Proof.
  intros HA. assert (HA3 : 3 <= A <= 31) by lia.
  revert HA. pattern A. apply small_cases; [exact HA3|].
  clear A HA3. intros n Hn HA.
  do 29 (destruct n as [|n];
         [first [split; [apply Z.ltb_lt|apply Z.leb_le];
                 vm_compute; reflexivity
                | exfalso; cbn in HA; lia]|]).
  lia.
Qed.

(** X8. For a region of [2^(A+1)] bytes, [5 <= A <= 31], [buddy_init]
    succeeds and lays out the main heap of [2^A] bytes, the emergency
    heap, the table of available lists and the size area one after the
    other so that they fill the region exactly; with the emergency flag
    set the first-fit descriptor covers the emergency heap and the result
    is that of [ffit_init]. *)
Theorem buddy_init_layout h0 m0 A :
  0 < buddy.mh h0 -> buddy.mh h0 + 2 ^ (A + 1) <= 2 ^ 64 -> 5 <= A <= 31 ->
  buddy.hs h0 = 2 ^ (A + 1) ->
  exists h m rc,
    buddy.buddy_init h0 m0 = Some (h, m, rc)
    /\ buddy.mh h = buddy.mh h0 /\ buddy.hs h = buddy.hs h0
    /\ buddy.msize h = 2 ^ A /\ buddy.AMAX h = A
    /\ buddy.asize h = 4 * (A + 1)
    /\ 0 < buddy.esize h
    /\ buddy.eh h = buddy.mh h + buddy.msize h
    /\ buddy.ah h = buddy.eh h + buddy.esize h
    /\ buddy.sh h = buddy.ah h + buddy.asize h
    /\ buddy.sh h + buddy.ssize h = buddy.mh h + buddy.hs h
    /\ (buddy.e h0 = 0 -> rc = buddy.OK)
    /\ (buddy.e h0 <> 0 ->
        ffit.mh (buddy.ffh h) = buddy.eh h
        /\ ffit.hs (buddy.ffh h) = buddy.esize h
        /\ rc = if 32 <? buddy.esize h then 0 else -1).
Proof.
  destruct h0 as [mh hs e eh ah sh msize asize ssize esize AMAX ffh].
  cbn [buddy.mh buddy.hs buddy.e]. intros Hmh Hhi HA Hhs. subst hs.
  pose proof (pow2_le_31 A ltac:(lia)) as HpA.
  assert (Hdbl : 2 ^ (A + 1) = 2 * 2 ^ A)
    by (rewrite Z.pow_add_r by lia; lia).
  assert (Hhalf : 2 ^ (A + 1) / 2 = 2 ^ A).
  { rewrite Hdbl, Z.mul_comm. apply Z.div_mul. discriminate. }
  destruct (layout_fits A HA) as [Hfit _].
  pose proof (size_area_nonempty A ltac:(lia)) as Hss.
  unfold buddy.buddy_init. cbn [buddy.mh buddy.hs buddy.e buddy.ffh].
  rewrite (eqb_false_of_neq mh 0) by lia.
  rewrite (eqb_false_of_neq (2 ^ (A + 1)) 0) by lia.
  cbn [negb andb]. cbv zeta. rewrite Hhalf.
  rewrite (u32_small (2 ^ A)) by lia.
  rewrite buddy_log2_pow2 by lia.
  replace (u32 ((A + 1) * 4)) with (4 * (A + 1)) by (rewrite u32_small; lia).
  set (ssz := u32 (u32 (2 ^ A / 8 + 1) * 6) / 8) in *.
  rewrite (u32_small (4 * (A + 1) + ssz)) by lia.
  rewrite (u32_small (2 ^ A - (4 * (A + 1) + ssz))) by lia.
  set (esz := 2 ^ A - (4 * (A + 1) + ssz)).
  assert (Hesz : esz = 2 ^ A - (4 * (A + 1) + ssz)) by reflexivity.
  clearbody esz.
  rewrite (u64_small (mh + 2 ^ A)) by lia.
  rewrite (u64_small (mh + 2 ^ A + esz)) by lia.
  rewrite (u64_small (mh + 2 ^ A + esz + 4 * (A + 1))) by lia.
  unfold buddy.init_avail. cbv zeta.
  rewrite binsert_some;
    [|cbn [buddy.msize]; lia|cbn [buddy.msize]; lia].
  cbn [obind].
  destruct (Z.eqb_spec e 0) as [He|He]; cbn [negb].
  - eexists. eexists. eexists. split; [reflexivity|].
    cbn [buddy.mh buddy.hs buddy.msize buddy.AMAX buddy.asize buddy.esize
         buddy.eh buddy.ah buddy.sh buddy.ssize].
    repeat split; try reflexivity; lia.
  - unfold ffit.ffit_init. cbv zeta.
    cbn [ffit.hs ffit.mh ffit.set_first ffit.set_last].
    destruct (Z.ltb_spec 32 esz) as [H32|H32].
    + eexists. eexists. eexists. split; [reflexivity|].
      cbn [buddy.mh buddy.hs buddy.msize buddy.AMAX buddy.asize buddy.esize
           buddy.eh buddy.ah buddy.sh buddy.ssize buddy.set_ffh buddy.ffh
           ffit.mh ffit.hs].
      test_true (32 <? esz).
      repeat split; try reflexivity; try lia.
    + eexists. eexists. eexists. split; [reflexivity|].
      cbn [buddy.mh buddy.hs buddy.msize buddy.AMAX buddy.asize buddy.esize
           buddy.eh buddy.ah buddy.sh buddy.ssize buddy.set_ffh buddy.ffh
           ffit.mh ffit.hs].
      test_false (32 <? esz).
      repeat split; try reflexivity; try lia.
Qed.

Lemma buddy_init_layout_witness :
  let h0 := buddy_arena 0x200000 1 in
  (0 < buddy.mh h0 /\ buddy.mh h0 + 2 ^ (20 + 1) <= 2 ^ 64 /\ 5 <= 20 <= 31
   /\ buddy.hs h0 = 2 ^ (20 + 1))
  /\ exists h m rc,
       buddy.buddy_init h0 zero_mem = Some (h, m, rc)
       /\ buddy.sh h + buddy.ssize h = buddy.mh h + buddy.hs h.
Proof.
  intros h0.
  assert (H1 : 0 < buddy.mh h0) by reflexivity.
  assert (H2 : buddy.mh h0 + 2 ^ (20 + 1) <= 2 ^ 64) by (cbn; lia).
  assert (H3 : 5 <= 20 <= 31) by lia.
  assert (H4 : buddy.hs h0 = 2 ^ (20 + 1)) by reflexivity.
  split; [auto|].
  destruct (buddy_init_layout h0 zero_mem 20 H1 H2 H3 H4)
    as (h & m & rc & E & _ & _ & _ & _ & _ & _ & _ & _ & _ & Hend & _).
  exists h, m, rc. split; assumption.
Defined.

(** For a region of 16 or 32 bytes the bookkeeping is larger than the
    main heap: the size of the emergency heap wraps around. *)
Lemma buddy_init_small_region_wraps :
  option_map (fun r => buddy.esize (fst (fst r)))
             (buddy.buddy_init (buddy_arena 32 0) zero_mem)
  = Some (2 ^ 32 - 6).
Proof. vm_compute. reflexivity. Qed.

(** ** First fit: blocks that are not in use *)

(** X9. [ffit_free_block] turns down an address inside the region whose
    size word has the tag bit clear: the result is 4 and nothing is
    changed. *)
Theorem ffit_free_block_untagged h m ptr :
  0 < ffit.mh h -> ffit.mh h + ffit.hs h < 2 ^ 64 ->
  ffit.hs h < 2 ^ 32 ->
  ffit.mh h + 4 <= ptr -> ptr + 5 < ffit.mh h + ffit.hs h ->
  ffit.gettag (ffit.sze m (ptr - 4)) = 0 ->
  ffit.ffit_free_block h m ptr = Some (h, m, ffit.NOTFOUND).
Proof.
  intros Hmh H64 H32 Hlo Hhi Ht.
  unfold ffit.ffit_free_block.
  rewrite (u64_small (ptr - 4)), (u64_small (ptr + 5)) by lia.
  rewrite (u64_small (ffit.mh h + ffit.hs h)) by lia.
  test_true (ffit.mh h <=? ptr - 4).
  test_true (ptr + 5 <? ffit.mh h + ffit.hs h). cbn [andb].
  unfold ffit.P2B, ffit.ptr2block.
  rewrite (eqb_false_of_neq (ptr - 4) NULL) by (unfold NULL; lia).
  rewrite (u64_small (ptr - 4 - ffit.mh h)) by lia.
  rewrite (u32_small (ptr - 4 - ffit.mh h)) by lia.
  unfold ffit.freeblock. cbv zeta. unfold ffit.block2ptr.
  rewrite (eqb_false_of_neq (ptr - 4 - ffit.mh h) ffit.NOBLOCK)
    by (unfold ffit.NOBLOCK; lia).
  replace (ptr - 4 - ffit.mh h + ffit.mh h) with (ptr - 4) by lia.
  rewrite (u64_small (ptr - 4)) by lia.
  rewrite Ht. reflexivity.
Qed.

Lemma ffit_free_block_untagged_witness :
  let h := fst (fst ffit_fresh) in
  let m := snd (fst ffit_fresh) in
  (0 < ffit.mh h /\ ffit.mh h + ffit.hs h < 2 ^ 64 /\ ffit.hs h < 2 ^ 32
   /\ ffit.mh h + 4 <= 0x10004 /\ 0x10004 + 5 < ffit.mh h + ffit.hs h
   /\ ffit.gettag (ffit.sze m (0x10004 - 4)) = 0)
  /\ ffit.ffit_free_block h m 0x10004 = Some (h, m, ffit.NOTFOUND).
Proof.
  intros h m.
  assert (H1 : 0 < ffit.mh h) by reflexivity.
  assert (H2 : ffit.mh h + ffit.hs h < 2 ^ 64) by (cbn; lia).
  assert (H3 : ffit.hs h < 2 ^ 32) by (cbn; lia).
  assert (H4 : ffit.mh h + 4 <= 0x10004) by (cbn; lia).
  assert (H5 : 0x10004 + 5 < ffit.mh h + ffit.hs h) by (cbn; lia).
  assert (H6 : ffit.gettag (ffit.sze m (0x10004 - 4)) = 0)
    by (vm_compute; reflexivity).
  split; [auto 10|].
  exact (ffit_free_block_untagged h m 0x10004 H1 H2 H3 H4 H5 H6).
Defined.

(** ** One block taken from a fresh buddy arena *)

Lemma load32_store8_other m a v a' :
  a' + 4 <= a \/ a < a' -> load32 (store8 m a v) a' = load32 m a'.
Proof.
  intros H. unfold load32. rewrite !load8_store8.
  repeat match goal with
         | |- context [?x =? ?y] =>
             destruct (Z.eqb_spec x y); [lia|]
         end.
  reflexivity.
Qed.

Section Lifecycle.

Variables (h : buddy.buddy_heap_t) (A : Z).
Hypothesis L : laid_out h A.

Lemma pow2_block j :
  3 <= j < A ->
  8 <= 2 ^ j /\ 2 ^ j + 2 ^ j <= buddy.msize h /\ buddy.msize h <= 2 ^ 31.
Proof.
  intros Hj. destruct L as (HA & _ & -> & _). split; [|split].
  - change 8 with (2 ^ 3). apply Z.pow_le_mono_r; lia.
  - replace (2 ^ j + 2 ^ j) with (2 ^ (j + 1))
      by (rewrite Z.pow_add_r by lia; lia).
    apply Z.pow_le_mono_r; lia.
  - apply Z.pow_le_mono_r; lia.
Qed.

Lemma pow2_apart i j : 0 <= i < j -> 2 ^ i + 2 ^ i <= 2 ^ j.
Proof.
  intros Hij. replace (2 ^ i + 2 ^ i) with (2 ^ (i + 1))
    by (rewrite Z.pow_add_r by lia; lia).
  apply Z.pow_le_mono_r; lia.
Qed.

(** *** What the list operations write *)

Lemma nxt_ah_set m k v b :
  0 <= b -> b + 4 <= buddy.msize h -> 0 <= k ->
  buddy.nxt (buddy.ah_set h m k v) (buddy.mh h + b)
  = buddy.nxt m (buddy.mh h + b).
Proof.
  intros Hb1 Hb2 Hk. destruct L as (_ & _ & _ & _ & Hah & _).
  unfold buddy.nxt, buddy.ah_set. apply load32_store32_other. lia.
Qed.

Lemma load32_sh_set m y v p :
  0 <= y -> p + 4 <= buddy.sh h ->
  load32 (buddy.sh_set h m y v) p = load32 m p.
Proof.
  intros Hy Hp. unfold buddy.sh_set. apply load32_store8_other. lia.
Qed.

Lemma load32_putsize m i v p :
  p + 4 <= buddy.sh h -> load32 (buddy.putsize h m i v) p = load32 m p.
Proof.
  intros Hp. unfold buddy.putsize. cbv zeta.
  assert (Hy : 0 <= u32 (i * 6) / 8).
  { apply Z.div_pos; [|lia]. apply Z.mod_pos_bound. lia. }
  rewrite !load32_sh_set by lia. reflexivity.
Qed.

Lemma load32_erasesize m i p :
  p + 4 <= buddy.sh h -> load32 (buddy.erasesize h m i) p = load32 m p.
Proof.
  intros Hp. unfold buddy.erasesize. cbv zeta.
  assert (Hy : 0 <= u32 (i * 6) / 8).
  { apply Z.div_pos; [|lia]. apply Z.mod_pos_bound. lia. }
  destruct (buddy.modpow2 (u32 (i * 6)) 8 =? 0);
    rewrite !load32_sh_set by lia; reflexivity.
Qed.

Lemma ah_below_sizes j : 0 <= j <= A -> buddy.ah h + 4 * j + 4 <= buddy.sh h.
Proof. intros Hj. destruct L as (_ & _ & _ & _ & _ & Hsh & _). lia. Qed.

Lemma heap_word_below_sizes b :
  b + 4 <= buddy.msize h -> buddy.mh h + b + 4 <= buddy.sh h.
Proof. intros Hb. destruct L as (? & _ & _ & _ & ? & ? & _). lia. Qed.

(** [binsert] of a block that lies apart from the head of its list. *)
Lemma binsert_effect m add k :
  0 <= add -> add + 8 <= buddy.msize h -> link_ok h (buddy.ah_get h m k) ->
  0 <= k <= A ->
  buddy.ah_get h m k = buddy.NOBLOCK
  \/ add + 8 <= buddy.ah_get h m k \/ buddy.ah_get h m k + 8 <= add ->
  exists m',
    buddy.binsert h m add k = Some m'
    /\ buddy.ah_get h m' k = add
    /\ (forall j, 0 <= j -> j <> k ->
          buddy.ah_get h m' j = buddy.ah_get h m j)
    /\ keeps_sizes h m m'
    /\ buddy.nxt m' (buddy.mh h + add) = buddy.ah_get h m k
    /\ (forall b, 0 <= b -> b + 8 <= buddy.msize h ->
          b + 8 <= add \/ add + 8 <= b ->
          buddy.ah_get h m k = buddy.NOBLOCK
          \/ b <= buddy.ah_get h m k \/ buddy.ah_get h m k + 8 <= b ->
          buddy.nxt m' (buddy.mh h + b) = buddy.nxt m (buddy.mh h + b)).
Proof.
  intros Ha1 Ha2 Hl Hk Hsep.
  destruct (binsert_lists h A L m add k Ha1 Ha2 Hl Hk)
    as (m' & E & G & F & K & N).
  exists m'. split; [exact E|]. split; [exact G|]. split; [exact F|].
  split; [exact K|]. pose proof (msize_bounds h A L) as Hm.
  clear N. rewrite binsert_some in E by lia. injection E as <-.
  assert (Hr : 0 <= buddy.ah_get h m k < 2 ^ 32) by apply load32_range.
  split.
  - rewrite nxt_ah_set by lia.
    unfold buddy.block_insert. cbv zeta.
    rewrite (block2ptr_heap h A L add) by lia.
    unfold buddy.nxt, buddy.set_prv, buddy.set_nxt.
    destruct (Z.eqb_spec (buddy.ah_get h m k) buddy.NOBLOCK) as [E|Hne];
      cbn [negb].
    + rewrite load32_store32_other by lia.
      apply load32_store32_same. exact Hr.
    + destruct Hl as [E|[Hl1 Hl2]]; [contradiction|].
      rewrite (block2ptr_heap h A L (buddy.ah_get h m k)) by lia.
      rewrite !load32_store32_other by lia.
      apply load32_store32_same. exact Hr.
  - intros b Hb1 Hb2 Hb Hbl.
    rewrite nxt_ah_set by lia.
    unfold buddy.block_insert. cbv zeta.
    rewrite (block2ptr_heap h A L add) by lia.
    unfold buddy.nxt, buddy.set_prv, buddy.set_nxt.
    destruct (Z.eqb_spec (buddy.ah_get h m k) buddy.NOBLOCK) as [E|Hne];
      cbn [negb].
    + rewrite !load32_store32_other by lia. reflexivity.
    + destruct Hl as [E|[Hl1 Hl2]]; [contradiction|].
      rewrite (block2ptr_heap h A L (buddy.ah_get h m k)) by lia.
      rewrite !load32_store32_other by lia. reflexivity.
Qed.

(** [bremove] of the block at the head of its list. *)
Lemma bremove_head_effect m add k :
  0 <= add -> add + 8 <= buddy.msize h -> buddy.ah_get h m k = add ->
  link_ok h (buddy.nxt m (buddy.mh h + add)) -> 0 <= k <= A ->
  exists m',
    buddy.bremove h m add k = Some m'
    /\ buddy.ah_get h m' k = buddy.nxt m (buddy.mh h + add)
    /\ (forall j, 0 <= j -> j <> k ->
          buddy.ah_get h m' j = buddy.ah_get h m j)
    /\ keeps_sizes h m m'
    /\ buddy.nxt m' (buddy.mh h + add) = buddy.NOBLOCK
    /\ (forall b, 0 <= b -> b + 8 <= buddy.msize h ->
          b + 8 <= add \/ add + 8 <= b ->
          buddy.nxt m' (buddy.mh h + b) = buddy.nxt m (buddy.mh h + b)).
Proof.
  intros Ha1 Ha2 Hhead Hl Hk. pose proof (msize_bounds h A L) as Hm.
  destruct (bremove_head h A L m add k Ha1 Ha2 Hhead Hl Hk)
    as (m' & E & F & K).
  exists m'. split; [exact E|].
  revert E. unfold buddy.bremove, buddy.block_remove.
  rewrite Hhead, Z.eqb_refl.
  replace (add =? buddy.NOBLOCK) with false
    by (symmetry; apply Z.eqb_neq; unfold buddy.NOBLOCK; lia).
  cbn [negb obind]. cbv zeta.
  rewrite (block2ptr_heap h A L add) by lia.
  set (head := buddy.nxt m (buddy.mh h + add)) in *.
  set (m1 := buddy.ah_set h _ k head).
  assert (E : buddy.ah_get h m1 k = head).
  { apply ah_get_set_same. apply load32_range. }
  rewrite (ah_assert_ok h) by (rewrite E; exact Hl).
  cbn [obind]. intros [= <-].
  split; [exact E|]. split; [exact F|]. split; [exact K|].
  unfold m1, buddy.block_clean.
  rewrite (block2ptr_heap h A L add) by lia. split.
  - rewrite nxt_ah_set by lia. unfold buddy.nxt.
    apply load32_memset_ff; lia.
  - intros b Hb1 Hb2 Hb. rewrite nxt_ah_set by lia. unfold buddy.nxt.
    apply load32_memset_other. lia.
Qed.

(** [bremove] of the block behind the head of its list, when it is the
    last one. *)
Lemma bremove_second_effect m l add k :
  0 <= l -> l + 8 <= buddy.msize h -> 0 <= add -> add + 8 <= buddy.msize h ->
  l + 8 <= add \/ add + 8 <= l ->
  buddy.ah_get h m k = l -> buddy.nxt m (buddy.mh h + l) = add ->
  buddy.nxt m (buddy.mh h + add) = buddy.NOBLOCK -> 0 <= k <= A ->
  exists m',
    buddy.bremove h m add k = Some m'
    /\ buddy.ah_get h m' k = l
    /\ (forall j, 0 <= j -> j <> k ->
          buddy.ah_get h m' j = buddy.ah_get h m j)
    /\ keeps_sizes h m m'
    /\ buddy.nxt m' (buddy.mh h + l) = buddy.NOBLOCK
    /\ buddy.nxt m' (buddy.mh h + add) = buddy.NOBLOCK
    /\ (forall b, 0 <= b -> b + 8 <= buddy.msize h ->
          b + 8 <= add \/ add + 8 <= b -> b + 8 <= l \/ l + 8 <= b ->
          buddy.nxt m' (buddy.mh h + b) = buddy.nxt m (buddy.mh h + b)).
Proof.
  intros Hl1 Hl2 Ha1 Ha2 Hsep Hhead Hnl Hna Hk.
  pose proof (msize_bounds h A L) as Hm.
  pose proof L as (HA3 & HAM & Hms & Hmh & Hah & Hsh & H64).
  unfold buddy.bremove, buddy.block_remove. rewrite Hhead.
  test_false (l =? add). cbv zeta.
  rewrite (block2ptr_heap h A L l) by lia.
  unfold buddy.list_fuel.
  destruct (Z.to_nat (buddy.msize h)) as [|fuel] eqn:Ef; [lia|].
  cbn [buddy.walk].
  rewrite (eqb_false_of_neq (buddy.mh h + l) NULL) by (unfold NULL; lia).
  rewrite Hnl, Z.eqb_refl. cbn [negb andb obind].
  rewrite (eqb_false_of_neq (buddy.mh h + l) NULL) by (unfold NULL; lia).
  cbn [negb]. rewrite Hnl.
  rewrite (block2ptr_heap h A L add) by lia. rewrite Hna.
  set (m1 := buddy.set_nxt m (buddy.mh h + l) buddy.NOBLOCK).
  assert (Hn1 : buddy.nxt m1 (buddy.mh h + add) = buddy.NOBLOCK).
  { unfold m1, buddy.nxt, buddy.set_nxt.
    rewrite load32_store32_other by lia. exact Hna. }
  rewrite Hn1, Z.eqb_refl. cbn [negb].
  assert (Hpb : buddy.ptr2block h (buddy.mh h + add) = add).
  { unfold buddy.ptr2block.
    rewrite (eqb_false_of_neq (buddy.mh h + add) NULL) by (unfold NULL; lia).
    replace (buddy.mh h + add - buddy.mh h) with add by lia.
    rewrite u64_small by lia. apply u32_small. lia. }
  rewrite Hpb. unfold buddy.block_clean.
  rewrite (block2ptr_heap h A L add) by lia. cbn [obind].
  set (m2 := memset m1 (buddy.mh h + add) 255 8).
  set (m3 := buddy.ah_set h m2 k l).
  assert (E : buddy.ah_get h m3 k = l)
    by (apply ah_get_set_same; lia).
  rewrite (ah_assert_ok h) by (rewrite E; right; lia).
  cbn [obind]. exists m3. split; [reflexivity|]. split; [exact E|].
  split; [|split; [|split; [|split]]].
  - intros j Hj Hne. unfold m3, m2, m1, buddy.set_nxt.
    rewrite ah_get_set_other by exact Hne.
    rewrite (ah_get_heap_memset h A L) by lia.
    apply (ah_get_heap_store h A L); lia.
  - unfold m3, m2, m1, buddy.set_nxt.
    apply (keeps_trans h m (store32 m (buddy.mh h + l) buddy.NOBLOCK)).
    + apply keeps_store. lia.
    + apply (keeps_trans h _ (memset (store32 m (buddy.mh h + l)
                                        buddy.NOBLOCK)
                                     (buddy.mh h + add) 255 8)).
      * apply keeps_memset. lia.
      * apply (keeps_ah_set h A L). exact Hk.
  - unfold m3. rewrite nxt_ah_set by lia. unfold m2, m1, buddy.nxt,
      buddy.set_nxt.
    rewrite load32_memset_other by lia.
    apply load32_store32_same. unfold buddy.NOBLOCK. lia.
  - unfold m3. rewrite nxt_ah_set by lia. unfold m2, buddy.nxt.
    apply load32_memset_ff; lia.
  - intros b Hb1 Hb2 Hba Hbl. unfold m3. rewrite nxt_ah_set by lia.
    unfold m2, m1, buddy.nxt, buddy.set_nxt.
    rewrite load32_memset_other by lia.
    apply load32_store32_other. lia.
Qed.

(** *** Membership in a list of at most two blocks *)

Lemma bisin_head m add k :
  buddy.ah_get h m k = add -> buddy.bisin h m add k = Some true.
Proof.
  intros E. unfold buddy.bisin, buddy.block_is_in.
  rewrite E, Z.eqb_refl. reflexivity.
Qed.

Lemma bisin_empty m add k :
  buddy.ah_get h m k = buddy.NOBLOCK -> add <> buddy.NOBLOCK ->
  buddy.bisin h m add k = Some false.
Proof.
  intros E Hne. pose proof (msize_bounds h A L) as Hm.
  unfold buddy.bisin, buddy.block_is_in. rewrite E.
  rewrite (eqb_false_of_neq buddy.NOBLOCK add) by congruence.
  unfold buddy.list_fuel.
  destruct (Z.to_nat (buddy.msize h)) as [|fuel] eqn:Ef; [lia|].
  reflexivity.
Qed.

Lemma bisin_second m l add k :
  0 <= l -> l + 8 <= buddy.msize h -> l <> add ->
  buddy.ah_get h m k = l -> buddy.nxt m (buddy.mh h + l) = add ->
  buddy.bisin h m add k = Some true.
Proof.
  intros Hl1 Hl2 Hne E Hn. pose proof (msize_bounds h A L) as Hm.
  pose proof L as (HA3 & HAM & Hms & Hmh & Hah & Hsh & H64).
  unfold buddy.bisin, buddy.block_is_in. rewrite E.
  rewrite (eqb_false_of_neq l add Hne). cbv zeta.
  rewrite (block2ptr_heap h A L l) by lia.
  unfold buddy.list_fuel.
  destruct (Z.to_nat (buddy.msize h)) as [|fuel] eqn:Ef; [lia|].
  cbn [buddy.walk].
  rewrite (eqb_false_of_neq (buddy.mh h + l) NULL) by (unfold NULL; lia).
  rewrite Hn, Z.eqb_refl. cbn [negb andb obind].
  rewrite (eqb_false_of_neq (buddy.mh h + l) NULL) by (unfold NULL; lia).
  reflexivity.
Qed.

Lemma bisin_single m l add k :
  0 <= l -> l + 8 <= buddy.msize h -> l <> add -> add <> buddy.NOBLOCK ->
  buddy.ah_get h m k = l ->
  buddy.nxt m (buddy.mh h + l) = buddy.NOBLOCK ->
  buddy.bisin h m add k = Some false.
Proof.
  intros Hl1 Hl2 Hne Hnb E Hn. pose proof (msize_bounds h A L) as Hm.
  pose proof L as (HA3 & HAM & Hms & Hmh & Hah & Hsh & H64).
  unfold buddy.bisin, buddy.block_is_in. rewrite E.
  rewrite (eqb_false_of_neq l add Hne). cbv zeta.
  rewrite (block2ptr_heap h A L l) by lia.
  unfold buddy.list_fuel.
  destruct (Z.to_nat (buddy.msize h)) as [|[|fuel]] eqn:Ef; [lia|lia|].
  cbn [buddy.walk].
  rewrite (eqb_false_of_neq (buddy.mh h + l) NULL) by (unfold NULL; lia).
  rewrite Hn.
  rewrite (eqb_false_of_neq buddy.NOBLOCK add) by congruence.
  cbn [negb andb]. change (buddy.block2ptr h buddy.NOBLOCK) with NULL.
  cbn [Z.eqb negb andb obind]. reflexivity.
Qed.

(** *** The size area under the list operations *)

Lemma ah_get_putsize m i v j :
  0 <= j <= A ->
  buddy.ah_get h (buddy.putsize h m i v) j = buddy.ah_get h m j.
Proof.
  intros Hj. unfold buddy.ah_get. apply load32_putsize.
  pose proof (ah_below_sizes j Hj). lia.
Qed.

Lemma ah_get_erasesize m i j :
  0 <= j <= A ->
  buddy.ah_get h (buddy.erasesize h m i) j = buddy.ah_get h m j.
Proof.
  intros Hj. unfold buddy.ah_get. apply load32_erasesize.
  pose proof (ah_below_sizes j Hj). lia.
Qed.

Lemma nxt_putsize m i v b :
  b + 4 <= buddy.msize h ->
  buddy.nxt (buddy.putsize h m i v) (buddy.mh h + b)
  = buddy.nxt m (buddy.mh h + b).
Proof.
  intros Hb. unfold buddy.nxt. apply load32_putsize.
  apply heap_word_below_sizes. exact Hb.
Qed.

Lemma nxt_erasesize m i b :
  b + 4 <= buddy.msize h ->
  buddy.nxt (buddy.erasesize h m i) (buddy.mh h + b)
  = buddy.nxt m (buddy.mh h + b).
Proof.
  intros Hb. unfold buddy.nxt. apply load32_erasesize.
  apply heap_word_below_sizes. exact Hb.
Qed.

Lemma unit_index j : 3 <= j < A -> 0 < 2 ^ (j - 3) < 2 ^ 28.
Proof.
  intros Hj. pose proof L as (HA3 & _). split.
  - apply Z.pow_pos_nonneg; lia.
  - apply Z.pow_lt_mono_r; lia.
Qed.

Lemma block2size_pow2 j : 3 <= j -> buddy.block2size (2 ^ j) = 2 ^ (j - 3).
Proof.
  intros Hj. unfold buddy.block2size. rewrite Z.shiftr_div_pow2 by lia.
  replace j with (j - 3 + 3) at 1 by lia.
  rewrite Z.pow_add_r by lia. apply Z.div_mul. discriminate.
Qed.

Lemma sizes_clear_keeps m m' :
  keeps_sizes h m m' -> sizes_clear h m A -> sizes_clear h m' A.
Proof.
  intros K H j Hj. rewrite (getsize_keeps h m m') by exact K. apply H, Hj.
Qed.

Lemma sizes_clear_putsize m k :
  0 <= k < 64 -> sizes_clear h m A ->
  sizes_clear h (buddy.putsize h m 0 k) A.
Proof.
  intros Hk H j Hj. pose proof (unit_index j Hj).
  rewrite getsize_putsize_other by lia. apply H, Hj.
Qed.

Lemma sizes_clear_erasesize m :
  sizes_clear h m A -> sizes_clear h (buddy.erasesize h m 0) A.
Proof.
  intros H j Hj. pose proof (unit_index j Hj).
  rewrite getsize_erasesize_other by lia. apply H, Hj.
Qed.

(** *** Splitting down and taking the first block *)

Lemma bsplit_down m i :
  3 < i <= A -> split_down h m i A ->
  exists m', buddy.bsplit h m 0 i = Some m' /\ split_down h m' (i - 1) A.
Proof.
  intros Hi (H0 & Hnx & Hlow & Hup & Hlast & Htop & Hs0 & Hsz).
  pose proof (msize_bounds h A L) as Hm.
  pose proof L as (HA3 & HAM & Hms & Hmh & Hah & Hsh & H64).
  assert (Hpi : 8 <= 2 ^ (i - 1)).
  { change 8 with (2 ^ 3). apply Z.pow_le_mono_r; lia. }
  assert (Hpm : 2 ^ i <= buddy.msize h).
  { rewrite Hms. apply Z.pow_le_mono_r; lia. }
  pose proof (pow2_half i ltac:(lia)) as Hhalf.
  assert (Hlink : link_ok h (buddy.nxt m (buddy.mh h + 0))).
  { rewrite Z.add_0_r, Hnx. destruct (Z.eqb_spec i A); [left; reflexivity|].
    right. destruct (pow2_block i ltac:(lia)) as (? & ? & ?). lia. }
  destruct (bremove_head_effect m 0 i)
    as (m1 & E1 & G1 & F1 & K1 & N1 & R1);
    [lia|lia|exact H0|exact Hlink|lia|].
  rewrite Z.add_0_r in G1, N1.
  unfold buddy.bsplit. rewrite E1. cbn [obind]. cbv zeta.
  rewrite (u8_small (i - 1)) by lia. rewrite Z.shiftl_1_l.
  rewrite (u32_small (2 ^ (i - 1))) by lia.
  rewrite (u32_small (0 + 2 ^ (i - 1))) by lia. rewrite Z.add_0_l.
  assert (E2 : buddy.ah_get h m1 (i - 1) = buddy.NOBLOCK).
  { rewrite F1 by lia. apply Hlow. lia. }
  destruct (binsert_effect m1 (2 ^ (i - 1)) (i - 1))
    as (m2 & E3 & G2 & F2 & K2 & N2 & R2);
    [lia|lia|left; exact E2|lia|left; exact E2|].
  rewrite E3. cbn [obind].
  destruct (binsert_effect m2 0 (i - 1))
    as (m3 & E5 & G3 & F3 & K3 & N3 & R3);
    [lia|lia|right; rewrite G2; lia|lia|right; left; rewrite G2; lia|].
  rewrite Z.add_0_r in N3.
  assert (K : keeps_sizes h m m3).
  { eapply keeps_trans; [exact K1|]. eapply keeps_trans; eassumption. }
  exists m3. split; [exact E5|]. unfold split_down.
  test_false (i - 1 =? A).
  split; [exact G3|]. split; [rewrite N3; exact G2|].
  split; [|split; [|split; [|split; [|split]]]].
  - intros j Hj. rewrite F3, F2, F1 by lia. apply Hlow. lia.
  - intros j Hj. rewrite F3, F2 by lia.
    destruct (Z.eq_dec j i) as [->|Hne].
    + rewrite G1, Hnx. test_false (i =? A). reflexivity.
    + rewrite F1 by lia. apply Hup. lia.
  - intros j Hj. destruct (Z.eq_dec j (i - 1)) as [->|Hne].
    + rewrite R3; [|lia|lia|right; lia|right; left; rewrite G2; lia].
      rewrite N2. exact E2.
    + pose proof (pow2_apart (i - 1) j ltac:(lia)).
      destruct (pow2_block j ltac:(lia)) as (? & ? & ?).
      rewrite R3; [|lia|lia|right; lia|right; right; rewrite G2; lia].
      rewrite R2; [|lia|lia|right; lia|left; exact E2].
      rewrite R1; [|lia|lia|right; lia].
      apply Hlast. lia.
  - intros _. rewrite F3, F2 by lia.
    destruct (Z.eq_dec i A) as [->|Hne].
    + rewrite G1, Hnx, Z.eqb_refl. reflexivity.
    + rewrite F1 by lia. apply Htop. lia.
  - rewrite (getsize_keeps h m m3 0 K). exact Hs0.
  - apply (sizes_clear_keeps m m3 K Hsz).
Qed.

Lemma getblock_split_down n : forall m k i,
  3 <= k -> k <= i <= A -> Z.of_nat n = i - k -> split_down h m i A ->
  exists m',
    buddy.getblock_split n h m i k 0 = Some (m', k, 0)
    /\ split_down h m' k A.
Proof.
  pose proof L as (HA3 & _).
  induction n as [|n IH]; intros m k i Hk Hi Hn Ht.
  - assert (i = k) as -> by lia. exists m. split; [reflexivity|exact Ht].
  - cbn [buddy.getblock_split]. test_true (k <? i).
    rewrite (proj1 Ht). change (0 =? buddy.NOBLOCK) with false. cbv iota.
    destruct (bsplit_down m i ltac:(lia) Ht) as (m1 & E & Ht1).
    rewrite E. cbn [obind]. rewrite (u8_small (i - 1)) by lia.
    apply IH; try assumption; lia.
Qed.

Lemma split_down_top_free m k :
  0 <= k -> split_down h m A A -> top_free h m k A.
Proof.
  intros Hk (H0 & Hnx & Hlow & _ & _ & _ & Hs0 & _).
  split; [exact H0|]. split; [|split].
  - intros j Hj. apply Hlow. lia.
  - rewrite Hnx, Z.eqb_refl. left. reflexivity.
  - exact Hs0.
Qed.

(** The first block of class [k] is cut from a free main heap. *)
Lemma getblock_fresh m k :
  3 <= k < A -> split_down h m A A ->
  exists m', buddy.getblock h m (2 ^ k) = Some (m', 0) /\ first_held h m' k A.
Proof.
  intros Hk Ht. pose proof (msize_bounds h A L) as Hm.
  pose proof L as (HA3 & HAM & Hms & Hmh & Hah & Hsh & H64).
  unfold buddy.getblock. cbv zeta.
  rewrite buddy_log2_pow2 by lia. rewrite HAM.
  rewrite (getblock_find_top h A L _ m k k)
    by (try apply split_down_top_free; try assumption; lia).
  rewrite Z.leb_refl.
  destruct (getblock_split_down (Z.to_nat (A - k)) m k A)
    as (m1 & E & (H0 & Hnx & Hlow & Hup & Hlast & Htop & Hs0 & Hsz));
    try assumption; try lia.
  rewrite E. cbn [obind]. rewrite Z.eqb_refl.
  change (negb (0 =? buddy.NOBLOCK)) with true. cbn [andb].
  change (buddy.block2size 0) with 0. rewrite Hs0.
  cbn [Z.eqb c_assert obind].
  rewrite (eqb_false_of_neq k A) in Hnx by lia.
  destruct (pow2_block k Hk) as (Hp8 & Hp2 & _).
  destruct (bremove_head_effect m1 0 k)
    as (m2 & E2 & G2 & F2 & K2 & N2 & R2);
    [lia|lia|exact H0|rewrite Z.add_0_r, Hnx; right; lia|lia|].
  rewrite Z.add_0_r in G2. rewrite E2. cbn [obind].
  eexists. split; [reflexivity|].
  split; [split; [|split]|split].
  - intros j Hj. rewrite ah_get_putsize, F2 by lia. apply Hlow. exact Hj.
  - intros j Hj. destruct (pow2_block j ltac:(lia)) as (? & ? & ?).
    rewrite ah_get_putsize, nxt_putsize by lia. split.
    + destruct (Z.eq_dec j k) as [->|Hne].
      * rewrite G2. exact Hnx.
      * rewrite F2 by lia. apply Hup. lia.
    + rewrite R2; [|lia|lia|right; lia]. apply Hlast. exact Hj.
  - rewrite ah_get_putsize, F2 by lia. apply Htop. lia.
  - apply getsize_putsize; [lia|lia|].
    rewrite (getsize_keeps h m1 m2 0 K2). exact Hs0.
  - apply sizes_clear_putsize; [lia|].
    apply (sizes_clear_keeps m1 m2 K2 Hsz).
Qed.

(** *** Releasing the first block *)

Lemma findbuddy_first s : 0 <= s <= 30 -> buddy.findbuddy 0 s = 2 ^ s.
Proof.
  intros Hs. rewrite findbuddy_cases by lia.
  rewrite Z.mod_0_l by (apply Z.pow_nonzero; lia). cbn [Z.eqb].
  pose proof (pow2_le_31 s ltac:(lia)). rewrite Z.add_0_l.
  apply u32_small. lia.
Qed.

(** A round of [bjoin] after the first: the block at offset 0 and its
    buddy leave list [s], the joined block enters list [s + 1]. *)
Lemma bjoin_round m s :
  3 <= s < A -> split_down h m s A ->
  exists m1 m2 m3,
    buddy.bremove h m (2 ^ s) s = Some m1
    /\ buddy.bremove h m1 0 s = Some m2
    /\ buddy.binsert h m2 0 (s + 1) = Some m3
    /\ split_down h m3 (s + 1) A.
Proof.
  intros Hs (H0 & Hnx & Hlow & Hup & Hlast & Htop & Hs0 & Hsz).
  pose proof (msize_bounds h A L) as Hm.
  pose proof L as (HA3 & HAM & Hms & Hmh & Hah & Hsh & H64).
  destruct (pow2_block s Hs) as (Hp8 & Hp2 & _).
  rewrite (eqb_false_of_neq s A) in Hnx by lia.
  destruct (bremove_second_effect m 0 (2 ^ s) s)
    as (m1 & E1 & G1 & F1 & K1 & N1 & N1' & R1);
    [lia|lia|lia|lia|left; lia|exact H0|rewrite Z.add_0_r; exact Hnx
    |apply Hlast; lia|lia|].
  rewrite Z.add_0_r in N1.
  destruct (bremove_head_effect m1 0 s)
    as (m2 & E2 & G2 & F2 & K2 & N2 & R2);
    [lia|lia|exact G1|rewrite Z.add_0_r, N1; left; reflexivity|lia|].
  rewrite Z.add_0_r in G2, N2.
  assert (Hnext : buddy.ah_get h m2 (s + 1)
                  = if s + 1 =? A then buddy.NOBLOCK else 2 ^ (s + 1)).
  { rewrite F2, F1 by lia. destruct (Z.eqb_spec (s + 1) A) as [E|Hne].
    - rewrite E. apply Htop. lia.
    - apply Hup. lia. }
  assert (Hsep : buddy.ah_get h m2 (s + 1) = buddy.NOBLOCK
                 \/ 0 + 8 <= buddy.ah_get h m2 (s + 1)
                 \/ buddy.ah_get h m2 (s + 1) + 8 <= 0).
  { rewrite Hnext. destruct (Z.eqb_spec (s + 1) A); [left; reflexivity|].
    right. left. destruct (pow2_block (s + 1) ltac:(lia)) as (? & _). lia. }
  destruct (binsert_effect m2 0 (s + 1))
    as (m3 & E3 & G3 & F3 & K3 & N3 & R3); [lia|lia| |lia|exact Hsep|].
  { rewrite Hnext. destruct (Z.eqb_spec (s + 1) A); [left; reflexivity|].
    right. destruct (pow2_block (s + 1) ltac:(lia)) as (? & ? & _). lia. }
  rewrite Z.add_0_r in N3.
  assert (K : keeps_sizes h m m3).
  { eapply keeps_trans; [exact K1|]. eapply keeps_trans; eassumption. }
  exists m1, m2, m3. split; [exact E1|]. split; [exact E2|].
  split; [exact E3|].
  split; [exact G3|]. split; [rewrite N3; exact Hnext|].
  split; [|split; [|split; [|split; [|split]]]].
  - intros j Hj. rewrite F3 by lia.
    destruct (Z.eq_dec j s) as [->|Hne].
    + rewrite G2. exact N1.
    + rewrite F2, F1 by lia. apply Hlow. lia.
  - intros j Hj. rewrite F3, F2, F1 by lia. apply Hup. lia.
  - intros j Hj. destruct (pow2_block j ltac:(lia)) as (? & ? & ?).
    pose proof (pow2_apart s j ltac:(lia)).
    rewrite R3; [|lia|lia|right; lia|].
    + rewrite R2; [|lia|lia|right; lia].
      rewrite R1; [|lia|lia|right; lia|right; lia].
      apply Hlast. lia.
    + rewrite Hnext. rewrite (eqb_false_of_neq (s + 1) A) by lia.
      destruct (Z.eq_dec j (s + 1)) as [->|Hne]; [right; left; lia|].
      pose proof (pow2_apart (s + 1) j ltac:(lia)).
      destruct (pow2_block (s + 1) ltac:(lia)) as (? & _).
      right. right. lia.
  - intros Hlt. rewrite F3, F2, F1 by lia. apply Htop. lia.
  - rewrite (getsize_keeps h m m3 0 K). exact Hs0.
  - apply (sizes_clear_keeps m m3 K Hsz).
Qed.

Lemma bjoin_up n : forall m s,
  3 <= s <= A -> Z.of_nat n = A - s -> split_down h m s A ->
  exists m', buddy.bjoin_loop n h m 0 s 1 = Some (m', 1)
             /\ split_down h m' A A.
Proof.
  pose proof L as (HA3 & HAM & Hms & Hmh & Hah & Hsh & H64).
  induction n as [|n IH]; intros m s Hs Hn Ht.
  - assert (s = A) as -> by lia. exists m. split; [reflexivity|exact Ht].
  - cbn [buddy.bjoin_loop]. rewrite HAM. test_true (s <? A).
    rewrite findbuddy_first by lia.
    destruct (pow2_block s ltac:(lia)) as (Hp8 & Hp2 & _).
    pose proof Ht as (H0 & Hnx & _).
    rewrite (eqb_false_of_neq s A) in Hnx by lia.
    rewrite (bisin_second m 0 (2 ^ s) s);
      [|lia|lia|lia|exact H0|rewrite Z.add_0_r; exact Hnx].
    cbn [obind].
    destruct (bjoin_round m s ltac:(lia) Ht)
      as (m1 & m2 & m3 & E1 & E2 & E3 & Ht3).
    rewrite E1. cbn [obind Z.eqb negb]. rewrite E2. cbn [obind].
    test_true (0 <? 2 ^ s). rewrite (u8_small (s + 1)) by lia.
    rewrite E3. cbn [obind].
    apply IH; [lia|lia|exact Ht3].
Qed.

(** The first round of [bjoin], and with it the release of the first
    block: the whole main heap is one free block again. *)
Lemma freeblock_first m k :
  3 <= k < A -> first_held h m k A ->
  exists m', buddy.freeblock h m 0 = Some (m', buddy.OK)
             /\ split_down h m' A A.
Proof.
  intros Hk ((Hlow & Hup & Htop) & Hs0 & Hsz).
  pose proof (msize_bounds h A L) as Hm.
  pose proof L as (HA3 & HAM & Hms & Hmh & Hah & Hsh & H64).
  destruct (pow2_block k Hk) as (Hp8 & Hp2 & _).
  unfold buddy.freeblock.
  change (buddy.modpow2 0 buddy.MINSIZE =? 0) with true. cbv iota.
  change (buddy.block2size 0) with 0. rewrite Hs0.
  rewrite (eqb_false_of_neq k 0) by lia. cbn [negb].
  set (m0 := buddy.erasesize h m 0).
  assert (Hah0 : forall j, 0 <= j <= A ->
                   buddy.ah_get h m0 j = buddy.ah_get h m j)
    by (intros j Hj; apply ah_get_erasesize; exact Hj).
  assert (Hnx0 : forall b, b + 4 <= buddy.msize h ->
                   buddy.nxt m0 (buddy.mh h + b)
                   = buddy.nxt m (buddy.mh h + b))
    by (intros b Hb; apply nxt_erasesize; exact Hb).
  unfold buddy.bjoin. rewrite HAM.
  destruct (Z.to_nat (A - k)) as [|n] eqn:En; [lia|].
  cbn [buddy.bjoin_loop]. rewrite HAM. test_true (k <? A).
  rewrite findbuddy_first by lia.
  rewrite (bisin_head m0 (2 ^ k) k)
    by (rewrite Hah0 by lia; apply Hup; lia).
  cbn [obind].
  destruct (bremove_head_effect m0 (2 ^ k) k)
    as (m1 & E1 & G1 & F1 & K1 & N1 & R1);
    [lia|lia|rewrite Hah0 by lia; apply Hup; lia
    |rewrite Hnx0 by lia; rewrite (proj2 (Hup k ltac:(lia)));
     left; reflexivity|lia|].
  rewrite E1. cbn [obind Z.eqb negb].
  test_true (0 <? 2 ^ k). rewrite (u8_small (k + 1)) by lia.
  assert (Hnext : buddy.ah_get h m1 (k + 1)
                  = if k + 1 =? A then buddy.NOBLOCK else 2 ^ (k + 1)).
  { rewrite F1, Hah0 by lia. destruct (Z.eqb_spec (k + 1) A) as [E|Hne].
    - rewrite E. exact Htop.
    - apply Hup. lia. }
  destruct (binsert_effect m1 0 (k + 1))
    as (m2 & E2 & G2 & F2 & K2 & N2 & R2); [lia|lia| |lia| |].
  { rewrite Hnext. destruct (Z.eqb_spec (k + 1) A); [left; reflexivity|].
    right. destruct (pow2_block (k + 1) ltac:(lia)) as (? & ? & _). lia. }
  { rewrite Hnext. destruct (Z.eqb_spec (k + 1) A); [left; reflexivity|].
    right. left. destruct (pow2_block (k + 1) ltac:(lia)) as (? & _). lia. }
  rewrite Z.add_0_r in N2. rewrite E2. cbn [obind].
  assert (Ht2 : split_down h m2 (k + 1) A).
  { split; [exact G2|]. split; [rewrite N2; exact Hnext|].
    split; [|split; [|split; [|split; [|split]]]].
    - intros j Hj. rewrite F2 by lia.
      destruct (Z.eq_dec j k) as [->|Hne].
      + rewrite G1, Hnx0 by lia. apply Hup. lia.
      + rewrite F1, Hah0 by lia. apply Hlow. lia.
    - intros j Hj. rewrite F2, F1, Hah0 by lia. apply Hup. lia.
    - intros j Hj. destruct (pow2_block j ltac:(lia)) as (? & ? & ?).
      pose proof (pow2_apart k j ltac:(lia)).
      rewrite R2; [|lia|lia|right; lia|].
      + rewrite R1; [|lia|lia|right; lia].
        rewrite Hnx0 by lia. apply Hup. lia.
      + rewrite Hnext. rewrite (eqb_false_of_neq (k + 1) A) by lia.
        destruct (Z.eq_dec j (k + 1)) as [->|Hne]; [right; left; lia|].
        pose proof (pow2_apart (k + 1) j ltac:(lia)).
        destruct (pow2_block (k + 1) ltac:(lia)) as (? & _).
        right. right. lia.
    - intros Hlt. rewrite F2, F1, Hah0 by lia. exact Htop.
    - rewrite (getsize_keeps h m1 m2 0 K2), (getsize_keeps h m0 m1 0 K1).
      apply getsize_erasesize. lia.
    - apply (sizes_clear_keeps m1 m2 K2), (sizes_clear_keeps m0 m1 K1).
      apply sizes_clear_erasesize. exact Hsz. }
  destruct (bjoin_up n m2 (k + 1) ltac:(lia) ltac:(lia) Ht2)
    as (m' & E & Ht).
  rewrite E. cbn [obind Z.eqb]. exists m'. split; [reflexivity|exact Ht].
Qed.

(** *** Growing the first block in place *)

Lemma rest_free_putsize m x v i :
  3 <= i <= A -> rest_free h m i A ->
  rest_free h (buddy.putsize h m x v) i A.
Proof.
  intros Hi (Hlow & Hup & Htop). pose proof L as (HA3 & _).
  split; [|split].
  - intros j Hj. rewrite ah_get_putsize by lia. apply Hlow, Hj.
  - intros j Hj. destruct (pow2_block j ltac:(lia)) as (? & ? & ?).
    rewrite ah_get_putsize, nxt_putsize by lia. apply Hup, Hj.
  - rewrite ah_get_putsize by lia. exact Htop.
Qed.

Lemma rest_free_erasesize m x i :
  3 <= i <= A -> rest_free h m i A ->
  rest_free h (buddy.erasesize h m x) i A.
Proof.
  intros Hi (Hlow & Hup & Htop). pose proof L as (HA3 & _).
  split; [|split].
  - intros j Hj. rewrite ah_get_erasesize by lia. apply Hlow, Hj.
  - intros j Hj. destruct (pow2_block j ltac:(lia)) as (? & ? & ?).
    rewrite ah_get_erasesize, nxt_erasesize by lia. apply Hup, Hj.
  - rewrite ah_get_erasesize by lia. exact Htop.
Qed.

(** Taking the block at offset [2^i] out of its list. *)
Lemma bremove_rest m i :
  3 <= i < A -> rest_free h m i A ->
  exists m', buddy.bremove h m (2 ^ i) i = Some m'
             /\ rest_free h m' (i + 1) A /\ keeps_sizes h m m'.
Proof.
  intros Hi (Hlow & Hup & Htop).
  destruct (pow2_block i Hi) as (Hp8 & Hp2 & _).
  destruct (Hup i ltac:(lia)) as (Hai & Hni).
  destruct (bremove_head_effect m (2 ^ i) i)
    as (m1 & E1 & G1 & F1 & K1 & N1 & R1);
    [lia|lia|exact Hai|rewrite Hni; left; reflexivity|lia|].
  exists m1. split; [exact E1|]. split; [|exact K1].
  split; [|split].
  - intros j Hj. destruct (Z.eq_dec j i) as [->|Hne].
    + rewrite G1. exact Hni.
    + rewrite F1 by lia. apply Hlow. lia.
  - intros j Hj. destruct (pow2_block j ltac:(lia)) as (? & ? & ?).
    pose proof (pow2_apart i j ltac:(lia)).
    rewrite F1 by lia. rewrite R1; [|lia|lia|right; lia].
    apply Hup. lia.
  - rewrite F1 by lia. exact Htop.
Qed.




(** *** A second block *)

Lemma getblock_second m k k2 :
  3 <= k <= k2 -> k2 < A -> first_held h m k A ->
  exists m', buddy.getblock h m (2 ^ k2) = Some (m', 2 ^ k2)
             /\ buddy.getsize h m' 0 = k
             /\ buddy.getsize h m' (2 ^ (k2 - 3)) = k2.
Proof.
  intros Hk Hk2 ((Hlow & Hup & Htop) & Hs0 & Hsz).
  pose proof L as (HA3 & HAM & Hms & Hmh & Hah & Hsh & H64).
  destruct (pow2_block k2 ltac:(lia)) as (Hp8 & Hp2 & Hp31).
  destruct (Hup k2 ltac:(lia)) as (Hai & Hni).
  pose proof (unit_index k2 ltac:(lia)) as Hu.
  unfold buddy.getblock. cbv zeta.
  rewrite buddy_log2_pow2 by lia. rewrite HAM.
  destruct (Z.to_nat (A + 1 - k2)) as [|n] eqn:En; [lia|].
  cbn [buddy.getblock_find]. rewrite HAM. test_true (k2 <=? A).
  rewrite Hai.
  rewrite (eqb_false_of_neq (2 ^ k2) buddy.NOBLOCK)
    by (unfold buddy.NOBLOCK; lia).
  cbn [negb]. test_true (k2 <=? A).
  rewrite Z.sub_diag. cbn [Z.to_nat buddy.getblock_split obind].
  rewrite Z.eqb_refl. cbn [andb].
  rewrite (eqb_false_of_neq (2 ^ k2) buddy.NOBLOCK)
    by (unfold buddy.NOBLOCK; lia).
  cbn [negb]. rewrite block2size_pow2 by lia.
  rewrite (Hsz k2) by lia. cbn [Z.eqb c_assert obind].
  destruct (bremove_head_effect m (2 ^ k2) k2)
    as (m1 & E1 & G1 & F1 & K1 & N1 & R1);
    [lia|lia|exact Hai|rewrite Hni; left; reflexivity|lia|].
  rewrite E1. cbn [obind]. eexists. split; [reflexivity|]. split.
  - rewrite getsize_putsize_other by lia.
    rewrite (getsize_keeps h m m1 0 K1). exact Hs0.
  - apply getsize_putsize; [lia|lia|].
    rewrite (getsize_keeps h m m1 _ K1). apply Hsz. lia.
Qed.

(** *** The statistics of the two states *)

Lemma find_list_free_top n : forall m s,
  0 <= s <= A -> A - s < Z.of_nat n -> split_down h m A A ->
  find_list n h m 0 s = Some A.
Proof.
  pose proof L as (HA3 & HAM & _).
  induction n as [|n IH]; intros m s Hs Hn Ht; [lia|].
  cbn [find_list]. rewrite HAM. test_true (s <=? A).
  pose proof Ht as (H0 & Hnx & Hlow & Hrest).
  destruct (Z.eq_dec s A) as [->|Hne].
  - rewrite (bisin_head m 0 A H0). reflexivity.
  - rewrite (bisin_empty m 0 s) by (try apply Hlow; try discriminate; lia).
    cbn [obind]. rewrite (u8_small (s + 1)) by lia.
    apply IH; [lia|lia|exact Ht].
Qed.

Lemma find_list_rest n : forall m k j s,
  3 <= k <= j -> j < A -> 0 <= s <= j -> j - s < Z.of_nat n ->
  rest_free h m k A ->
  find_list n h m (2 ^ j) s = Some j.
Proof.
  pose proof L as (HA3 & HAM & _).
  induction n as [|n IH]; intros m k j s Hk Hj Hs Hn Hr; [lia|].
  cbn [find_list]. rewrite HAM. test_true (s <=? A).
  destruct (pow2_block j ltac:(lia)) as (Hp8 & Hp2 & Hp31).
  pose proof Hr as (Hlow & Hup & Htop).
  destruct (Z.eq_dec s j) as [->|Hne].
  - rewrite (bisin_head m (2 ^ j) j) by (apply Hup; lia). reflexivity.
  - assert (Hnb : 2 ^ j <> buddy.NOBLOCK) by (unfold buddy.NOBLOCK; lia).
    destruct (Z.lt_ge_cases s k) as [Hlt|Hge].
    + rewrite (bisin_empty m (2 ^ j) s) by (try apply Hlow; auto; lia).
      cbn [obind]. rewrite (u8_small (s + 1)) by lia.
      apply (IH m k); try assumption; lia.
    + destruct (pow2_block s ltac:(lia)) as (Hs8 & Hs2 & _).
      pose proof (pow2_apart s j ltac:(lia)).
      destruct (Hup s ltac:(lia)) as (Has & Hns).
      rewrite (bisin_single m (2 ^ s) (2 ^ j) s); try assumption; try lia.
      cbn [obind]. rewrite (u8_small (s + 1)) by lia.
      apply (IH m k); try assumption; lia.
Qed.

(** The walk over the free blocks behind the first one. *)
Lemma printBlocks_rest n : forall m k j,
  3 <= k <= j -> j < A -> A - j <= Z.of_nat n ->
  rest_free h m k A -> sizes_clear h m A ->
  printBlocks_loop n h m (2 ^ j) (2 ^ j) (2 ^ k) (2 ^ j - 2 ^ k)
  = Some (2 ^ A, 2 ^ k, 2 ^ A - 2 ^ k).
Proof.
  pose proof L as (HA3 & HAM & Hms & _).
  induction n as [|n IH]; intros m k j Hk Hj Hn Hr Hsz; [lia|].
  cbn [printBlocks_loop]. cbv zeta.
  rewrite block2size_pow2 by lia. rewrite (Hsz j) by lia.
  cbn [Z.eqb].
  rewrite (find_list_rest _ m k j 0); try assumption; try lia.
  cbn [obind Z.eqb andb negb]. rewrite HAM. test_false (A <? j).
  cbn [andb]. rewrite shiftl_1 by lia.
  destruct (pow2_block j ltac:(lia)) as (Hp8 & Hp2 & Hp31).
  assert (Hkj : 2 ^ k <= 2 ^ j) by (apply Z.pow_le_mono_r; lia).
  assert (Hk0 : 0 < 2 ^ k) by (apply Z.pow_pos_nonneg; lia).
  assert (Hd : 2 ^ (j + 1) = 2 ^ j + 2 ^ j)
    by (rewrite Z.pow_add_r by lia; lia).
  rewrite (u32_small (2 ^ j)) by lia.
  rewrite (u32_small (2 ^ j - 2 ^ k + 2 ^ j)) by lia.
  rewrite (u32_small (2 ^ j + 2 ^ j)) by lia.
  rewrite <- Hd. replace (2 ^ j - 2 ^ k + 2 ^ j) with (2 ^ (j + 1) - 2 ^ k)
    by lia.
  rewrite Hms. destruct (Z.eq_dec (j + 1) A) as [E|Hne].
  - rewrite E, Z.ltb_irrefl. reflexivity.
  - assert (Hlt : 2 ^ (j + 1) < 2 ^ A) by (apply Z.pow_lt_mono_r; lia).
    test_true (2 ^ (j + 1) <? 2 ^ A).
    apply IH; try assumption; lia.
Qed.

Lemma fuel_covers_heap : A < Z.of_nat (S (Z.to_nat (buddy.msize h))).
Proof.
  pose proof L as (HA3 & _ & Hms & _). rewrite Hms.
  pose proof (Z.pow_gt_lin_r 2 A ltac:(lia) ltac:(lia)). lia.
Qed.

Lemma printBlocks_first_held m k :
  3 <= k < A -> first_held h m k A ->
  printBlocks h m 0 0 0 = Some (2 ^ A, 2 ^ k, 2 ^ A - 2 ^ k).
Proof.
  intros Hk (Hr & Hs0 & Hsz).
  pose proof L as (HA3 & HAM & Hms & _).
  pose proof fuel_covers_heap as Hf.
  unfold printBlocks. cbn [printBlocks_loop]. cbv zeta.
  change (buddy.block2size 0) with 0. rewrite Hs0.
  rewrite (eqb_false_of_neq k 0) by lia. cbn [obind Z.eqb andb negb].
  rewrite shiftl_1 by lia.
  destruct (pow2_block k Hk) as (Hp8 & Hp2 & Hp31).
  rewrite (u32_small (2 ^ k)) by lia. rewrite !Z.add_0_l.
  rewrite (u32_small (2 ^ k)) by lia.
  test_true (2 ^ k <? buddy.msize h).
  replace 0 with (2 ^ k - 2 ^ k) by lia.
  apply printBlocks_rest; try assumption; lia.
Qed.

Lemma printBlocks_free m :
  A <= 30 -> split_down h m A A ->
  printBlocks h m 0 0 0 = Some (2 ^ A, 0, 2 ^ A).
Proof.
  intros HA Ht. pose proof L as (HA3 & HAM & Hms & _).
  unfold printBlocks. cbn [printBlocks_loop]. cbv zeta.
  change (buddy.block2size 0) with 0.
  rewrite (proj1 (proj2 (proj2 (proj2 (proj2 (proj2 (proj2 Ht))))))).
  cbn [Z.eqb].
  rewrite (find_list_free_top _ m 0); try assumption; try lia.
  cbn [obind Z.eqb andb negb]. rewrite HAM, Z.ltb_irrefl.
  rewrite shiftl_1 by lia.
  pose proof (pow2_le_31 A ltac:(lia)).
  rewrite (u32_small (2 ^ A)) by lia. rewrite !Z.add_0_l.
  rewrite (u32_small (2 ^ A)) by lia.
  rewrite Hms, Z.ltb_irrefl. reflexivity.
Qed.

End Lifecycle.

(** *** From [buddy_init] to the free main heap *)

Lemma get_byte_zero b : get_byte b 0 0 = 0.
Proof.
  unfold get_byte. rewrite Z.shiftl_0_l, Z.shiftr_0_l. reflexivity.
Qed.

(** The entries of the blocks at the offsets [2^j] lie inside the size
    area. *)
Lemma size_slot_inside A j :
  3 <= j < A -> A <= 31 ->
  6 * 2 ^ (j - 3) / 8 + 1 < u32 (u32 (2 ^ A / 8 + 1) * 6) / 8.
Proof.
  intros Hj HA.
  assert (HN : 2 ^ A / 8 = 2 ^ (A - 3)).
  { replace A with (A - 3 + 3) at 1 by lia.
    rewrite Z.pow_add_r by lia. apply Z.div_mul. discriminate. }
  rewrite HN.
  pose proof (pow2_apart (j - 3) (A - 3) ltac:(lia)) as Hap.
  assert (Hi : 0 < 2 ^ (j - 3)) by (apply Z.pow_pos_nonneg; lia).
  assert (Hb : 2 ^ (A - 3) <= 2 ^ 28) by (apply Z.pow_le_mono_r; lia).
  change (2 ^ 28) with 268435456 in Hb.
  set (N := 2 ^ (A - 3)) in *. set (i := 2 ^ (j - 3)) in *.
  rewrite (u32_small (N + 1)) by (change (2 ^ 32) with 4294967296; lia).
  rewrite (u32_small ((N + 1) * 6))
    by (change (2 ^ 32) with 4294967296; lia).
  clearbody N i. Z.div_mod_to_equations. lia.
Qed.

Lemma buddy_init_split_down h0 m0 A :
  0 < buddy.mh h0 -> buddy.mh h0 + 2 ^ 33 <= 2 ^ 64 -> 3 <= A <= 31 ->
  buddy.hs h0 / 2 = 2 ^ A -> buddy.e h0 = 0 ->
  exists h m,
    buddy.buddy_init h0 m0 = Some (h, m, buddy.OK)
    /\ buddy.mh h = buddy.mh h0
    /\ laid_out h A /\ main_heap_first h /\ split_down h m A A.
Proof.
  destruct h0 as [mh hs e eh ah sh msize asize ssize esize AMAX ffh].
  cbn [buddy.mh buddy.hs buddy.e]. intros Hmh Hhi HA Hhs He. subst e.
  pose proof (pow2_le_31 A ltac:(lia)) as HpA.
  assert (Hhs0 : hs <> 0).
  { intros ->. cbn in Hhs. lia. }
  assert (Hhsr : 2 * 2 ^ A <= hs <= 2 * 2 ^ A + 1)
    by (Z.div_mod_to_equations; lia).
  unfold buddy.buddy_init. cbn [buddy.mh buddy.hs buddy.e buddy.ffh].
  rewrite (eqb_false_of_neq mh 0) by lia.
  rewrite (eqb_false_of_neq hs 0) by exact Hhs0.
  cbn [negb andb Z.eqb]. cbv zeta. rewrite Hhs.
  rewrite (u32_small (2 ^ A)) by lia.
  rewrite buddy_log2_pow2 by lia.
  replace (u32 ((A + 1) * 4)) with (4 * A + 4) by (rewrite u32_small; lia).
  pose proof (size_area_nonempty A HA) as Hssz.
  pose proof (fun j H => size_slot_inside A j H ltac:(lia)) as Hslot.
  set (ssz := u32 (u32 (2 ^ A / 8 + 1) * 6) / 8) in *.
  set (esz := u32 (2 ^ A - u32 (4 * A + 4 + ssz))).
  assert (Hesz : 0 <= esz < 2 ^ 32)
    by (apply Z.mod_pos_bound; lia).
  rewrite (u64_small (mh + 2 ^ A)) by lia.
  rewrite (u64_small (mh + 2 ^ A + esz)) by lia.
  rewrite (u64_small (mh + 2 ^ A + esz + (4 * A + 4))) by lia.
  set (h := buddy.mkheap mh hs 0 (mh + 2 ^ A) (mh + 2 ^ A + esz)
                         (mh + 2 ^ A + esz + (4 * A + 4)) (2 ^ A)
                         (4 * A + 4) ssz esz A ffh).
  assert (HL : laid_out h A).
  { unfold laid_out, h.
    cbn [buddy.AMAX buddy.msize buddy.mh buddy.ah buddy.sh].
    repeat split; lia. }
  assert (HF : main_heap_first h).
  { unfold main_heap_first, h.
    cbn [buddy.msize buddy.mh buddy.eh buddy.esize buddy.hs].
    rewrite (u64_small (mh + 2 ^ A)) by lia.
    rewrite (u64_small (mh + 2 ^ A + esz)) by lia.
    rewrite (u64_small (mh + hs)) by lia. lia. }
  unfold buddy.init_avail, buddy.init_size. cbv zeta.
  change (buddy.msize h) with (2 ^ A). change (buddy.asize h) with (4 * A + 4).
  change (buddy.ssize h) with ssz.
  change (buddy.ah h) with (mh + 2 ^ A + esz).
  change (buddy.sh h) with (mh + 2 ^ A + esz + (4 * A + 4)).
  rewrite buddy_log2_pow2 by lia.
  set (mm := memset _ (mh + 2 ^ A + esz) 255 (4 * A + 4)).
  assert (Hff : forall j, 0 <= j <= A -> buddy.ah_get h mm j = buddy.NOBLOCK).
  { intros j Hj. unfold buddy.ah_get, mm.
    change (buddy.ah h) with (mh + 2 ^ A + esz).
    apply load32_memset_ff; lia. }
  assert (Hz : forall y, 0 <= y < ssz -> buddy.sh_get h mm y = 0).
  { intros y Hy. unfold buddy.sh_get, mm.
    change (buddy.sh h) with (mh + 2 ^ A + esz + (4 * A + 4)).
    rewrite !load8_memset.
    test_false (mh + 2 ^ A + esz + (4 * A + 4) + y
                <? mh + 2 ^ A + esz + (4 * A + 4)).
    rewrite andb_false_r.
    test_true (mh + 2 ^ A + esz + (4 * A + 4)
               <=? mh + 2 ^ A + esz + (4 * A + 4) + y).
    test_true (mh + 2 ^ A + esz + (4 * A + 4) + y
               <? mh + 2 ^ A + esz + (4 * A + 4) + ssz).
    reflexivity. }
  assert (H8 : 2 ^ 3 <= 2 ^ A) by (apply Z.pow_le_mono_r; lia).
  destruct (binsert_effect h A HL mm 0 A) as (m & E & G & F & K & N & _).
  - lia.
  - change (buddy.msize h) with (2 ^ A). lia.
  - left. apply Hff. lia.
  - lia.
  - left. apply Hff. lia.
  - rewrite E. cbn [obind]. exists h, m. split; [reflexivity|].
    split; [reflexivity|]. split; [exact HL|]. split; [exact HF|].
    split; [exact G|]. rewrite Z.eqb_refl.
    split; [|split; [|split; [|split; [|split; [|split]]]]].
    + change (buddy.mh h) with mh in *. rewrite Z.add_0_r in N.
      rewrite N. apply Hff. lia.
    + intros j Hj. rewrite F by lia. apply Hff. lia.
    + intros j Hj. lia.
    + intros j Hj. lia.
    + intros Hlt. lia.
    + rewrite (getsize_keeps h mm m 0 K).
      rewrite getsize_bytes by lia.
      change ((6 * 0) mod 8) with 0. change (6 * 0 / 8) with 0.
      rewrite (Hz 0) by lia.
      apply get_byte_empty. apply sh_get_range.
    + intros j Hj. rewrite (getsize_keeps h mm m _ K).
      assert (0 < 2 ^ (j - 3) < 2 ^ 28).
      { split; [apply Z.pow_pos_nonneg; lia|].
        apply Z.pow_lt_mono_r; lia. }
      rewrite getsize_bytes by lia.
      pose proof (Hslot j Hj).
      assert (0 <= 6 * 2 ^ (j - 3) / 8) by (apply Z.div_pos; lia).
      rewrite !Hz by lia. apply get_byte_zero.
Qed.

(** *** The bytes of the first block while it grows *)

Lemma load8_sh_set h m y v a :
  0 <= y -> a < buddy.sh h -> load8 (buddy.sh_set h m y v) a = load8 m a.
Proof.
  intros Hy Ha. unfold buddy.sh_set. rewrite load8_store8.
  test_false (a =? buddy.sh h + y). reflexivity.
Qed.

Lemma load8_putsize h m i v a :
  a < buddy.sh h -> load8 (buddy.putsize h m i v) a = load8 m a.
Proof.
  intros Ha. unfold buddy.putsize. cbv zeta.
  assert (Hy : 0 <= u32 (i * 6) / 8).
  { apply Z.div_pos; [|lia]. apply Z.mod_pos_bound. lia. }
  rewrite !load8_sh_set by lia. reflexivity.
Qed.

Lemma load8_erasesize h m i a :
  a < buddy.sh h -> load8 (buddy.erasesize h m i) a = load8 m a.
Proof.
  intros Ha. unfold buddy.erasesize. cbv zeta.
  assert (Hy : 0 <= u32 (i * 6) / 8).
  { apply Z.div_pos; [|lia]. apply Z.mod_pos_bound. lia. }
  destruct (buddy.modpow2 (u32 (i * 6)) 8 =? 0);
    rewrite !load8_sh_set by lia; reflexivity.
Qed.

Section Content.

Variables (h : buddy.buddy_heap_t) (A : Z).
Hypothesis L : laid_out h A.

Lemma bremove_head_bytes m add k m' :
  0 <= add -> add + 8 <= buddy.msize h -> buddy.ah_get h m k = add ->
  link_ok h (buddy.nxt m (buddy.mh h + add)) -> 0 <= k <= A ->
  buddy.bremove h m add k = Some m' ->
  forall a, a < buddy.mh h + add -> load8 m' a = load8 m a.
Proof.
  intros Ha1 Ha2 Hhead Hl Hk. pose proof (msize_bounds h A L) as Hm.
  pose proof L as (HA3 & HAM & Hms & Hmh & Hah & Hsh & H64).
  unfold buddy.bremove, buddy.block_remove.
  rewrite Hhead, Z.eqb_refl.
  replace (add =? buddy.NOBLOCK) with false
    by (symmetry; apply Z.eqb_neq; unfold buddy.NOBLOCK; lia).
  cbn [negb obind]. cbv zeta.
  rewrite (block2ptr_heap h A L add) by lia.
  set (head := buddy.nxt m (buddy.mh h + add)) in *.
  set (m1 := buddy.ah_set h _ k head).
  assert (E : buddy.ah_get h m1 k = head).
  { apply ah_get_set_same. apply load32_range. }
  rewrite (ah_assert_ok h) by (rewrite E; exact Hl).
  cbn [obind]. intros [= <-] a Hlt.
  unfold m1, buddy.ah_set, buddy.block_clean.
  rewrite (block2ptr_heap h A L add) by lia.
  rewrite load8_store32_other by lia.
  rewrite load8_memset. test_false (buddy.mh h + add <=? a). reflexivity.
Qed.



End Content.

(** ** The life of the first block *)

(** The class of a request that passes the size gate. *)
Lemma buddy_request_class sz A :
  0 < sz <= 2 ^ 31 -> 3 <= A <= 31 -> buddy_request sz < 2 ^ A ->
  exists k, 3 <= k < A /\ buddy_request sz = 2 ^ k /\ sz <= 2 ^ k.
Proof.
  intros Hsz HA Hlt.
  destruct (buddy_request_spec sz Hsz) as (k & Hk & E & Hle & _).
  exists k. rewrite E in Hlt.
  pose proof (pow2_lt_inv k A ltac:(lia) Hlt).
  split; [lia|]. split; [exact E|exact Hle].
Qed.

Lemma buddy_get_block_first h A m sz k :
  laid_out h A -> split_down h m A A ->
  0 < sz -> 3 <= k < A -> buddy_request sz = 2 ^ k ->
  exists m', buddy.buddy_get_block h m sz = Some (h, m', buddy.mh h)
             /\ first_held h m' k A.
Proof.
  intros HL Ht Hsz Hk E.
  pose proof HL as (HA3 & HAM & Hms & Hmh & Hah & Hsh & H64).
  assert (Hlt : 2 ^ k < 2 ^ A) by (apply Z.pow_lt_mono_r; lia).
  rewrite buddy_get_block_searches by (rewrite ?E, ?Hms; lia).
  rewrite E.
  destruct (getblock_fresh h A HL m k Hk Ht) as (m' & Eg & Hh).
  rewrite Eg. cbn [obind].
  change (negb (0 =? buddy.NOBLOCK)) with true. cbv iota.
  rewrite (block2ptr_heap h A HL 0) by (rewrite Hms; lia).
  rewrite Z.add_0_r. exists m'. split; [reflexivity|exact Hh].
Qed.

Lemma ptr2block_start h : 0 < buddy.mh h -> buddy.ptr2block h (buddy.mh h) = 0.
Proof.
  intros Hmh. rewrite buddy_ptr2block_main by lia. lia.
Qed.

Lemma buddy_free_block_start h A m :
  laid_out h A -> main_heap_first h ->
  buddy.buddy_free_block h m (buddy.mh h)
  = ('(m', rc) <- buddy.freeblock h m 0 ;;
     Some (h, m',
           if Z.land rc buddy.NOTFOUND =? buddy.NOTFOUND then buddy.NOTFOUND
           else if rc <? 0 then buddy.INTERNAL else buddy.OK)).
Proof.
  intros HL (Hf1 & Hf2 & Hf3). pose proof (msize_bounds h A HL) as Hm.
  pose proof HL as (HA3 & HAM & Hms & Hmh & Hah & Hsh & H64).
  unfold buddy.buddy_free_block.
  rewrite Z.ltb_irrefl.
  replace (u64 (u64 (buddy.mh h + buddy.msize h) + buddy.esize h)
           <=? buddy.mh h) with false by (symmetry; apply Z.leb_gt; lia).
  test_false (buddy.eh h <=? buddy.mh h). cbn [orb].
  rewrite ptr2block_start by lia. reflexivity.
Qed.

(** X10. On a fresh arena without emergency heap and with a main heap of
    at least 32 bytes, for a request of at most [2^31] bytes that passes
    the size gate, get followed by free of the returned pointer succeeds
    and leaves the main heap as [buddy_init] left it, one free block in
    the top list: a second free of the pointer answers NOTFOUND and
    changes nothing, and every request of at most [2^31] bytes that
    passes the size gate is served again from the start of the main
    heap. *)
Theorem buddy_free_restores h0 m0 A sz :
  0 < buddy.mh h0 -> buddy.mh h0 + 2 ^ 33 <= 2 ^ 64 -> 5 <= A <= 31 ->
  buddy.hs h0 / 2 = 2 ^ A -> buddy.e h0 = 0 ->
  0 < sz <= 2 ^ 31 -> buddy_request sz < 2 ^ A ->
  exists h m m1 m2,
    buddy.buddy_init h0 m0 = Some (h, m, buddy.OK)
    /\ split_down h m A A
    /\ buddy.buddy_get_block h m sz = Some (h, m1, buddy.mh h)
    /\ buddy.buddy_free_block h m1 (buddy.mh h) = Some (h, m2, buddy.OK)
    /\ split_down h m2 A A
    /\ buddy.buddy_free_block h m2 (buddy.mh h)
       = Some (h, m2, buddy.NOTFOUND)
    /\ forall sz', 0 < sz' <= 2 ^ 31 -> buddy_request sz' < 2 ^ A ->
         exists m3,
           buddy.buddy_get_block h m2 sz' = Some (h, m3, buddy.mh h).
Proof.
  intros Hmh Hhi HA5 Hhs He Hsz Hgate.
  assert (HA : 3 <= A <= 31) by lia.
  destruct (buddy_init_split_down h0 m0 A Hmh Hhi HA Hhs He)
    as (h & m & Ei & Emh & HL & HF & Ht).
  destruct (buddy_request_class sz A Hsz HA Hgate) as (k & Hk & Ek & _).
  destruct (buddy_get_block_first h A m sz k HL Ht ltac:(lia) Hk Ek)
    as (m1 & Eg & Hh).
  destruct (freeblock_first h A HL m1 k Hk Hh) as (m2 & Ef & Ht2).
  exists h, m, m1, m2. split; [exact Ei|]. split; [exact Ht|].
  split; [exact Eg|]. split; [|split; [exact Ht2|split]].
  - rewrite (buddy_free_block_start h A) by assumption.
    rewrite Ef. reflexivity.
  - rewrite (buddy_free_block_start h A) by assumption.
    rewrite freeblock_not_in_use; [reflexivity|lia|].
    right. change (0 / 8) with 0. apply Ht2.
  - intros sz' Hsz' Hgate'.
    destruct (buddy_request_class sz' A Hsz' HA Hgate') as (k' & Hk' & Ek' & _).
    destruct (buddy_get_block_first h A m2 sz' k' HL Ht2 ltac:(lia) Hk' Ek')
      as (m3 & Eg3 & _).
    exists m3. exact Eg3.
Qed.

Lemma buddy_free_restores_witness :
  let h0 := buddy_arena 0x200000 0 in
  (0 < buddy.mh h0 /\ buddy.mh h0 + 2 ^ 33 <= 2 ^ 64 /\ 5 <= 20 <= 31
   /\ buddy.hs h0 / 2 = 2 ^ 20 /\ buddy.e h0 = 0
   /\ 0 < 100 <= 2 ^ 31 /\ buddy_request 100 < 2 ^ 20)
  /\ exists h m m1 m2,
       buddy.buddy_init h0 zero_mem = Some (h, m, buddy.OK)
       /\ buddy.buddy_get_block h m 100 = Some (h, m1, buddy.mh h)
       /\ buddy.buddy_free_block h m1 (buddy.mh h) = Some (h, m2, buddy.OK).
Proof.
  intros h0.
  assert (H1 : 0 < buddy.mh h0) by reflexivity.
  assert (H2 : buddy.mh h0 + 2 ^ 33 <= 2 ^ 64) by (cbn; lia).
  assert (H3 : 5 <= 20 <= 31) by lia.
  assert (H4 : buddy.hs h0 / 2 = 2 ^ 20) by reflexivity.
  assert (H5 : buddy.e h0 = 0) by reflexivity.
  assert (H6 : 0 < 100 <= 2 ^ 31) by lia.
  assert (H7 : buddy_request 100 < 2 ^ 20)
    by (apply Z.ltb_lt; vm_compute; reflexivity).
  split; [auto 10|].
  destruct (buddy_free_restores h0 zero_mem 20 100 H1 H2 H3 H4 H5 H6 H7)
    as (h & m & m1 & m2 & Ei & _ & Eg & Ef & _).
  exists h, m, m1, m2. auto.
Defined.


Lemma buddy_block_size_start h m :
  0 < buddy.mh h -> 0 <= buddy.getsize h m 0 <= 31 ->
  buddy_block_size h m (buddy.mh h) = 2 ^ buddy.getsize h m 0.
Proof.
  intros Hmh Hs. unfold buddy_block_size.
  rewrite ptr2block_start by lia. change (buddy.block2size 0) with 0.
  rewrite shiftl_1 by lia.
  pose proof (pow2_le_31 (buddy.getsize h m 0) Hs). apply u32_small. lia.
Qed.



(** X12. On a fresh arena without emergency heap and with a main heap of
    at least 32 bytes the second block, of the class of the first one or
    a larger class, starts its own size behind the start of the main
    heap: the bytes of the two requests, of at most [2^31] bytes each,
    lie apart and inside the main heap, and both sizes are recorded. *)
Theorem buddy_second_block_apart h0 m0 A sz1 sz2 :
  0 < buddy.mh h0 -> buddy.mh h0 + 2 ^ 33 <= 2 ^ 64 -> 5 <= A <= 31 ->
  buddy.hs h0 / 2 = 2 ^ A -> buddy.e h0 = 0 ->
  0 < sz1 <= 2 ^ 31 -> 0 < sz2 <= 2 ^ 31 ->
  buddy_request sz1 <= buddy_request sz2 -> buddy_request sz2 < 2 ^ A ->
  exists h m m1 m2,
    buddy.buddy_init h0 m0 = Some (h, m, buddy.OK)
    /\ buddy.buddy_get_block h m sz1 = Some (h, m1, buddy.mh h)
    /\ buddy.buddy_get_block h m1 sz2
       = Some (h, m2, buddy.mh h + buddy_request sz2)
    /\ buddy.mh h + sz1 <= buddy.mh h + buddy_request sz2
    /\ buddy.mh h + buddy_request sz2 + sz2 <= buddy.mh h + buddy.msize h
    /\ buddy_block_size h m2 (buddy.mh h) = buddy_request sz1
    /\ buddy_block_size h m2 (buddy.mh h + buddy_request sz2)
       = buddy_request sz2.
Proof.
  intros Hmh Hhi HA5 Hhs He Hsz1 Hsz2 Hle Hgate.
  assert (HA : 3 <= A <= 31) by lia.
  destruct (buddy_init_split_down h0 m0 A Hmh Hhi HA Hhs He)
    as (h & m & Ei & Emh & HL & HF & Ht).
  pose proof HL as (HA3 & HAM & Hms & Hmh' & Hah & Hsh & H64).
  destruct (buddy_request_class sz2 A Hsz2 HA Hgate)
    as (k2 & Hk2 & Ek2 & Hs2).
  destruct (buddy_request_class sz1 A Hsz1 HA ltac:(lia))
    as (k1 & Hk1 & Ek1 & Hs1).
  assert (Hkk : k1 <= k2).
  { destruct (Z.le_gt_cases k1 k2) as [|Hgt]; [assumption|exfalso].
    assert (2 ^ k2 < 2 ^ k1) by (apply Z.pow_lt_mono_r; lia). lia. }
  destruct (buddy_get_block_first h A m sz1 k1 HL Ht ltac:(lia) Hk1 Ek1)
    as (m1 & Eg & Hh).
  destruct (getblock_second h A HL m1 k1 k2 ltac:(lia) ltac:(lia) Hh)
    as (m2 & Eg2 & Hz0 & Hz2).
  destruct (pow2_block h A HL k2 ltac:(lia)) as (Hp8 & Hp2 & Hp31).
  exists h, m, m1, m2. split; [exact Ei|]. split; [exact Eg|].
  split; [|split; [|split; [|split]]].
  - rewrite buddy_get_block_searches by (rewrite ?Ek2, ?Hms; lia).
    rewrite Ek2, Eg2. cbn [obind].
    rewrite (eqb_false_of_neq (2 ^ k2) buddy.NOBLOCK)
      by (unfold buddy.NOBLOCK; lia).
    cbn [negb]. rewrite (block2ptr_heap h A HL) by lia.
    rewrite Z.add_comm. rewrite (Z.add_comm (2 ^ k2)). reflexivity.
  - lia.
  - lia.
  - rewrite buddy_block_size_start by (rewrite ?Hz0; lia).
    rewrite Hz0. symmetry. exact Ek1.
  - unfold buddy_block_size. rewrite Ek2.
    rewrite buddy_ptr2block_main by lia.
    replace (buddy.mh h + 2 ^ k2 - buddy.mh h) with (2 ^ k2) by lia.
    rewrite block2size_pow2 by lia. rewrite Hz2.
    rewrite shiftl_1 by lia. apply u32_small. lia.
Qed.

Lemma buddy_second_block_apart_witness :
  let h0 := buddy_arena 0x200000 0 in
  (0 < buddy.mh h0 /\ buddy.mh h0 + 2 ^ 33 <= 2 ^ 64 /\ 5 <= 20 <= 31
   /\ buddy.hs h0 / 2 = 2 ^ 20 /\ buddy.e h0 = 0
   /\ 0 < 27 <= 2 ^ 31 /\ 0 < 100 <= 2 ^ 31
   /\ buddy_request 27 <= buddy_request 100 /\ buddy_request 100 < 2 ^ 20)
  /\ exists h m m1 m2,
       buddy.buddy_init h0 zero_mem = Some (h, m, buddy.OK)
       /\ buddy.buddy_get_block h m 27 = Some (h, m1, buddy.mh h)
       /\ buddy.buddy_get_block h m1 100
          = Some (h, m2, buddy.mh h + buddy_request 100).
Proof.
  intros h0.
  assert (H1 : 0 < buddy.mh h0) by reflexivity.
  assert (H2 : buddy.mh h0 + 2 ^ 33 <= 2 ^ 64) by (cbn; lia).
  assert (H3 : 5 <= 20 <= 31) by lia.
  assert (H4 : buddy.hs h0 / 2 = 2 ^ 20) by reflexivity.
  assert (H5 : buddy.e h0 = 0) by reflexivity.
  assert (H6 : 0 < 27 <= 2 ^ 31) by lia.
  assert (H7 : 0 < 100 <= 2 ^ 31) by lia.
  assert (H8 : buddy_request 27 <= buddy_request 100)
    by (apply Z.leb_le; vm_compute; reflexivity).
  assert (H9 : buddy_request 100 < 2 ^ 20)
    by (apply Z.ltb_lt; vm_compute; reflexivity).
  split; [auto 12|].
  destruct (buddy_second_block_apart h0 zero_mem 20 27 100
              H1 H2 H3 H4 H5 H6 H7 H8 H9)
    as (h & m & m1 & m2 & Ei & Eg & Eg2 & _).
  exists h, m, m1, m2. auto.
Defined.

(** X13. The statistics account for every byte of the main heap: on a
    fresh arena without emergency heap and with a main heap of 32 bytes
    to [2^30] bytes [buddy_get_stats] with cleared counters reports the
    whole main heap as free, after a get of at most [2^31] bytes that
    passes the size gate the class size of the request as used and the
    rest as free, and after the free of that block the whole main heap
    as free again. *)
Theorem buddy_stats_account h0 m0 A sz :
  0 < buddy.mh h0 -> buddy.mh h0 + 2 ^ 33 <= 2 ^ 64 -> 5 <= A <= 30 ->
  buddy.hs h0 / 2 = 2 ^ A -> buddy.e h0 = 0 ->
  0 < sz <= 2 ^ 31 -> buddy_request sz < 2 ^ A ->
  exists h m m1 m2,
    buddy.buddy_init h0 m0 = Some (h, m, buddy.OK)
    /\ buddy.buddy_get_block h m sz = Some (h, m1, buddy.mh h)
    /\ buddy.buddy_free_block h m1 (buddy.mh h) = Some (h, m2, buddy.OK)
    /\ buddy_get_stats h m 0 0 0 = Some (2 ^ A, 0, 2 ^ A)
    /\ buddy_get_stats h m1 0 0 0
       = Some (2 ^ A, buddy_request sz, 2 ^ A - buddy_request sz)
    /\ buddy_get_stats h m2 0 0 0 = Some (2 ^ A, 0, 2 ^ A).
Proof.
  intros Hmh Hhi HA5 Hhs He Hsz Hgate.
  assert (HA : 3 <= A <= 30) by lia.
  destruct (buddy_init_split_down h0 m0 A Hmh Hhi ltac:(lia) Hhs He)
    as (h & m & Ei & Emh & HL & HF & Ht).
  destruct (buddy_request_class sz A Hsz ltac:(lia) Hgate)
    as (k & Hk & Ek & _).
  destruct (buddy_get_block_first h A m sz k HL Ht ltac:(lia) Hk Ek)
    as (m1 & Eg & Hh).
  destruct (freeblock_first h A HL m1 k Hk Hh) as (m2 & Ef & Ht2).
  exists h, m, m1, m2. split; [exact Ei|]. split; [exact Eg|].
  split; [|split; [|split]].
  - rewrite (buddy_free_block_start h A) by assumption.
    rewrite Ef. reflexivity.
  - apply (printBlocks_free h A HL); [lia|exact Ht].
  - rewrite Ek. apply (printBlocks_first_held h A HL); assumption.
  - apply (printBlocks_free h A HL); [lia|exact Ht2].
Qed.

Lemma buddy_stats_account_witness :
  let h0 := buddy_arena 0x200000 0 in
  (0 < buddy.mh h0 /\ buddy.mh h0 + 2 ^ 33 <= 2 ^ 64 /\ 5 <= 20 <= 30
   /\ buddy.hs h0 / 2 = 2 ^ 20 /\ buddy.e h0 = 0
   /\ 0 < 100 <= 2 ^ 31 /\ buddy_request 100 < 2 ^ 20)
  /\ exists h m m1,
       buddy.buddy_init h0 zero_mem = Some (h, m, buddy.OK)
       /\ buddy.buddy_get_block h m 100 = Some (h, m1, buddy.mh h)
       /\ buddy_get_stats h m1 0 0 0
          = Some (2 ^ 20, buddy_request 100, 2 ^ 20 - buddy_request 100).
Proof.
  intros h0.
  assert (H1 : 0 < buddy.mh h0) by reflexivity.
  assert (H2 : buddy.mh h0 + 2 ^ 33 <= 2 ^ 64) by (cbn; lia).
  assert (H3 : 5 <= 20 <= 30) by lia.
  assert (H4 : buddy.hs h0 / 2 = 2 ^ 20) by reflexivity.
  assert (H5 : buddy.e h0 = 0) by reflexivity.
  assert (H6 : 0 < 100 <= 2 ^ 31) by lia.
  assert (H7 : buddy_request 100 < 2 ^ 20)
    by (apply Z.ltb_lt; vm_compute; reflexivity).
  split; [auto 10|].
  destruct (buddy_stats_account h0 zero_mem 20 100 H1 H2 H3 H4 H5 H6 H7)
    as (h & m & m1 & m2 & Ei & Eg & _ & _ & Es & _).
  exists h, m, m1. auto.
Defined.

(** ** The life of the first block of a first-fit arena *)

Ltac ld :=
  repeat first
    [ rewrite load32_store32_same by (cbv [ffit.NOBLOCK]; lia)
    | rewrite load32_store32_other by lia
    | rewrite load32_store8_other by lia ].

Lemma shiftr_even x : Z.shiftr (2 * x) 1 = x.
Proof.
  rewrite Z.shiftr_div_pow2 by lia. change (2 ^ 1) with 2.
  rewrite Z.mul_comm. apply Z.div_mul. lia.
Qed.

Lemma shiftr_odd x : Z.shiftr (2 * x + 1) 1 = x.
Proof.
  rewrite Z.shiftr_div_pow2 by lia. change (2 ^ 1) with 2.
  Z.div_mod_to_equations. lia.
Qed.

Lemma land_even_1 x : Z.land (2 * x) 1 = 0.
Proof. rewrite land_1_mod. Z.div_mod_to_equations. lia. Qed.

Lemma land_odd_1 x : Z.land (2 * x + 1) 1 = 1.
Proof. rewrite land_1_mod. Z.div_mod_to_equations. lia. Qed.

Lemma lxor_odd_1 x : Z.lxor (2 * x + 1) 1 = 2 * x.
Proof.
  apply Z.bits_inj'. intros i Hi. rewrite Z.lxor_spec.
  destruct (Z.eq_dec i 0) as [->|Hne].
  - rewrite Z.testbit_odd_0, Z.testbit_even_0. reflexivity.
  - rewrite (Z.bits_above_log2 1 i) by (cbn; lia). rewrite xorb_false_r.
    replace i with (Z.succ (i - 1)) by lia.
    rewrite Z.testbit_odd_succ, Z.testbit_even_succ by lia. reflexivity.
Qed.

Lemma land_word x : 0 <= x < 2 ^ 32 -> Z.land 0xffffffff x = x.
Proof.
  intros Hx. rewrite Z.land_comm. change 0xffffffff with (Z.ones 32).
  rewrite Z.land_ones by lia. apply Z.mod_small. exact Hx.
Qed.

Lemma setsize_double s : 0 <= s < 2 ^ 31 -> ffit.setsize s = 2 * s.
Proof.
  intros Hs. unfold ffit.setsize. rewrite Z.shiftl_mul_pow2 by lia.
  change (2 ^ 1) with 2. rewrite u32_small; lia.
Qed.

Lemma ffit_bremove_only h m p :
  ffit.prv m p = ffit.NOBLOCK -> ffit.nxt m p = ffit.NOBLOCK ->
  ffit.bremove h m p
  = (ffit.mkheap (ffit.mh h) (ffit.hs h) ffit.NOBLOCK ffit.NOBLOCK, m).
Proof.
  intros Hp Hn. unfold ffit.bremove. rewrite Hp, Z.eqb_refl.
  cbn [negb]. cbv beta iota zeta. rewrite Hn, Hp, Z.eqb_refl.
  reflexivity.
Qed.

Lemma ffit_binssort_empty fuel h m b :
  ffit.first h = ffit.NOBLOCK ->
  ffit.binssort fuel h m b
  = Some (ffit.mkheap (ffit.mh h) (ffit.hs h) (ffit.P2B h b) (ffit.P2B h b),
          ffit.set_prv (ffit.set_nxt m b ffit.NOBLOCK) b ffit.NOBLOCK).
Proof.
  intros Hf. unfold ffit.binssort. rewrite Hf, Z.eqb_refl. reflexivity.
Qed.

Section FirstFit.

Variables (mh hs : Z).
Hypothesis Hmh : 0 < mh.
Hypothesis Hhs : 32 < hs < 2 ^ 31.
Hypothesis H64 : mh + hs < 2 ^ 64.

Lemma ffit_block2ptr b : 0 <= b <= hs -> ffit.block2ptr mh b = mh + b.
Proof.
  intros Hb. unfold ffit.block2ptr.
  rewrite (eqb_false_of_neq b ffit.NOBLOCK) by (unfold ffit.NOBLOCK; lia).
  rewrite u64_small by lia. lia.
Qed.

Lemma ffit_ptr2block b : 0 <= b <= hs -> ffit.ptr2block mh (mh + b) = b.
Proof.
  intros Hb. unfold ffit.ptr2block.
  rewrite (eqb_false_of_neq (mh + b) NULL) by (unfold NULL; lia).
  replace (mh + b - mh) with b by lia.
  rewrite u64_small by lia. apply u32_small. lia.
Qed.

Lemma ffit_ptr2block_start : ffit.ptr2block mh mh = 0.
Proof.
  replace mh with (mh + 0) at 2 by lia. apply ffit_ptr2block. lia.
Qed.

Lemma ffit_init_one_free f l m0 :
  exists m,
    ffit.ffit_init (ffit.mkheap mh hs f l) m0 = (ffit.mkheap mh hs 0 0, m, 0)
    /\ ffit_one_free (ffit.mkheap mh hs 0 0) m.
Proof.
  unfold ffit.ffit_init. cbv zeta.
  cbn [ffit.set_first ffit.set_last ffit.mh ffit.hs ffit.first ffit.last].
  test_true (32 <? hs).
  rewrite (u32_small hs) by lia. rewrite setsize_double by lia.
  unfold ffit.untag. cbv zeta.
  assert (E : forall m, ffit.sze (ffit.set_sze m mh (2 * hs)) mh = 2 * hs).
  { intros m. unfold ffit.sze, ffit.set_sze.
    apply load32_store32_same. lia. }
  rewrite !E, land_even_1, shiftr_even. cbn [Z.eqb].
  eexists. split; [reflexivity|].
  unfold ffit_one_free.
  cbn [ffit.mh ffit.hs ffit.first ffit.last].
  rewrite setsize_double by lia.
  unfold ffit.sze, ffit.nxt, ffit.prv, ffit.set_sze, ffit.set_nxt,
    ffit.set_prv.
  repeat split; ld; reflexivity.
Qed.

Lemma ffit_getblock_first m r :
  32 <= r < hs -> ffit_one_free (ffit.mkheap mh hs 0 0) m ->
  exists h' m',
    ffit.getblock (Z.to_nat hs) (ffit.mkheap mh hs 0 0) m r
    = Some (h', m', 0)
    /\ ffit.mh h' = mh /\ ffit.hs h' = hs
    /\ ffit_first_held h' m' (ffit_cut hs r)
    /\ r <= ffit_cut hs r <= hs.
Proof.
  intros Hr (_ & _ & Hsz & Hnx & Hpv).
  cbn [ffit.mh ffit.hs] in Hsz, Hnx, Hpv.
  rewrite setsize_double in Hsz by lia.
  unfold ffit.getblock. cbn [ffit.first].
  unfold ffit.B2P at 1. cbn [ffit.mh].
  rewrite (ffit_block2ptr 0) by lia. rewrite Z.add_0_r.
  destruct (Z.to_nat hs) as [|fuel] eqn:Ef; [lia|].
  cbn [ffit.getblock_loop].
  rewrite (eqb_false_of_neq mh NULL) by (unfold NULL; lia).
  cbv zeta. rewrite !Hsz. unfold ffit.getsize. rewrite !shiftr_even.
  test_true (r <=? hs).
  unfold ffit_cut, ffit.MINSIZE.
  rewrite (u32_small (r + 32)) by lia.
  destruct (Z.ltb_spec (r + 32) hs) as [Hsplit|Hwhole].
  - (* the block is split *)
    cbn [ffit.mh]. rewrite ffit_ptr2block_start, Z.add_0_l.
    rewrite (u32_small r) by lia. rewrite (ffit_block2ptr r) by lia.
    rewrite (u32_small (hs - r)) by lia.
    rewrite (setsize_double (hs - r)), (setsize_double r) by lia.
    set (q := mh + r).
    set (m1 := ffit.set_sze m q (2 * (hs - r))).
    assert (E1 : ffit.sze m1 q = 2 * (hs - r)).
    { unfold m1, ffit.sze, ffit.set_sze. ld. reflexivity. }
    unfold ffit.untag at 1. cbv zeta.
    rewrite E1, land_even_1, shiftr_even. cbn [Z.eqb].
    set (m2 := store8 m1 (q + (hs - r) - 1) 0).
    set (m3 := ffit.set_sze m2 mh (2 * r)).
    assert (Hn3 : ffit.nxt m3 mh = ffit.NOBLOCK).
    { unfold m3, m2, m1, q, ffit.nxt, ffit.set_sze. ld. exact Hnx. }
    assert (Hp3 : ffit.prv m3 mh = ffit.NOBLOCK).
    { unfold m3, m2, m1, q, ffit.prv, ffit.set_sze. ld. exact Hpv. }
    unfold ffit.breplace.
    rewrite (ffit_bremove_only _ m3 mh Hp3 Hn3).
    rewrite ffit_binssort_empty by reflexivity.
    cbn [ffit.mh ffit.hs]. unfold ffit.P2B. cbn [ffit.mh]. unfold q.
    rewrite (ffit_ptr2block r) by lia. fold q.
    cbn [obind]. cbv zeta.
    set (m5 := ffit.set_prv (ffit.set_nxt m3 q ffit.NOBLOCK) q ffit.NOBLOCK).
    assert (E5 : ffit.sze m5 mh = 2 * r).
    { unfold m5, m3, ffit.sze, ffit.set_prv, ffit.set_nxt, ffit.set_sze, q.
      ld. reflexivity. }
    unfold ffit.tag. rewrite E5, shiftr_even, lor_even_1.
    cbn [ffit.mh]. rewrite ffit_ptr2block_start.
    eexists. eexists. split; [reflexivity|].
    split; [reflexivity|]. split; [reflexivity|]. split; [|lia].
    unfold ffit_first_held.
    cbn [ffit.mh ffit.hs ffit.first ffit.last].
    rewrite setsize_double by lia. split.
    + unfold ffit.sze, ffit.set_sze. ld. reflexivity.
    + right. split; [lia|]. split; [reflexivity|]. split; [reflexivity|].
      unfold m5, m3, m2, m1, q, ffit.sze, ffit.nxt, ffit.prv,
        ffit.set_sze, ffit.set_nxt, ffit.set_prv.
      repeat split; ld; reflexivity.
  - (* the block is handed out whole *)
    rewrite (setsize_double hs) by lia.
    set (m1 := ffit.set_sze m mh (2 * hs)).
    assert (Hn1 : ffit.nxt m1 mh = ffit.NOBLOCK).
    { unfold m1, ffit.nxt, ffit.set_sze. ld. exact Hnx. }
    assert (Hp1 : ffit.prv m1 mh = ffit.NOBLOCK).
    { unfold m1, ffit.prv, ffit.set_sze. ld. exact Hpv. }
    rewrite (ffit_bremove_only _ m1 mh Hp1 Hn1).
    cbn [ffit.mh ffit.hs obind]. cbv zeta.
    assert (E1 : ffit.sze m1 mh = 2 * hs).
    { unfold m1, ffit.sze, ffit.set_sze. ld. reflexivity. }
    unfold ffit.tag. rewrite E1, shiftr_even, lor_even_1.
    unfold ffit.P2B. cbn [ffit.mh]. rewrite ffit_ptr2block_start.
    eexists. eexists. split; [reflexivity|].
    split; [reflexivity|]. split; [reflexivity|]. split; [|lia].
    unfold ffit_first_held.
    cbn [ffit.mh ffit.hs ffit.first ffit.last]. split.
    + unfold ffit.sze, ffit.set_sze. ld. reflexivity.
    + left. repeat split; reflexivity.
Qed.

Lemma gettag_even x : ffit.gettag (2 * x) = 0.
Proof. unfold ffit.gettag. rewrite land_even_1. reflexivity. Qed.

Lemma gettag_odd x : ffit.gettag (2 * x + 1) = 1.
Proof. unfold ffit.gettag. rewrite land_odd_1. reflexivity. Qed.

Lemma ffit_freeblock_first f l m bs :
  32 <= bs <= hs -> ffit_first_held (ffit.mkheap mh hs f l) m bs ->
  exists m',
    ffit.freeblock (Z.to_nat hs) (ffit.mkheap mh hs f l) m 0
    = Some (ffit.mkheap mh hs 0 0, m', 0)
    /\ ffit_one_free (ffit.mkheap mh hs 0 0) m'.
Proof.
  intros Hbs (Hsz & Hrest).
  cbn [ffit.mh ffit.hs ffit.first ffit.last] in Hsz, Hrest.
  unfold ffit.freeblock. cbv zeta. cbn [ffit.mh ffit.hs].
  rewrite (ffit_block2ptr 0) by lia. rewrite Z.add_0_r.
  rewrite !Hsz. rewrite gettag_odd. cbn [Z.eqb Z.ltb Z.compare andb obind].
  cbv beta iota zeta. cbn [Z.eqb].
  rewrite ?Hsz. unfold ffit.getsize. rewrite ?Hsz, !shiftr_odd.
  rewrite !Z.add_0_l, !(u32_small bs) by lia.
  cbn [ffit.mh ffit.hs].
  destruct Hrest as [(E & Hf & Hl)|(Hlt & Hf & Hl & Hq & Hnq & Hpq)].
  - (* the block is the whole region *)
    subst bs. rewrite Z.ltb_irrefl. cbn [andb].
    unfold ffit.untag. cbv zeta. rewrite !Hsz, shiftr_odd, land_odd_1.
    rewrite Z.eqb_refl, lxor_odd_1, land_word by lia.
    rewrite ffit_binssort_empty by exact Hf.
    cbn [obind ffit.mh ffit.hs]. unfold ffit.P2B. cbn [ffit.mh].
    rewrite ffit_ptr2block_start.
    eexists. split; [reflexivity|].
    unfold ffit_one_free. cbn [ffit.mh ffit.hs ffit.first ffit.last].
    rewrite setsize_double by lia.
    unfold ffit.sze, ffit.nxt, ffit.prv, ffit.set_sze, ffit.set_nxt,
      ffit.set_prv.
    repeat split; ld; reflexivity.
  - (* the rest of the region is free and is merged *)
    rewrite (ffit_block2ptr bs) by lia.
    rewrite setsize_double in Hq by lia.
    test_true (bs <? hs). rewrite !Hq, gettag_even. cbn [Z.eqb andb].
    rewrite shiftr_even.
    replace (bs + (hs - bs)) with hs by lia.
    rewrite (u32_small hs), (setsize_double hs) by lia.
    set (m1 := ffit.set_sze m mh (2 * hs)).
    assert (Hn1 : ffit.nxt m1 (mh + bs) = ffit.NOBLOCK).
    { unfold m1, ffit.nxt, ffit.set_sze. ld. exact Hnq. }
    assert (Hp1 : ffit.prv m1 (mh + bs) = ffit.NOBLOCK).
    { unfold m1, ffit.prv, ffit.set_sze. ld. exact Hpq. }
    rewrite (ffit_bremove_only _ m1 (mh + bs) Hp1 Hn1).
    cbn [ffit.mh ffit.hs].
    assert (E1 : ffit.sze m1 mh = 2 * hs).
    { unfold m1, ffit.sze, ffit.set_sze. ld. reflexivity. }
    unfold ffit.untag. cbv zeta. rewrite !E1, shiftr_even, land_even_1.
    cbn [Z.eqb].
    rewrite ffit_binssort_empty by reflexivity.
    cbn [obind ffit.mh ffit.hs]. unfold ffit.P2B. cbn [ffit.mh].
    rewrite ffit_ptr2block_start.
    eexists. split; [reflexivity|].
    unfold ffit_one_free. cbn [ffit.mh ffit.hs ffit.first ffit.last].
    rewrite setsize_double by lia.
    unfold m1, ffit.sze, ffit.nxt, ffit.prv, ffit.set_sze, ffit.set_nxt,
      ffit.set_prv.
    repeat split; ld; reflexivity.
Qed.

(** The size a request is rounded to. *)
Lemma ffit_request_small sz :
  0 < sz -> sz + 5 < hs ->
  ffit_request sz = Z.max 32 (sz + 5) /\ 32 <= ffit_request sz < hs.
Proof.
  intros Hsz Hlt. unfold ffit_request, ffit.MINSIZE. cbv zeta.
  rewrite (u32_small sz), (u32_small (sz + 5)) by lia.
  destruct (Z.ltb_spec (sz + 5) 32); lia.
Qed.

Lemma ffit_get_block_first m sz :
  0 < sz -> sz + 5 < hs -> ffit_one_free (ffit.mkheap mh hs 0 0) m ->
  exists f m',
    ffit.ffit_get_block (ffit.mkheap mh hs 0 0) m sz
    = Some (ffit.mkheap mh hs f f, m', mh + 4)
    /\ ffit_first_held (ffit.mkheap mh hs f f) m'
                       (ffit_cut hs (ffit_request sz))
    /\ ffit_request sz <= ffit_cut hs (ffit_request sz) <= hs.
Proof.
  intros Hsz Hlt Hfree.
  destruct (ffit_request_small sz Hsz Hlt) as (_ & Hr).
  unfold ffit.ffit_get_block. cbv zeta. test_true (0 <? sz).
  fold (ffit_request sz). cbn [ffit.hs].
  test_true (ffit_request sz <? hs).
  unfold ffit.list_fuel. cbn [ffit.hs].
  destruct (ffit_getblock_first m (ffit_request sz) Hr Hfree)
    as (h' & m' & E & Emh & Ehs & Hheld & Hcut).
  rewrite E. cbn [obind].
  change (negb (0 =? ffit.NOBLOCK)) with true. cbv iota.
  unfold ffit.B2P. rewrite Emh. rewrite Z.add_0_l.
  rewrite (u32_small 4) by lia. rewrite (ffit_block2ptr 4) by lia.
  destruct h' as [mh' hs' f' l'].
  cbn [ffit.mh ffit.hs] in Emh, Ehs. subst mh' hs'.
  assert (El : l' = f').
  { destruct Hheld as (_ & [(_ & Hf & Hl)|(_ & Hf & Hl & _)]);
      cbn [ffit.first ffit.last] in Hf, Hl; congruence. }
  subst l'. exists f', m'. split; [reflexivity|]. split; assumption.
Qed.

Lemma ffit_free_block_start f l m :
  ffit.ffit_free_block (ffit.mkheap mh hs f l) m (mh + 4)
  = ffit.freeblock (Z.to_nat hs) (ffit.mkheap mh hs f l) m 0.
Proof.
  unfold ffit.ffit_free_block. cbn [ffit.mh ffit.hs].
  replace (mh + 4 - 4) with mh by lia.
  rewrite (u64_small mh), (u64_small (mh + 4 + 5)), (u64_small (mh + hs))
    by lia.
  rewrite Z.leb_refl. test_true (mh + 4 + 5 <? mh + hs). cbn [andb].
  unfold ffit.P2B, ffit.list_fuel. cbn [ffit.mh ffit.hs].
  rewrite ffit_ptr2block_start. reflexivity.
Qed.

Lemma ffit_block_size_start f l m :
  ffit_block_size (ffit.mkheap mh hs f l) m (mh + 4)
  = ffit.getsize (ffit.sze m mh).
Proof.
  unfold ffit_block_size, ffit.B2P, ffit.P2B. cbn [ffit.mh].
  replace (mh + 4 - 4) with mh by lia. rewrite (u64_small mh) by lia.
  rewrite ffit_ptr2block_start, (ffit_block2ptr 0) by lia.
  rewrite Z.add_0_r. reflexivity.
Qed.

(** *** The statistics of the two states *)



End FirstFit.

(** X14. On a fresh first-fit arena, get answers the address 4 bytes
    behind the start of the region, with the requested bytes inside the
    block it has cut and in front of its tag byte; free of that pointer
    succeeds and leaves the region one free block as [ffit_init] left it:
    a second free of the pointer answers 4 and changes nothing, and every
    request that passes the size gate is served again. *)
Theorem ffit_free_restores h0 m0 sz :
  0 < ffit.mh h0 -> 32 < ffit.hs h0 < 2 ^ 31 ->
  ffit.mh h0 + ffit.hs h0 < 2 ^ 64 -> 0 < sz -> sz + 5 < ffit.hs h0 ->
  exists h m h1 m1 m2,
    ffit.ffit_init h0 m0 = (h, m, 0)
    /\ ffit_one_free h m
    /\ ffit.ffit_get_block h m sz = Some (h1, m1, ffit.mh h0 + 4)
    /\ ffit.mh h0 + 4 + sz
       <= ffit.mh h0 + ffit_block_size h1 m1 (ffit.mh h0 + 4) - 1
    /\ ffit_block_size h1 m1 (ffit.mh h0 + 4) <= ffit.hs h0
    /\ ffit.ffit_free_block h1 m1 (ffit.mh h0 + 4) = Some (h, m2, 0)
    /\ ffit_one_free h m2
    /\ ffit.ffit_free_block h m2 (ffit.mh h0 + 4)
       = Some (h, m2, ffit.NOTFOUND)
    /\ forall sz', 0 < sz' -> sz' + 5 < ffit.hs h0 ->
         exists h3 m3,
           ffit.ffit_get_block h m2 sz' = Some (h3, m3, ffit.mh h0 + 4).
Proof.
  destruct h0 as [mh hs f l]. cbn [ffit.mh ffit.hs].
  intros Hmh Hhs H64 Hsz Hlt.
  destruct (ffit_init_one_free mh hs Hhs f l m0) as (m & Ei & Hfree).
  destruct (ffit_get_block_first mh hs Hmh Hhs H64 m sz Hsz Hlt Hfree)
    as (f1 & m1 & Eg & Hheld & Hcut).
  destruct (ffit_request_small hs Hhs sz Hsz Hlt) as (Er & Hr).
  destruct (ffit_freeblock_first mh hs Hmh Hhs H64 f1 f1 m1
              (ffit_cut hs (ffit_request sz)) ltac:(lia) Hheld)
    as (m2 & Ef & Hfree2).
  exists (ffit.mkheap mh hs 0 0), m, (ffit.mkheap mh hs f1 f1), m1, m2.
  split; [exact Ei|]. split; [exact Hfree|]. split; [exact Eg|].
  assert (Ebs : ffit_block_size (ffit.mkheap mh hs f1 f1) m1 (mh + 4)
                = ffit_cut hs (ffit_request sz)).
  { rewrite (ffit_block_size_start mh hs Hmh Hhs H64).
    destruct Hheld as (Hs1 & _). cbn [ffit.mh] in Hs1.
    unfold ffit.getsize. rewrite Hs1. apply shiftr_odd. }
  rewrite Ebs. split; [lia|]. split; [lia|].
  split; [|split; [exact Hfree2|split]].
  - rewrite (ffit_free_block_start mh hs Hmh Hhs H64). exact Ef.
  - rewrite (ffit_free_block_start mh hs Hmh Hhs H64).
    unfold ffit.freeblock. cbv zeta. cbn [ffit.mh].
    rewrite (ffit_block2ptr mh hs Hmh Hhs H64 0) by lia.
    rewrite Z.add_0_r.
    destruct Hfree2 as (_ & _ & Hs2 & _). cbn [ffit.mh ffit.hs] in Hs2.
    rewrite Hs2, setsize_double, gettag_even by lia. reflexivity.
  - intros sz' Hsz' Hlt'.
    destruct (ffit_get_block_first mh hs Hmh Hhs H64 m2 sz' Hsz' Hlt' Hfree2)
      as (f3 & m3 & Eg3 & _).
    eexists. eexists. exact Eg3.
Qed.

Lemma ffit_free_restores_witness :
  (0 < ffit.mh ffit_arena /\ 32 < ffit.hs ffit_arena < 2 ^ 31
   /\ ffit.mh ffit_arena + ffit.hs ffit_arena < 2 ^ 64
   /\ 0 < 27 /\ 27 + 5 < ffit.hs ffit_arena)
  /\ exists h m h1 m1 m2,
       ffit.ffit_init ffit_arena zero_mem = (h, m, 0)
       /\ ffit.ffit_get_block h m 27
          = Some (h1, m1, ffit.mh ffit_arena + 4)
       /\ ffit.ffit_free_block h1 m1 (ffit.mh ffit_arena + 4)
          = Some (h, m2, 0).
Proof.
  assert (H1 : 0 < ffit.mh ffit_arena) by reflexivity.
  assert (H2 : 32 < ffit.hs ffit_arena < 2 ^ 31) by (cbn; lia).
  assert (H3 : ffit.mh ffit_arena + ffit.hs ffit_arena < 2 ^ 64)
    by (cbn; lia).
  assert (H4 : 0 < 27) by lia.
  assert (H5 : 27 + 5 < ffit.hs ffit_arena) by (cbn; lia).
  split; [auto 10|].
  destruct (ffit_free_restores ffit_arena zero_mem 27 H1 H2 H3 H4 H5)
    as (h & m & h1 & m1 & m2 & Ei & _ & Eg & _ & _ & Ef & _).
  exists h, m, h1, m1, m2. auto.
Defined.



(** ** Two blocks, released in either order *)

Section Pair.

Variables (h : buddy.buddy_heap_t) (A : Z).
Hypothesis L : laid_out h A.

Lemma findbuddy_second k : 3 <= k <= 30 -> buddy.findbuddy (2 ^ k) k = 0.
Proof.
  intros Hk. pose proof (pow2_le_31 k ltac:(lia)) as Hp.
  rewrite findbuddy_cases by lia.
  assert (Hd : 2 ^ (k + 1) = 2 * 2 ^ k)
    by (rewrite Z.pow_add_r by lia; lia).
  rewrite Z.mod_small by lia.
  rewrite (eqb_false_of_neq (2 ^ k) 0) by lia.
  rewrite Z.sub_diag. reflexivity.
Qed.

Lemma modpow2_pow2 k : 3 <= k <= 31 -> buddy.modpow2 (2 ^ k) buddy.MINSIZE = 0.
Proof.
  intros Hk. pose proof (pow2_le_31 k ltac:(lia)).
  rewrite modpow2_minsize by lia.
  replace k with (k - 3 + 3) by lia. rewrite Z.pow_add_r by lia.
  apply Z.mod_mul. discriminate.
Qed.

Lemma unit_apart j k : 3 <= j -> 3 <= k -> j <> k -> 2 ^ (j - 3) <> 2 ^ (k - 3).
Proof.
  intros Hj Hk Hne E. apply Hne.
  apply (Z.pow_inj_r 2) in E; lia.
Qed.

(** [binsert] into an empty list writes the links of the block and the
    head of the list. *)
Lemma binsert_empty_bytes m add k m' :
  0 <= add -> add + 8 <= buddy.msize h -> 0 <= k <= A ->
  buddy.ah_get h m k = buddy.NOBLOCK ->
  buddy.binsert h m add k = Some m' ->
  forall a, a < buddy.mh h + add \/ buddy.mh h + add + 8 <= a ->
    a < buddy.ah h -> load8 m' a = load8 m a.
Proof.
  intros Ha1 Ha2 Hk Hak E a Ha Hlt.
  pose proof (msize_bounds h A L) as Hm.
  rewrite binsert_some in E by lia. injection E as <-.
  unfold buddy.ah_set, buddy.block_insert. cbv zeta.
  rewrite Hak, Z.eqb_refl. cbn [negb].
  rewrite (block2ptr_heap h A L add) by lia.
  unfold buddy.set_prv, buddy.set_nxt.
  rewrite !load8_store32_other by lia. reflexivity.
Qed.

(** The second block of class [k] is the one at offset [2^k]; the bytes
    before it are not written. *)
Lemma getblock_pair m k :
  3 <= k < A -> first_held h m k A ->
  exists m', buddy.getblock h m (2 ^ k) = Some (m', 2 ^ k)
             /\ pair_held h m' k A
             /\ forall a, a < buddy.mh h + 2 ^ k -> load8 m' a = load8 m a.
Proof.
  intros Hk (Hr & Hs0 & Hsz).
  pose proof L as (HA3 & HAM & Hms & Hmh & Hah & Hsh & H64).
  destruct (pow2_block h A L k ltac:(lia)) as (Hp8 & Hp2 & Hp31).
  pose proof Hr as (Hlow & Hup & Htop).
  destruct (Hup k ltac:(lia)) as (Hai & Hni).
  pose proof (unit_index h A L k ltac:(lia)) as Hu.
  unfold buddy.getblock. cbv zeta.
  rewrite buddy_log2_pow2 by lia. rewrite HAM.
  destruct (Z.to_nat (A + 1 - k)) as [|n] eqn:En; [lia|].
  cbn [buddy.getblock_find]. rewrite HAM. test_true (k <=? A).
  rewrite Hai.
  rewrite (eqb_false_of_neq (2 ^ k) buddy.NOBLOCK)
    by (unfold buddy.NOBLOCK; lia).
  cbn [negb]. test_true (k <=? A).
  rewrite Z.sub_diag. cbn [Z.to_nat buddy.getblock_split obind].
  rewrite Z.eqb_refl. cbn [andb].
  rewrite (eqb_false_of_neq (2 ^ k) buddy.NOBLOCK)
    by (unfold buddy.NOBLOCK; lia).
  cbn [negb]. rewrite block2size_pow2 by lia.
  rewrite (Hsz k) by lia. cbn [Z.eqb c_assert obind].
  destruct (bremove_rest h A L m k ltac:(lia) Hr) as (m1 & E1 & Hr1 & K1).
  rewrite E1. cbn [obind]. eexists. split; [reflexivity|].
  split; [split; [|split; [|split]]|].
  - apply rest_free_putsize; [exact L|lia|exact Hr1].
  - rewrite getsize_putsize_other by lia.
    rewrite (getsize_keeps h m m1 0 K1). exact Hs0.
  - apply getsize_putsize; [lia|lia|].
    rewrite (getsize_keeps h m m1 _ K1). apply Hsz. lia.
  - intros j Hj Hne. pose proof (unit_index h A L j Hj).
    pose proof (unit_apart j k ltac:(lia) ltac:(lia) Hne).
    rewrite getsize_putsize_other by lia.
    rewrite (getsize_keeps h m m1 _ K1). apply Hsz. exact Hj.
  - intros a Ha. rewrite load8_putsize by lia.
    apply (bremove_head_bytes h A L m (2 ^ k) k m1); try assumption;
      try lia.
    rewrite Hni. left. reflexivity.
Qed.

(** A block whose buddy is not free goes into the list of its class; the
    bytes before it are not written. *)
Lemma freeblock_second_of_pair m k :
  3 <= k < A -> pair_held h m k A ->
  exists m', buddy.freeblock h m (2 ^ k) = Some (m', buddy.OK)
             /\ first_held h m' k A
             /\ forall a, a < buddy.mh h + 2 ^ k -> load8 m' a = load8 m a.
Proof.
  intros Hk (Hr & Hs0 & Hsk & Hsz).
  pose proof L as (HA3 & HAM & Hms & Hmh & Hah & Hsh & H64).
  destruct (pow2_block h A L k ltac:(lia)) as (Hp8 & Hp2 & Hp31).
  pose proof (unit_index h A L k ltac:(lia)) as Hu.
  pose proof Hr as (Hlow & Hup & Htop).
  unfold buddy.freeblock.
  rewrite modpow2_pow2 by lia. cbn [Z.eqb].
  rewrite block2size_pow2 by lia. rewrite Hsk.
  rewrite (eqb_false_of_neq k 0) by lia. cbn [negb].
  set (m0 := buddy.erasesize h m (2 ^ (k - 3))).
  assert (Hr0 : rest_free h m0 (k + 1) A)
    by (apply rest_free_erasesize; [exact L|lia|exact Hr]).
  unfold buddy.bjoin. rewrite HAM.
  destruct (Z.to_nat (A - k)) as [|n] eqn:En; [lia|].
  cbn [buddy.bjoin_loop]. rewrite HAM. test_true (k <? A).
  rewrite findbuddy_second by lia.
  rewrite (bisin_empty h A L m0 0 k)
    by (try apply (proj1 Hr0); try discriminate; lia).
  cbn [obind Z.eqb].
  assert (Hak : buddy.ah_get h m0 k = buddy.NOBLOCK)
    by (apply (proj1 Hr0); lia).
  destruct (binsert_effect h A L m0 (2 ^ k) k)
    as (m1 & E1 & G1 & F1 & K1 & N1 & R1);
    [lia|lia|left; exact Hak|lia|left; exact Hak|].
  rewrite E1. cbn [obind]. exists m1. split; [reflexivity|].
  destruct Hr0 as (Hlow0 & Hup0 & Htop0).
  split; [split; [split; [|split]|split]|].
  - intros j Hj. rewrite F1 by lia. apply Hlow0. lia.
  - intros j Hj. destruct (Z.eq_dec j k) as [->|Hne].
    + split; [exact G1|]. rewrite N1. exact Hak.
    + destruct (pow2_block h A L j ltac:(lia)) as (? & ? & ?).
      pose proof (pow2_apart k j ltac:(lia)).
      rewrite F1 by lia.
      rewrite R1; [|lia|lia|right; lia|left; exact Hak].
      apply Hup0. lia.
  - rewrite F1 by lia. exact Htop0.
  - rewrite (getsize_keeps h m0 m1 0 K1). unfold m0.
    rewrite getsize_erasesize_other by lia. exact Hs0.
  - intros j Hj. rewrite (getsize_keeps h m0 m1 _ K1). unfold m0.
    destruct (Z.eq_dec j k) as [->|Hne].
    + apply getsize_erasesize. lia.
    + pose proof (unit_index h A L j Hj).
      pose proof (unit_apart j k ltac:(lia) ltac:(lia) Hne).
      rewrite getsize_erasesize_other by lia. apply Hsz; assumption.
  - intros a Ha.
    rewrite (binsert_empty_bytes m0 (2 ^ k) k m1) by (try assumption; lia).
    unfold m0. apply load8_erasesize. lia.
Qed.

(** The first block goes into the list of its class when its buddy is in
    use; only its first eight bytes are written. *)
Lemma freeblock_first_of_pair m k :
  3 <= k < A -> pair_held h m k A ->
  exists m', buddy.freeblock h m 0 = Some (m', buddy.OK)
             /\ second_held h m' k A
             /\ forall a, buddy.mh h + 8 <= a < buddy.ah h ->
                  load8 m' a = load8 m a.
Proof.
  intros Hk (Hr & Hs0 & Hsk & Hsz).
  pose proof L as (HA3 & HAM & Hms & Hmh & Hah & Hsh & H64).
  destruct (pow2_block h A L k ltac:(lia)) as (Hp8 & Hp2 & Hp31).
  pose proof (unit_index h A L k ltac:(lia)) as Hu.
  unfold buddy.freeblock.
  change (buddy.modpow2 0 buddy.MINSIZE =? 0) with true. cbv iota.
  change (buddy.block2size 0) with 0. rewrite Hs0.
  rewrite (eqb_false_of_neq k 0) by lia. cbn [negb].
  set (m0 := buddy.erasesize h m 0).
  assert (Hr0 : rest_free h m0 (k + 1) A)
    by (apply rest_free_erasesize; [exact L|lia|exact Hr]).
  unfold buddy.bjoin. rewrite HAM.
  destruct (Z.to_nat (A - k)) as [|n] eqn:En; [lia|].
  cbn [buddy.bjoin_loop]. rewrite HAM. test_true (k <? A).
  rewrite findbuddy_first by lia.
  assert (Hak : buddy.ah_get h m0 k = buddy.NOBLOCK)
    by (apply (proj1 Hr0); lia).
  rewrite (bisin_empty h A L m0 (2 ^ k) k)
    by (try exact Hak; unfold buddy.NOBLOCK; lia).
  cbn [obind Z.eqb].
  destruct (binsert_effect h A L m0 0 k)
    as (m1 & E1 & G1 & F1 & K1 & N1 & R1);
    [lia|lia|left; exact Hak|lia|left; exact Hak|].
  rewrite Z.add_0_r in N1.
  rewrite E1. cbn [obind]. exists m1. split; [reflexivity|].
  destruct Hr0 as (Hlow0 & Hup0 & Htop0).
  split; [|intros a Ha;
           rewrite (binsert_empty_bytes m0 0 k m1) by (try assumption; lia);
           unfold m0; apply load8_erasesize; lia].
  split; [exact G1|]. split; [rewrite N1; exact Hak|].
  split; [|split; [|split; [|split; [|split]]]].
  - intros j Hj. rewrite F1 by lia. apply Hlow0. lia.
  - intros j Hj. destruct (pow2_block h A L j ltac:(lia)) as (? & ? & ?).
    rewrite F1 by lia.
    rewrite R1; [|lia|lia|right; lia|left; exact Hak].
    apply Hup0. lia.
  - rewrite F1 by lia. exact Htop0.
  - rewrite (getsize_keeps h m0 m1 0 K1). apply getsize_erasesize. lia.
  - rewrite (getsize_keeps h m0 m1 _ K1). unfold m0.
    rewrite getsize_erasesize_other by lia. exact Hsk.
  - intros j Hj Hne. rewrite (getsize_keeps h m0 m1 _ K1). unfold m0.
    pose proof (unit_index h A L j Hj).
    rewrite getsize_erasesize_other by lia. apply Hsz; assumption.
Qed.

(** The second block meets its free buddy: the two are joined, and the
    joins go on up to the top list. *)
Lemma freeblock_second_joins m k :
  3 <= k < A -> second_held h m k A ->
  exists m', buddy.freeblock h m (2 ^ k) = Some (m', buddy.OK)
             /\ split_down h m' A A.
Proof.
  intros Hk (H0 & Hnx & Hlow & Hup & Htop & Hs0 & Hsk & Hsz).
  pose proof L as (HA3 & HAM & Hms & Hmh & Hah & Hsh & H64).
  destruct (pow2_block h A L k ltac:(lia)) as (Hp8 & Hp2 & Hp31).
  pose proof (unit_index h A L k ltac:(lia)) as Hu.
  unfold buddy.freeblock.
  rewrite modpow2_pow2 by lia. cbn [Z.eqb].
  rewrite block2size_pow2 by lia. rewrite Hsk.
  rewrite (eqb_false_of_neq k 0) by lia. cbn [negb].
  set (m0 := buddy.erasesize h m (2 ^ (k - 3))).
  assert (Hah0 : forall j, 0 <= j <= A ->
                   buddy.ah_get h m0 j = buddy.ah_get h m j)
    by (intros j Hj; apply (ah_get_erasesize h A L); exact Hj).
  assert (Hnx0 : forall b, b + 4 <= buddy.msize h ->
                   buddy.nxt m0 (buddy.mh h + b)
                   = buddy.nxt m (buddy.mh h + b))
    by (intros b Hb; apply (nxt_erasesize h A L); exact Hb).
  unfold buddy.bjoin. rewrite HAM.
  destruct (Z.to_nat (A - k)) as [|n] eqn:En; [lia|].
  cbn [buddy.bjoin_loop]. rewrite HAM. test_true (k <? A).
  rewrite findbuddy_second by lia.
  rewrite (bisin_head h m0 0 k) by (rewrite Hah0 by lia; exact H0).
  cbn [obind].
  destruct (bremove_head_effect h A L m0 0 k)
    as (m1 & E1 & G1 & F1 & K1 & N1 & R1);
    [lia|lia|rewrite Hah0 by lia; exact H0
    |rewrite Z.add_0_r, <- (Z.add_0_r (buddy.mh h)), Hnx0, Z.add_0_r, Hnx
       by lia; left; reflexivity|lia|].
  rewrite Z.add_0_r in G1.
  rewrite E1. cbn [obind Z.eqb negb].
  test_false (2 ^ k <? 0). rewrite (u8_small (k + 1)) by lia.
  assert (Hnext : buddy.ah_get h m1 (k + 1)
                  = if k + 1 =? A then buddy.NOBLOCK else 2 ^ (k + 1)).
  { rewrite F1, Hah0 by lia. destruct (Z.eqb_spec (k + 1) A) as [E|Hne].
    - rewrite E. exact Htop.
    - apply Hup. lia. }
  destruct (binsert_effect h A L m1 0 (k + 1))
    as (m2 & E2 & G2 & F2 & K2 & N2 & R2); [lia|lia| |lia| |].
  { rewrite Hnext. destruct (Z.eqb_spec (k + 1) A); [left; reflexivity|].
    right. destruct (pow2_block h A L (k + 1) ltac:(lia)) as (? & ? & _).
    lia. }
  { rewrite Hnext. destruct (Z.eqb_spec (k + 1) A); [left; reflexivity|].
    right. left.
    destruct (pow2_block h A L (k + 1) ltac:(lia)) as (? & _). lia. }
  rewrite Z.add_0_r in N2. rewrite E2. cbn [obind].
  assert (Ht2 : split_down h m2 (k + 1) A).
  { split; [exact G2|]. split; [rewrite N2; exact Hnext|].
    split; [|split; [|split; [|split; [|split]]]].
    - intros j Hj. rewrite F2 by lia.
      destruct (Z.eq_dec j k) as [->|Hne].
      + rewrite G1. rewrite <- (Z.add_0_r (buddy.mh h)), Hnx0 by lia.
        rewrite Z.add_0_r. exact Hnx.
      + rewrite F1, Hah0 by lia. apply Hlow. lia.
    - intros j Hj. rewrite F2, F1, Hah0 by lia. apply Hup. lia.
    - intros j Hj. destruct (pow2_block h A L j ltac:(lia)) as (? & ? & ?).
      rewrite R2; [|lia|lia|right; lia|].
      + rewrite R1; [|lia|lia|right; lia].
        rewrite Hnx0 by lia. apply Hup. lia.
      + rewrite Hnext. rewrite (eqb_false_of_neq (k + 1) A) by lia.
        destruct (Z.eq_dec j (k + 1)) as [->|Hne]; [right; left; lia|].
        pose proof (pow2_apart (k + 1) j ltac:(lia)).
        destruct (pow2_block h A L (k + 1) ltac:(lia)) as (? & _).
        right. right. lia.
    - intros Hlt. rewrite F2, F1, Hah0 by lia. exact Htop.
    - rewrite (getsize_keeps h m1 m2 0 K2), (getsize_keeps h m0 m1 0 K1).
      unfold m0. rewrite getsize_erasesize_other by lia. exact Hs0.
    - intros j Hj.
      rewrite (getsize_keeps h m1 m2 _ K2), (getsize_keeps h m0 m1 _ K1).
      unfold m0. destruct (Z.eq_dec j k) as [->|Hne].
      + apply getsize_erasesize. lia.
      + pose proof (unit_index h A L j Hj).
        pose proof (unit_apart j k ltac:(lia) ltac:(lia) Hne).
        rewrite getsize_erasesize_other by lia. apply Hsz; assumption. }
  destruct (bjoin_up h A L n m2 (k + 1) ltac:(lia) ltac:(lia) Ht2)
    as (m' & E & Ht).
  rewrite E. cbn [obind Z.eqb]. exists m'. split; [reflexivity|exact Ht].
Qed.

End Pair.

Lemma buddy_free_block_main h A m b :
  laid_out h A -> main_heap_first h -> 0 <= b < buddy.msize h ->
  buddy.buddy_free_block h m (buddy.mh h + b)
  = ('(m', rc) <- buddy.freeblock h m b ;;
     Some (h, m',
           if Z.land rc buddy.NOTFOUND =? buddy.NOTFOUND then buddy.NOTFOUND
           else if rc <? 0 then buddy.INTERNAL else buddy.OK)).
Proof.
  intros HL (Hf1 & Hf2 & Hf3) Hb. pose proof (msize_bounds h A HL) as Hm.
  pose proof HL as (HA3 & HAM & Hms & Hmh & Hah & Hsh & H64).
  unfold buddy.buddy_free_block.
  test_false (buddy.mh h + b <? buddy.mh h).
  replace (u64 (u64 (buddy.mh h + buddy.msize h) + buddy.esize h)
           <=? buddy.mh h + b) with false by (symmetry; apply Z.leb_gt; lia).
  test_false (buddy.eh h <=? buddy.mh h + b). cbn [orb].
  rewrite buddy_ptr2block_main by lia.
  replace (buddy.mh h + b - buddy.mh h) with b by lia. reflexivity.
Qed.

(** X16. Two blocks of one class, for a request of at most [2^31] bytes
    with a class below the top one, taken from a fresh arena without
    emergency heap and with a main heap of at least 32 bytes are the
    block at the start of the main heap and its buddy; released in
    either order, both releases succeed and the buddies are joined
    again, up to the one free block [buddy_init] left: the block released
    first waits in the list of its class, the second release joins the
    two and goes on joining up to the top list. *)
Theorem buddy_pair_coalesces h0 m0 A sz :
  0 < buddy.mh h0 -> buddy.mh h0 + 2 ^ 33 <= 2 ^ 64 -> 5 <= A <= 31 ->
  buddy.hs h0 / 2 = 2 ^ A -> buddy.e h0 = 0 ->
  0 < sz <= 2 ^ 31 -> buddy_request sz < 2 ^ A ->
  exists h m m1 m2 p2,
    buddy.buddy_init h0 m0 = Some (h, m, buddy.OK)
    /\ buddy.buddy_get_block h m sz = Some (h, m1, buddy.mh h)
    /\ buddy.buddy_get_block h m1 sz = Some (h, m2, p2)
    /\ p2 = buddy.mh h + buddy_request sz
    /\ (exists m3 m4,
          buddy.buddy_free_block h m2 (buddy.mh h) = Some (h, m3, buddy.OK)
          /\ buddy.buddy_free_block h m3 p2 = Some (h, m4, buddy.OK)
          /\ split_down h m4 A A)
    /\ (exists m3 m4,
          buddy.buddy_free_block h m2 p2 = Some (h, m3, buddy.OK)
          /\ buddy.buddy_free_block h m3 (buddy.mh h)
             = Some (h, m4, buddy.OK)
          /\ split_down h m4 A A).
Proof.
  intros Hmh Hhi HA5 Hhs He Hsz Hgate.
  assert (HA : 3 <= A <= 31) by lia.
  destruct (buddy_init_split_down h0 m0 A Hmh Hhi HA Hhs He)
    as (h & m & Ei & Emh & HL & HF & Ht).
  pose proof HL as (HA3 & HAM & Hms & Hmh' & Hah & Hsh & H64).
  destruct (buddy_request_class sz A Hsz HA Hgate) as (k & Hk & Ek & _).
  destruct (buddy_get_block_first h A m sz k HL Ht ltac:(lia) Hk Ek)
    as (m1 & Eg & Hh).
  destruct (getblock_pair h A HL m1 k Hk Hh) as (m2 & Eg2 & Hp & _).
  destruct (pow2_block h A HL k Hk) as (Hp8 & Hp2 & Hp31).
  destruct (freeblock_first_of_pair h A HL m2 k Hk Hp)
    as (m3 & Ef3 & Hs3 & _).
  destruct (freeblock_second_joins h A HL m3 k Hk Hs3) as (m4 & Ef4 & Ht4).
  destruct (freeblock_second_of_pair h A HL m2 k Hk Hp)
    as (m3' & Ef3' & Hh3' & _).
  destruct (freeblock_first h A HL m3' k Hk Hh3') as (m4' & Ef4' & Ht4').
  exists h, m, m1, m2, (buddy.mh h + buddy_request sz).
  split; [exact Ei|]. split; [exact Eg|]. split; [|split; [reflexivity|]].
  - rewrite buddy_get_block_searches by (rewrite ?Ek, ?Hms; lia).
    rewrite Ek, Eg2. cbn [obind].
    rewrite (eqb_false_of_neq (2 ^ k) buddy.NOBLOCK)
      by (unfold buddy.NOBLOCK; lia).
    cbn [negb]. rewrite (block2ptr_heap h A HL) by lia.
    reflexivity.
  - rewrite Ek. split.
    + exists m3, m4. split; [|split; [|exact Ht4]].
      * rewrite (buddy_free_block_start h A) by assumption.
        rewrite Ef3. reflexivity.
      * rewrite (buddy_free_block_main h A) by (try assumption; lia).
        rewrite Ef4. reflexivity.
    + exists m3', m4'. split; [|split; [|exact Ht4']].
      * rewrite (buddy_free_block_main h A) by (try assumption; lia).
        rewrite Ef3'. reflexivity.
      * rewrite (buddy_free_block_start h A) by assumption.
        rewrite Ef4'. reflexivity.
Qed.

Lemma buddy_pair_coalesces_witness :
  let h0 := buddy_arena 0x200000 0 in
  (0 < buddy.mh h0 /\ buddy.mh h0 + 2 ^ 33 <= 2 ^ 64 /\ 5 <= 20 <= 31
   /\ buddy.hs h0 / 2 = 2 ^ 20 /\ buddy.e h0 = 0
   /\ 0 < 100 <= 2 ^ 31 /\ buddy_request 100 < 2 ^ 20)
  /\ exists h m m1 m2 m3 m4,
       buddy.buddy_init h0 zero_mem = Some (h, m, buddy.OK)
       /\ buddy.buddy_get_block h m 100 = Some (h, m1, buddy.mh h)
       /\ buddy.buddy_get_block h m1 100
          = Some (h, m2, buddy.mh h + buddy_request 100)
       /\ buddy.buddy_free_block h m2 (buddy.mh h) = Some (h, m3, buddy.OK)
       /\ buddy.buddy_free_block h m3 (buddy.mh h + buddy_request 100)
          = Some (h, m4, buddy.OK).
Proof.
  intros h0.
  assert (H1 : 0 < buddy.mh h0) by reflexivity.
  assert (H2 : buddy.mh h0 + 2 ^ 33 <= 2 ^ 64) by (cbn; lia).
  assert (H3 : 5 <= 20 <= 31) by lia.
  assert (H4 : buddy.hs h0 / 2 = 2 ^ 20) by reflexivity.
  assert (H5 : buddy.e h0 = 0) by reflexivity.
  assert (H6 : 0 < 100 <= 2 ^ 31) by lia.
  assert (H7 : buddy_request 100 < 2 ^ 20)
    by (apply Z.ltb_lt; vm_compute; reflexivity).
  split; [auto 10|].
  destruct (buddy_pair_coalesces h0 zero_mem 20 100 H1 H2 H3 H4 H5 H6 H7)
    as (h & m & m1 & m2 & p2 & Ei & Eg & Eg2 & Ep
        & (m3 & m4 & Ef3 & Ef4 & _) & _).
  subst p2. exists h, m, m1, m2, m3, m4. auto 10.
Defined.

(** X17. When the two halves of the main heap of a fresh arena without
    emergency heap and with a main heap of at least 32 bytes are handed
    out, the main heap is used up: every further get answers null and
    changes nothing. *)
Theorem buddy_main_heap_used_up h0 m0 A sz sz' :
  0 < buddy.mh h0 -> buddy.mh h0 + 2 ^ 33 <= 2 ^ 64 -> 5 <= A <= 31 ->
  buddy.hs h0 / 2 = 2 ^ A -> buddy.e h0 = 0 ->
  0 < sz <= 2 ^ 31 -> buddy_request sz = 2 ^ (A - 1) ->
  exists h m m1 m2,
    buddy.buddy_init h0 m0 = Some (h, m, buddy.OK)
    /\ buddy.buddy_get_block h m sz = Some (h, m1, buddy.mh h)
    /\ buddy.buddy_get_block h m1 sz
       = Some (h, m2, buddy.mh h + 2 ^ (A - 1))
    /\ buddy.buddy_get_block h m2 sz' = Some (h, m2, NULL).
Proof.
  intros Hmh Hhi HA5 Hhs He Hsz Ereq.
  assert (HA : 4 <= A <= 31) by lia.
  destruct (buddy_init_split_down h0 m0 A Hmh Hhi ltac:(lia) Hhs He)
    as (h & m & Ei & Emh & HL & HF & Ht).
  pose proof HL as (HA3 & HAM & Hms & Hmh' & Hah & Hsh & H64).
  assert (Hk : 3 <= A - 1 < A) by lia.
  destruct (buddy_get_block_first h A m sz (A - 1) HL Ht ltac:(lia) Hk Ereq)
    as (m1 & Eg & Hh).
  destruct (getblock_pair h A HL m1 (A - 1) Hk Hh)
    as (m2 & Eg2 & Hp & _).
  destruct (pow2_block h A HL (A - 1) Hk) as (Hp8 & Hp2 & Hp31).
  exists h, m, m1, m2.
  split; [exact Ei|]. split; [exact Eg|]. split.
  - rewrite buddy_get_block_searches by (rewrite ?Ereq, ?Hms; lia).
    rewrite Ereq, Eg2. cbn [obind].
    rewrite (eqb_false_of_neq (2 ^ (A - 1)) buddy.NOBLOCK)
      by (unfold buddy.NOBLOCK; lia).
    cbn [negb]. rewrite (block2ptr_heap h A HL) by lia.
    reflexivity.
  - destruct Hp as ((Hlow & _ & Htop) & _).
    unfold buddy.buddy_get_block. fold (buddy_request sz').
    destruct (0 <? sz'); [|reflexivity].
    destruct (buddy_request sz' <? buddy.msize h); [|reflexivity].
    rewrite getblock_exhausted; [|lia|].
    + cbn [obind]. rewrite Z.eqb_refl. cbn [negb].
      assert (Ee : buddy.e h = 0).
      { revert Ei. unfold buddy.buddy_init. rewrite He.
        destruct (negb (buddy.mh h0 =? 0) && negb (buddy.hs h0 =? 0));
          cbv zeta.
        - destruct (buddy.init_avail _ _); cbn [obind negb Z.eqb];
            [|discriminate].
          intros [= <- _]. reflexivity.
        - discriminate. }
      rewrite Ee. reflexivity.
    + intros j Hj. rewrite HAM in Hj.
      assert (0 <= buddy.buddy_log2 (buddy_request sz'))
        by (apply Z.mod_pos_bound; lia).
      destruct (Z.eq_dec j A) as [->|Hne]; [exact Htop|].
      apply Hlow. lia.
Qed.

Lemma buddy_main_heap_used_up_witness :
  let h0 := buddy_arena 64 0 in
  (0 < buddy.mh h0 /\ buddy.mh h0 + 2 ^ 33 <= 2 ^ 64 /\ 5 <= 5 <= 31
   /\ buddy.hs h0 / 2 = 2 ^ 5 /\ buddy.e h0 = 0
   /\ 0 < 16 <= 2 ^ 31 /\ buddy_request 16 = 2 ^ (5 - 1))
  /\ exists h m m1 m2,
       buddy.buddy_init h0 zero_mem = Some (h, m, buddy.OK)
       /\ buddy.buddy_get_block h m 16 = Some (h, m1, buddy.mh h)
       /\ buddy.buddy_get_block h m1 16
          = Some (h, m2, buddy.mh h + 2 ^ (5 - 1))
       /\ buddy.buddy_get_block h m2 8 = Some (h, m2, NULL).
Proof.
  intros h0.
  assert (H1 : 0 < buddy.mh h0) by reflexivity.
  assert (H2 : buddy.mh h0 + 2 ^ 33 <= 2 ^ 64) by (cbn; lia).
  assert (H3 : 5 <= 5 <= 31) by lia.
  assert (H4 : buddy.hs h0 / 2 = 2 ^ 5) by reflexivity.
  assert (H5 : buddy.e h0 = 0) by reflexivity.
  assert (H6 : 0 < 16 <= 2 ^ 31) by lia.
  assert (H7 : buddy_request 16 = 2 ^ (5 - 1)) by (vm_compute; reflexivity).
  split; [auto 10|].
  exact (buddy_main_heap_used_up h0 zero_mem 5 16 8 H1 H2 H3 H4 H5 H6 H7).
Defined.

(** ** Two blocks of a first-fit arena *)

Lemma load8_store8_other m a v a' :
  a' <> a -> load8 (store8 m a v) a' = load8 m a'.
Proof.
  intros Hne. rewrite load8_store8.
  rewrite (eqb_false_of_neq a' a) by exact Hne. reflexivity.
Qed.

Lemma load8_store8_same m a v : 0 <= v < 256 -> load8 (store8 m a v) a = v.
Proof.
  intros Hv. rewrite load8_store8, Z.eqb_refl. unfold u8.
  change (2 ^ 8) with 256. apply Z.mod_small. exact Hv.
Qed.

Ltac ld8 :=
  repeat first
    [ rewrite load8_store32_other by lia
    | rewrite load8_store8_other by lia ].

Lemma ffit_bremove_first h m p n :
  ffit.prv m p = ffit.NOBLOCK -> ffit.nxt m p = n -> n <> ffit.NOBLOCK ->
  ffit.bremove h m p
  = (ffit.set_first h n, ffit.set_prv m (ffit.block2ptr (ffit.mh h) n)
                           ffit.NOBLOCK).
Proof.
  intros Hp Hn Hne. unfold ffit.bremove. rewrite Hp, Z.eqb_refl.
  cbn [negb]. cbv beta iota zeta. rewrite Hn, Hp.
  rewrite (eqb_false_of_neq n ffit.NOBLOCK) by exact Hne.
  reflexivity.
Qed.

Lemma ffit_bremove_last h m p q :
  ffit.prv m p = q -> q <> ffit.NOBLOCK ->
  ffit.nxt m p = ffit.NOBLOCK ->
  ffit.nxt (ffit.set_nxt m (ffit.block2ptr (ffit.mh h) q) ffit.NOBLOCK) p
  = ffit.NOBLOCK ->
  ffit.prv (ffit.set_nxt m (ffit.block2ptr (ffit.mh h) q) ffit.NOBLOCK) p
  = q ->
  ffit.bremove h m p
  = (ffit.set_last h q,
     ffit.set_nxt m (ffit.block2ptr (ffit.mh h) q) ffit.NOBLOCK).
Proof.
  intros Hp Hne Hn Hn' Hp'. unfold ffit.bremove. rewrite Hp.
  rewrite (eqb_false_of_neq q ffit.NOBLOCK) by exact Hne.
  cbn [negb]. cbv beta iota zeta. unfold ffit.REFBLOCK.
  rewrite Hn, Hn', Hp', Z.eqb_refl. reflexivity.
Qed.

Section FirstFitPair.

Variables (mh hs : Z).
Hypothesis Hmh : 0 < mh.
Hypothesis Hhs : 32 < hs < 2 ^ 31.
Hypothesis H64 : mh + hs < 2 ^ 64.

(** A request served from the free rest of the region, which is split. *)
Lemma ffit_getblock_tail m o r :
  0 <= o -> 32 <= r -> o + r + 32 < hs ->
  ffit_tail_free (ffit.mkheap mh hs o o) m o ->
  exists m',
    ffit.getblock (Z.to_nat hs) (ffit.mkheap mh hs o o) m r
    = Some (ffit.mkheap mh hs (o + r) (o + r), m', o)
    /\ ffit.sze m' (mh + o) = 2 * r + 1
    /\ load8 m' (mh + o + r - 1) = 1
    /\ ffit_tail_free (ffit.mkheap mh hs (o + r) (o + r)) m' (o + r)
    /\ forall a, a < mh + o \/ mh + hs <= a -> load8 m' a = load8 m a.
Proof.
  intros Ho Hr Hfit (_ & _ & Hsz & Hnx & Hpv).
  cbn [ffit.mh ffit.hs] in Hsz, Hnx, Hpv.
  rewrite setsize_double in Hsz by lia.
  unfold ffit.getblock. cbn [ffit.first].
  unfold ffit.B2P at 1. cbn [ffit.mh].
  rewrite (ffit_block2ptr mh hs Hmh Hhs H64 o) by lia.
  destruct (Z.to_nat hs) as [|fuel] eqn:Ef; [lia|].
  cbn [ffit.getblock_loop].
  rewrite (eqb_false_of_neq (mh + o) NULL) by (unfold NULL; lia).
  cbv zeta. rewrite !Hsz. unfold ffit.getsize. rewrite !shiftr_even.
  test_true (r <=? hs - o).
  unfold ffit.MINSIZE.
  rewrite (u32_small (r + 32)) by lia.
  test_true (r + 32 <? hs - o).
  cbn [ffit.mh]. rewrite (ffit_ptr2block mh hs Hmh Hhs o) by lia.
  rewrite (u32_small (o + r)) by lia.
  rewrite (ffit_block2ptr mh hs Hmh Hhs H64 (o + r)) by lia.
  rewrite (u32_small (hs - o - r)) by lia.
  rewrite (setsize_double (hs - o - r)), (setsize_double r) by lia.
  set (q := mh + (o + r)).
  set (m1 := ffit.set_sze m q (2 * (hs - o - r))).
  assert (E1 : ffit.sze m1 q = 2 * (hs - o - r)).
  { unfold m1, ffit.sze, ffit.set_sze. ld. reflexivity. }
  unfold ffit.untag at 1. cbv zeta.
  rewrite E1, land_even_1, shiftr_even. cbn [Z.eqb].
  set (m2 := store8 m1 (q + (hs - o - r) - 1) 0).
  set (m3 := ffit.set_sze m2 (mh + o) (2 * r)).
  assert (Hn3 : ffit.nxt m3 (mh + o) = ffit.NOBLOCK).
  { unfold m3, m2, m1, q, ffit.nxt, ffit.set_sze. ld. exact Hnx. }
  assert (Hp3 : ffit.prv m3 (mh + o) = ffit.NOBLOCK).
  { unfold m3, m2, m1, q, ffit.prv, ffit.set_sze. ld. exact Hpv. }
  unfold ffit.breplace.
  rewrite (ffit_bremove_only _ m3 (mh + o) Hp3 Hn3).
  rewrite ffit_binssort_empty by reflexivity.
  cbn [ffit.mh ffit.hs]. unfold ffit.P2B. cbn [ffit.mh]. unfold q.
  rewrite (ffit_ptr2block mh hs Hmh Hhs (o + r)) by lia. fold q.
  cbn [obind]. cbv zeta.
  set (m5 := ffit.set_prv (ffit.set_nxt m3 q ffit.NOBLOCK) q ffit.NOBLOCK).
  assert (E5 : ffit.sze m5 (mh + o) = 2 * r).
  { unfold m5, m3, ffit.sze, ffit.set_prv, ffit.set_nxt, ffit.set_sze, q.
    ld. reflexivity. }
  unfold ffit.tag. rewrite E5, shiftr_even, lor_even_1.
  cbn [ffit.mh]. rewrite (ffit_ptr2block mh hs Hmh Hhs o) by lia.
  eexists. split; [reflexivity|].
  split; [|split; [|split]].
  - unfold ffit.sze, ffit.set_sze. ld. reflexivity.
  - apply load8_store8_same. lia.
  - unfold ffit_tail_free. cbn [ffit.mh ffit.hs ffit.first ffit.last].
    rewrite setsize_double by lia.
    split; [reflexivity|]. split; [reflexivity|].
    unfold m5, m3, m2, m1, q, ffit.sze, ffit.nxt, ffit.prv,
      ffit.set_sze, ffit.set_nxt, ffit.set_prv.
    replace (hs - (o + r)) with (hs - o - r) by lia.
    repeat split; ld; reflexivity.
  - intros a Hout.
    unfold m5, m3, m2, m1, q, ffit.set_sze, ffit.set_nxt, ffit.set_prv.
    ld8. reflexivity.
Qed.


Lemma tagged_byte m w : load8 m w = 1 -> ffit.tagged m w = true.
Proof. intros E. unfold ffit.tagged. rewrite E. reflexivity. Qed.

Lemma untagged_byte m w : load8 m w = 0 -> ffit.tagged m w = false.
Proof. intros E. unfold ffit.tagged. rewrite E. reflexivity. Qed.

(** The release of the block in front of the free rest of the region,
    when it is the first block or the block before it is in use: the
    block and the rest are merged. *)
Lemma ffit_freeblock_last m o bb :
  0 <= o -> 32 <= bb -> o + bb + 32 < hs ->
  ffit.sze m (mh + o) = 2 * bb + 1 ->
  o = 0 \/ load8 m (mh + o - 1) = 1 ->
  ffit_tail_free (ffit.mkheap mh hs (o + bb) (o + bb)) m (o + bb) ->
  exists m',
    ffit.freeblock (Z.to_nat hs) (ffit.mkheap mh hs (o + bb) (o + bb)) m o
    = Some (ffit.mkheap mh hs o o, m', 0)
    /\ ffit_tail_free (ffit.mkheap mh hs o o) m' o
    /\ forall a, a < mh + o \/ mh + hs <= a -> load8 m' a = load8 m a.
Proof.
  intros Ho Hbb Hfit Hsz Hprev (_ & _ & Hq & Hnq & Hpq).
  assert (Hskip : (0 <? o)
                  && negb (ffit.tagged m (ffit.block2ptr mh (u32 (o - 1))))
                  = false).
  { destruct (Z.eq_dec o 0) as [->|Hne]; [reflexivity|].
    destruct Hprev as [E|Htag]; [lia|].
    rewrite (u32_small (o - 1)) by lia.
    rewrite (ffit_block2ptr mh hs Hmh Hhs H64 (o - 1)) by lia.
    replace (mh + (o - 1)) with (mh + o - 1) by lia.
    rewrite (tagged_byte _ _ Htag). apply andb_false_r. }
  cbn [ffit.mh ffit.hs] in Hq, Hnq, Hpq.
  rewrite setsize_double in Hq by lia.
  unfold ffit.freeblock. cbv zeta. cbn [ffit.mh ffit.hs].
  rewrite (ffit_block2ptr mh hs Hmh Hhs H64 o) by lia.
  rewrite !Hsz. rewrite gettag_odd. cbn [Z.eqb].
  rewrite Hskip. cbn [obind].
  cbv beta iota zeta. cbn [Z.eqb].
  rewrite ?Hsz. unfold ffit.getsize. rewrite ?Hsz, !shiftr_odd.
  rewrite !(u32_small (o + bb)) by lia.
  cbn [ffit.mh ffit.hs].
  rewrite (ffit_block2ptr mh hs Hmh Hhs H64 (o + bb)) by lia.
  test_true (o + bb <? hs). rewrite !Hq, gettag_even. cbn [Z.eqb andb].
  rewrite shiftr_even.
  replace (bb + (hs - (o + bb))) with (hs - o) by lia.
  rewrite (u32_small (hs - o)), (setsize_double (hs - o)) by lia.
  set (m1 := ffit.set_sze m (mh + o) (2 * (hs - o))).
  assert (Hn1 : ffit.nxt m1 (mh + (o + bb)) = ffit.NOBLOCK).
  { unfold m1, ffit.nxt, ffit.set_sze. ld. exact Hnq. }
  assert (Hp1 : ffit.prv m1 (mh + (o + bb)) = ffit.NOBLOCK).
  { unfold m1, ffit.prv, ffit.set_sze. ld. exact Hpq. }
  rewrite (ffit_bremove_only _ m1 (mh + (o + bb)) Hp1 Hn1).
  cbn [ffit.mh ffit.hs].
  assert (E1 : ffit.sze m1 (mh + o) = 2 * (hs - o)).
  { unfold m1, ffit.sze, ffit.set_sze. ld. reflexivity. }
  unfold ffit.untag. cbv zeta. rewrite !E1, shiftr_even, land_even_1.
  cbn [Z.eqb].
  rewrite ffit_binssort_empty by reflexivity.
  cbn [obind ffit.mh ffit.hs]. unfold ffit.P2B. cbn [ffit.mh].
  rewrite (ffit_ptr2block mh hs Hmh Hhs o) by lia.
  eexists. split; [reflexivity|]. split.
  - unfold ffit_tail_free. cbn [ffit.mh ffit.hs ffit.first ffit.last].
    rewrite setsize_double by lia.
    split; [reflexivity|]. split; [reflexivity|].
    unfold m1, ffit.sze, ffit.nxt, ffit.prv, ffit.set_sze, ffit.set_nxt,
      ffit.set_prv.
    repeat split; ld; reflexivity.
  - intros a Hout.
    unfold m1, ffit.set_sze, ffit.set_nxt, ffit.set_prv.
    ld8. reflexivity.
Qed.


(** The release of the first of two blocks in use: it cannot be merged
    and joins the rest of the region in the available list. *)
Lemma ffit_freeblock_head_of_pair m ba bb :
  32 <= ba -> 32 <= bb -> ba + bb + 32 < hs ->
  ffit_pair_held (ffit.mkheap mh hs (ba + bb) (ba + bb)) m ba bb ->
  exists f l m',
    ffit.freeblock (Z.to_nat hs) (ffit.mkheap mh hs (ba + bb) (ba + bb)) m 0
    = Some (ffit.mkheap mh hs f l, m', 0)
    /\ ffit_second_held (ffit.mkheap mh hs f l) m' ba bb
    /\ forall a,
         a < mh \/ mh + hs <= a \/ mh + ba <= a < mh + (ba + bb) ->
         load8 m' a = load8 m a.
Proof.
  intros Hba Hbb Hfit (Ha & Hta & Hb & _ & _ & Hq & Hnq & Hpq).
  cbn [ffit.mh ffit.hs] in Ha, Hta, Hb, Hq, Hnq, Hpq.
  rewrite setsize_double in Hq by lia.
  unfold ffit.freeblock. cbv zeta. cbn [ffit.mh ffit.hs].
  rewrite (ffit_block2ptr mh hs Hmh Hhs H64 0) by lia. rewrite Z.add_0_r.
  rewrite !Ha. rewrite gettag_odd. cbn [Z.eqb Z.ltb Z.compare andb obind].
  cbv beta iota zeta. cbn [Z.eqb].
  rewrite ?Ha. unfold ffit.getsize. rewrite ?Ha, !shiftr_odd.
  rewrite !Z.add_0_l, !(u32_small ba) by lia.
  cbn [ffit.mh ffit.hs].
  rewrite (ffit_block2ptr mh hs Hmh Hhs H64 ba) by lia.
  test_true (ba <? hs). rewrite !Hb, gettag_odd. cbn [Z.eqb andb].
  unfold ffit.untag. cbv zeta. rewrite !Ha, shiftr_odd, land_odd_1.
  rewrite Z.eqb_refl, lxor_odd_1, land_word by lia.
  set (m1 := ffit.set_sze m mh (2 * ba)).
  set (m2 := store8 m1 (mh + ba - 1) 0).
  assert (Ea : ffit.sze m2 mh = 2 * ba).
  { unfold m2, m1, ffit.sze, ffit.set_sze. ld. reflexivity. }
  assert (Eq : ffit.sze m2 (mh + (ba + bb)) = 2 * (hs - (ba + bb))).
  { unfold m2, m1, ffit.sze, ffit.set_sze. ld. exact Hq. }
  assert (Eb : ffit.sze m2 (mh + ba) = 2 * bb + 1).
  { unfold m2, m1, ffit.sze, ffit.set_sze. ld. exact Hb. }
  assert (Enq : ffit.nxt m2 (mh + (ba + bb)) = ffit.NOBLOCK).
  { unfold m2, m1, ffit.nxt, ffit.set_sze. ld. exact Hnq. }
  assert (Epq : ffit.prv m2 (mh + (ba + bb)) = ffit.NOBLOCK).
  { unfold m2, m1, ffit.prv, ffit.set_sze. ld. exact Hpq. }
  assert (Et : load8 m2 (mh + ba - 1) = 0).
  { unfold m2. apply load8_store8_same. lia. }
  assert (Hfr : forall a,
             a < mh \/ mh + hs <= a \/ mh + ba <= a < mh + (ba + bb) ->
             load8 m2 a = load8 m a).
  { intros a Hout. unfold m2, m1, ffit.set_sze. ld8. reflexivity. }
  clearbody m2. clear m1.
  unfold ffit.binssort. cbn [ffit.first].
  rewrite (eqb_false_of_neq (ba + bb) ffit.NOBLOCK)
    by (unfold ffit.NOBLOCK; lia).
  unfold ffit.B2P. cbn [ffit.mh].
  rewrite (ffit_block2ptr mh hs Hmh Hhs H64 (ba + bb)) by lia.
  destruct (Z.to_nat hs) as [|fuel] eqn:Ef; [lia|].
  cbn [ffit.binssort_loop]. cbv zeta.
  rewrite Ea, Eq. unfold ffit.getsize. rewrite !shiftr_even.
  destruct (Z.leb_spec ba (hs - (ba + bb))) as [Hle|Hgt].
  - (* the block goes before the rest *)
    unfold ffit.binsert. rewrite Epq, Z.eqb_refl. cbn [negb].
    cbv beta iota zeta. unfold ffit.P2B.
    cbn [ffit.set_first ffit.mh ffit.hs ffit.first ffit.last].
    rewrite (ffit_ptr2block_start mh hs Hmh Hhs),
      (ffit_ptr2block mh hs Hmh Hhs (ba + bb)) by lia.
    cbn [obind]. rewrite Epq.
    unfold ffit.set_first. cbn [ffit.mh ffit.hs ffit.first ffit.last].
    eexists. eexists. eexists. split; [reflexivity|].
    unfold ffit_second_held. cbn [ffit.mh ffit.hs ffit.first ffit.last].
    rewrite setsize_double by lia.
    unfold ffit.sze, ffit.nxt, ffit.prv, ffit.set_sze, ffit.set_nxt,
      ffit.set_prv in *.
    split; [|intros a Hout; ld8; apply Hfr; exact Hout].
    split; [ld; exact Ea|]. split; [ld8; exact Et|].
    split; [ld; exact Eb|]. split; [ld; exact Eq|].
    left. repeat split; ld; try reflexivity; assumption.
  - (* the block goes behind the rest *)
    rewrite Enq, Z.eqb_refl. unfold ffit.P2B.
    cbn [ffit.set_last ffit.mh ffit.hs ffit.first ffit.last].
    rewrite (ffit_ptr2block_start mh hs Hmh Hhs),
      (ffit_ptr2block mh hs Hmh Hhs (ba + bb)) by lia.
    cbn [obind].
    unfold ffit.set_last. cbn [ffit.mh ffit.hs ffit.first ffit.last].
    replace (ffit.nxt
               (ffit.set_nxt
                  (ffit.set_prv (ffit.set_nxt m2 (mh + (ba + bb)) 0) mh
                     (ba + bb))
                  mh ffit.NOBLOCK)
               (mh + (ba + bb))) with 0
      by (unfold ffit.nxt, ffit.set_nxt, ffit.set_prv; ld; reflexivity).
    eexists. eexists. eexists. split; [reflexivity|].
    unfold ffit_second_held. cbn [ffit.mh ffit.hs ffit.first ffit.last].
    rewrite setsize_double by lia.
    unfold ffit.sze, ffit.nxt, ffit.prv, ffit.set_sze, ffit.set_nxt,
      ffit.set_prv in *.
    split; [|intros a Hout; ld8; apply Hfr; exact Hout].
    split; [ld; exact Ea|]. split; [ld8; exact Et|].
    split; [ld; exact Eb|]. split; [ld; exact Eq|].
    right. repeat split; ld; try reflexivity; assumption.
Qed.


(** The second half of [freeblock] for a block at the start of the
    region that is followed by the free rest: the two are merged and the
    region is one free block. *)
Lemma ffit_merge_tail fuel m t :
  0 < t -> t + 32 < hs ->
  ffit.sze m mh = 2 * t ->
  ffit_tail_free (ffit.mkheap mh hs t t) m t ->
  exists m',
    (let '(h, m0) :=
       if (t <? hs) && (ffit.gettag (ffit.sze m (ffit.block2ptr mh t)) =? 0)
       then
         ffit.bremove (ffit.mkheap mh hs t t)
           (ffit.set_sze m mh
              (ffit.setsize
                 (u32 (Z.shiftr (ffit.sze m mh) 1
                       + Z.shiftr (ffit.sze m (ffit.block2ptr mh t)) 1))))
           (ffit.block2ptr mh t)
       else (ffit.mkheap mh hs t t, m) in
     '(h0, m2) <- ffit.binssort fuel h (ffit.untag m0 mh) mh ;;
     Some (h0, m2, 0))
    = Some (ffit.mkheap mh hs 0 0, m', 0)
    /\ ffit_one_free (ffit.mkheap mh hs 0 0) m'
    /\ forall a, a < mh \/ mh + hs <= a -> load8 m' a = load8 m a.
Proof.
  intros Ht Hfit Ha (_ & _ & Hq & Hnq & Hpq).
  cbn [ffit.mh ffit.hs] in Hq, Hnq, Hpq.
  rewrite setsize_double in Hq by lia.
  rewrite (ffit_block2ptr mh hs Hmh Hhs H64 t) by lia.
  test_true (t <? hs). rewrite !Hq, !Ha, gettag_even. cbn [Z.eqb andb].
  rewrite !shiftr_even.
  replace (t + (hs - t)) with hs by lia.
  rewrite (u32_small hs), (setsize_double hs) by lia.
  set (m1 := ffit.set_sze m mh (2 * hs)).
  assert (Hn1 : ffit.nxt m1 (mh + t) = ffit.NOBLOCK).
  { unfold m1, ffit.nxt, ffit.set_sze. ld. exact Hnq. }
  assert (Hp1 : ffit.prv m1 (mh + t) = ffit.NOBLOCK).
  { unfold m1, ffit.prv, ffit.set_sze. ld. exact Hpq. }
  rewrite (ffit_bremove_only _ m1 (mh + t) Hp1 Hn1).
  cbn [ffit.mh ffit.hs].
  assert (E1 : ffit.sze m1 mh = 2 * hs).
  { unfold m1, ffit.sze, ffit.set_sze. ld. reflexivity. }
  unfold ffit.untag. cbv zeta. rewrite !E1, shiftr_even, land_even_1.
  cbn [Z.eqb].
  rewrite ffit_binssort_empty by reflexivity.
  cbn [obind ffit.mh ffit.hs]. unfold ffit.P2B. cbn [ffit.mh].
  rewrite (ffit_ptr2block_start mh hs Hmh Hhs).
  eexists. split; [reflexivity|]. split.
  - unfold ffit_one_free. cbn [ffit.mh ffit.hs ffit.first ffit.last].
    rewrite setsize_double by lia.
    unfold m1, ffit.sze, ffit.nxt, ffit.prv, ffit.set_sze, ffit.set_nxt,
      ffit.set_prv.
    repeat split; ld; reflexivity.
  - intros a Hout.
    unfold m1, ffit.set_sze, ffit.set_nxt, ffit.set_prv.
    ld8. reflexivity.
Qed.

(** The release of the second block when the first is free already: the
    first block is looked up in the available list and the three blocks
    become one. *)
Lemma ffit_freeblock_second_of_pair f l m ba bb :
  32 <= ba -> 32 <= bb -> ba + bb + 32 < hs ->
  ffit_second_held (ffit.mkheap mh hs f l) m ba bb ->
  exists m',
    ffit.freeblock (Z.to_nat hs) (ffit.mkheap mh hs f l) m ba
    = Some (ffit.mkheap mh hs 0 0, m', 0)
    /\ ffit_one_free (ffit.mkheap mh hs 0 0) m'
    /\ forall a, a < mh \/ mh + hs <= a -> load8 m' a = load8 m a.
Proof.
  intros Hba Hbb Hfit (Ha & Hta & Hb & Hq & Hlist).
  cbn [ffit.mh ffit.hs ffit.first ffit.last] in Ha, Hta, Hb, Hq, Hlist.
  rewrite setsize_double in Hq by lia.
  unfold ffit.freeblock. cbv zeta. cbn [ffit.mh ffit.hs].
  rewrite (ffit_block2ptr mh hs Hmh Hhs H64 ba) by lia.
  rewrite !Hb. rewrite gettag_odd. cbn [Z.eqb].
  test_true (0 <? ba).
  rewrite (u32_small (ba - 1)) by lia.
  rewrite (ffit_block2ptr mh hs Hmh Hhs H64 (ba - 1)) by lia.
  replace (mh + (ba - 1)) with (mh + ba - 1) by lia.
  rewrite (untagged_byte _ _ Hta). cbn [negb andb].
  unfold ffit.getsize. rewrite !shiftr_odd.
  unfold ffit.bfind. cbn [ffit.first]. unfold ffit.B2P. cbn [ffit.mh].
  destruct (Z.to_nat hs) as [|[|fuel]] eqn:Ef; [lia|lia|].
  destruct Hlist as [(Hf & Hl & Hpa & Hna & Hpq & Hnq)
                    |(Hf & Hl & Hpq & Hnq & Hpa & Hna)]; subst f l.
  - rewrite (ffit_block2ptr mh hs Hmh Hhs H64 0) by lia. rewrite Z.add_0_r.
    cbn [ffit.bfind_loop].
    rewrite (eqb_false_of_neq mh NULL) by (unfold NULL; lia).
    cbv zeta. rewrite Ha. unfold ffit.getsize. rewrite shiftr_even.
    rewrite Z.add_0_l, (u32_small ba), Z.eqb_refl by lia.
    cbn [obind].
    rewrite (eqb_false_of_neq mh NULL) by (unfold NULL; lia).
    rewrite Ha, shiftr_even.
    rewrite (u32_small (ba + bb)), (setsize_double (ba + bb)) by lia.
    set (m1 := ffit.set_sze m mh (2 * (ba + bb))).
    assert (Hp1 : ffit.prv m1 mh = ffit.NOBLOCK).
    { unfold m1, ffit.prv, ffit.set_sze. ld. exact Hpa. }
    assert (Hn1 : ffit.nxt m1 mh = ba + bb).
    { unfold m1, ffit.nxt, ffit.set_sze. ld. exact Hna. }
    rewrite (ffit_bremove_first _ m1 mh (ba + bb) Hp1 Hn1)
      by (unfold ffit.NOBLOCK; lia).
    unfold ffit.set_first. cbn [ffit.mh ffit.hs ffit.first ffit.last].
    rewrite (ffit_block2ptr mh hs Hmh Hhs H64 (ba + bb)) by lia.
    cbn [obind]. cbv beta iota zeta. cbn [Z.eqb ffit.mh ffit.hs].
    destruct (ffit_merge_tail (S (S fuel))
                (ffit.set_prv m1 (mh + (ba + bb)) ffit.NOBLOCK) (ba + bb))
      as (m' & E' & Hfree' & Hfr'); [lia|lia| | |].
    + unfold m1, ffit.sze, ffit.set_prv, ffit.set_sze. ld. reflexivity.
    + unfold ffit_tail_free. cbn [ffit.mh ffit.hs ffit.first ffit.last].
      rewrite setsize_double by lia.
      unfold m1, ffit.sze, ffit.nxt, ffit.prv, ffit.set_prv, ffit.set_sze
        in *.
      repeat split; ld; try reflexivity; assumption.
    + exists m'. split; [exact E'|]. split; [exact Hfree'|].
      intros a Hout. rewrite Hfr' by exact Hout.
      unfold m1, ffit.set_prv, ffit.set_sze. ld8. reflexivity.
  - rewrite (ffit_block2ptr mh hs Hmh Hhs H64 (ba + bb)) by lia.
    cbn [ffit.bfind_loop].
    rewrite (eqb_false_of_neq (mh + (ba + bb)) NULL) by (unfold NULL; lia).
    cbv zeta. rewrite Hq. unfold ffit.getsize. rewrite shiftr_even.
    replace (ba + bb + (hs - (ba + bb))) with hs by lia.
    rewrite (u32_small hs) by lia.
    rewrite (eqb_false_of_neq hs ba) by lia.
    rewrite Hnq. unfold ffit.B2P. cbn [ffit.mh].
    rewrite (ffit_block2ptr mh hs Hmh Hhs H64 0) by lia. rewrite Z.add_0_r.
    rewrite (eqb_false_of_neq mh NULL) by (unfold NULL; lia).
    rewrite Ha, shiftr_even.
    rewrite Z.add_0_l, (u32_small ba), Z.eqb_refl by lia.
    cbn [obind].
    rewrite (eqb_false_of_neq mh NULL) by (unfold NULL; lia).
    rewrite Ha, shiftr_even.
    rewrite (u32_small (ba + bb)), (setsize_double (ba + bb)) by lia.
    set (m1 := ffit.set_sze m mh (2 * (ba + bb))).
    assert (Hp1 : ffit.prv m1 mh = ba + bb).
    { unfold m1, ffit.prv, ffit.set_sze. ld. exact Hpa. }
    assert (Hn1 : ffit.nxt m1 mh = ffit.NOBLOCK).
    { unfold m1, ffit.nxt, ffit.set_sze. ld. exact Hna. }
    rewrite (ffit_bremove_last _ m1 mh (ba + bb) Hp1).
    2: unfold ffit.NOBLOCK; lia.
    2: exact Hn1.
    2: { cbn [ffit.mh].
         rewrite (ffit_block2ptr mh hs Hmh Hhs H64 (ba + bb)) by lia.
         unfold m1, ffit.nxt, ffit.set_nxt, ffit.set_sze in *. ld.
         exact Hna. }
    2: { cbn [ffit.mh].
         rewrite (ffit_block2ptr mh hs Hmh Hhs H64 (ba + bb)) by lia.
         unfold m1, ffit.prv, ffit.set_nxt, ffit.set_sze in *. ld.
         exact Hpa. }
    unfold ffit.set_last. cbn [ffit.mh ffit.hs ffit.first ffit.last].
    rewrite (ffit_block2ptr mh hs Hmh Hhs H64 (ba + bb)) by lia.
    cbn [obind]. cbv beta iota zeta. cbn [Z.eqb ffit.mh ffit.hs].
    destruct (ffit_merge_tail (S (S fuel))
                (ffit.set_nxt m1 (mh + (ba + bb)) ffit.NOBLOCK) (ba + bb))
      as (m' & E' & Hfree' & Hfr'); [lia|lia| | |].
    + unfold m1, ffit.sze, ffit.set_nxt, ffit.set_sze. ld. reflexivity.
    + unfold ffit_tail_free. cbn [ffit.mh ffit.hs ffit.first ffit.last].
      rewrite setsize_double by lia.
      unfold m1, ffit.sze, ffit.nxt, ffit.prv, ffit.set_nxt, ffit.set_sze
        in *.
      repeat split; ld; try reflexivity; assumption.
    + exists m'. split; [exact E'|]. split; [exact Hfree'|].
      intros a Hout. rewrite Hfr' by exact Hout.
      unfold m1, ffit.set_nxt, ffit.set_sze. ld8. reflexivity.
Qed.


Lemma load32_frame m m' lim b :
  (forall a, a < lim -> load8 m' a = load8 m a) ->
  b + 4 <= lim -> load32 m' b = load32 m b.
Proof.
  intros Hfr Hb. unfold load32. rewrite !Hfr by lia. reflexivity.
Qed.

Lemma ffit_one_free_tail h m : ffit_one_free h m <-> ffit_tail_free h m 0.
Proof.
  unfold ffit_one_free, ffit_tail_free.
  rewrite Z.add_0_r, Z.sub_0_r. reflexivity.
Qed.

Lemma ffit_get_block_tail m o sz :
  0 <= o -> 0 < sz -> sz + 5 < hs -> o + ffit_request sz + 32 < hs ->
  ffit_tail_free (ffit.mkheap mh hs o o) m o ->
  exists m',
    ffit.ffit_get_block (ffit.mkheap mh hs o o) m sz
    = Some (ffit.mkheap mh hs (o + ffit_request sz) (o + ffit_request sz),
            m', mh + o + 4)
    /\ ffit.sze m' (mh + o) = 2 * ffit_request sz + 1
    /\ load8 m' (mh + o + ffit_request sz - 1) = 1
    /\ ffit_tail_free
         (ffit.mkheap mh hs (o + ffit_request sz) (o + ffit_request sz))
         m' (o + ffit_request sz)
    /\ forall a, a < mh + o \/ mh + hs <= a -> load8 m' a = load8 m a.
Proof.
  intros Ho Hsz Hlt Hfit Hfree.
  destruct (ffit_request_small hs Hhs sz Hsz Hlt) as (_ & Hr).
  unfold ffit.ffit_get_block. cbv zeta. test_true (0 <? sz).
  fold (ffit_request sz). cbn [ffit.hs].
  test_true (ffit_request sz <? hs).
  unfold ffit.list_fuel. cbn [ffit.hs].
  destruct (ffit_getblock_tail m o (ffit_request sz) Ho ltac:(lia) Hfit Hfree)
    as (m' & E & Hrest).
  rewrite E. cbn [obind].
  rewrite (eqb_false_of_neq o ffit.NOBLOCK) by (unfold ffit.NOBLOCK; lia).
  cbn [negb]. unfold ffit.B2P. cbn [ffit.mh].
  rewrite (u32_small (o + 4)) by lia.
  rewrite (ffit_block2ptr mh hs Hmh Hhs H64 (o + 4)) by lia.
  exists m'. split; [|exact Hrest].
  do 2 f_equal. lia.
Qed.

Lemma ffit_free_block_at f l m o :
  0 <= o -> o + 9 < hs ->
  ffit.ffit_free_block (ffit.mkheap mh hs f l) m (mh + o + 4)
  = ffit.freeblock (Z.to_nat hs) (ffit.mkheap mh hs f l) m o.
Proof.
  intros Ho Hlt. unfold ffit.ffit_free_block. cbn [ffit.mh ffit.hs].
  replace (mh + o + 4 - 4) with (mh + o) by lia.
  rewrite (u64_small (mh + o)), (u64_small (mh + o + 4 + 5)),
    (u64_small (mh + hs)) by lia.
  test_true (mh <=? mh + o). test_true (mh + o + 4 + 5 <? mh + hs).
  cbn [andb].
  unfold ffit.P2B, ffit.list_fuel. cbn [ffit.mh ffit.hs].
  rewrite (ffit_ptr2block mh hs Hmh Hhs o) by lia. reflexivity.
Qed.

Lemma ffit_init_one_free_frame f l m0 :
  exists m,
    ffit.ffit_init (ffit.mkheap mh hs f l) m0 = (ffit.mkheap mh hs 0 0, m, 0)
    /\ ffit_one_free (ffit.mkheap mh hs 0 0) m
    /\ forall a, a < mh \/ mh + hs <= a -> load8 m a = load8 m0 a.
Proof.
  unfold ffit.ffit_init. cbv zeta.
  cbn [ffit.set_first ffit.set_last ffit.mh ffit.hs ffit.first ffit.last].
  test_true (32 <? hs).
  rewrite (u32_small hs) by lia. rewrite setsize_double by lia.
  unfold ffit.untag. cbv zeta.
  assert (E : forall m, ffit.sze (ffit.set_sze m mh (2 * hs)) mh = 2 * hs).
  { intros m. unfold ffit.sze, ffit.set_sze.
    apply load32_store32_same. lia. }
  rewrite !E, land_even_1, shiftr_even. cbn [Z.eqb].
  eexists. split; [reflexivity|]. split.
  - unfold ffit_one_free.
    cbn [ffit.mh ffit.hs ffit.first ffit.last].
    rewrite setsize_double by lia.
    unfold ffit.sze, ffit.nxt, ffit.prv, ffit.set_sze, ffit.set_nxt,
      ffit.set_prv.
    repeat split; ld; reflexivity.
  - intros a Hout. unfold ffit.set_sze, ffit.set_nxt, ffit.set_prv.
    ld8. reflexivity.
Qed.

(** The run the next two theorems are about: two requests on a fresh
    arena, and the release of the two blocks in both orders. *)
Lemma ffit_pair_run f l m0 sz1 sz2 :
  0 < sz1 -> sz1 + 5 < hs -> 0 < sz2 -> sz2 + 5 < hs ->
  ffit_request sz1 + ffit_request sz2 + 32 < hs ->
  exists m m1 m2 m3 m4 f3 l3 m3' m4',
    ffit.ffit_init (ffit.mkheap mh hs f l) m0
    = (ffit.mkheap mh hs 0 0, m, 0)
    /\ ffit.ffit_get_block (ffit.mkheap mh hs 0 0) m sz1
       = Some (ffit.mkheap mh hs (ffit_request sz1) (ffit_request sz1),
               m1, mh + 4)
    /\ ffit.ffit_get_block
         (ffit.mkheap mh hs (ffit_request sz1) (ffit_request sz1)) m1 sz2
       = Some (ffit.mkheap mh hs (ffit_request sz1 + ffit_request sz2)
                 (ffit_request sz1 + ffit_request sz2),
               m2, mh + 4 + ffit_request sz1)
    /\ ffit.ffit_free_block
         (ffit.mkheap mh hs (ffit_request sz1 + ffit_request sz2)
            (ffit_request sz1 + ffit_request sz2))
         m2 (mh + 4 + ffit_request sz1)
       = Some (ffit.mkheap mh hs (ffit_request sz1) (ffit_request sz1),
               m3, 0)
    /\ ffit.ffit_free_block
         (ffit.mkheap mh hs (ffit_request sz1) (ffit_request sz1))
         m3 (mh + 4)
       = Some (ffit.mkheap mh hs 0 0, m4, 0)
    /\ ffit.ffit_free_block
         (ffit.mkheap mh hs (ffit_request sz1 + ffit_request sz2)
            (ffit_request sz1 + ffit_request sz2))
         m2 (mh + 4)
       = Some (ffit.mkheap mh hs f3 l3, m3', 0)
    /\ ffit.ffit_free_block (ffit.mkheap mh hs f3 l3) m3'
         (mh + 4 + ffit_request sz1)
       = Some (ffit.mkheap mh hs 0 0, m4', 0)
    /\ ffit_one_free (ffit.mkheap mh hs 0 0) m4
    /\ ffit_one_free (ffit.mkheap mh hs 0 0) m4'
    /\ (forall a, a < mh \/ mh + hs <= a -> load8 m a = load8 m0 a)
    /\ (forall a, a < mh \/ mh + hs <= a -> load8 m1 a = load8 m a)
    /\ (forall a, a < mh + ffit_request sz1 \/ mh + hs <= a ->
                  load8 m2 a = load8 m1 a)
    /\ (forall a, a < mh + ffit_request sz1 \/ mh + hs <= a ->
                  load8 m3 a = load8 m2 a)
    /\ (forall a, a < mh \/ mh + hs <= a -> load8 m4 a = load8 m3 a)
    /\ (forall a,
          a < mh \/ mh + hs <= a
          \/ mh + ffit_request sz1 <= a
             < mh + (ffit_request sz1 + ffit_request sz2) ->
          load8 m3' a = load8 m2 a)
    /\ (forall a, a < mh \/ mh + hs <= a -> load8 m4' a = load8 m3' a).
Proof.
  intros Hsz1 Hlt1 Hsz2 Hlt2 Hfit.
  destruct (ffit_request_small hs Hhs sz1 Hsz1 Hlt1) as (Er1 & Hr1).
  destruct (ffit_request_small hs Hhs sz2 Hsz2 Hlt2) as (Er2 & Hr2).
  set (r1 := ffit_request sz1) in *. set (r2 := ffit_request sz2) in *.
  destruct (ffit_init_one_free_frame f l m0) as (m & Ei & Hfree & Hfr0).
  apply ffit_one_free_tail in Hfree.
  destruct (ffit_get_block_tail m 0 sz1
              ltac:(lia) Hsz1 Hlt1 ltac:(fold r1; lia) Hfree)
    as (m1 & Eg1 & Ha1 & Hta1 & Hfree1 & Hfr1).
  fold r1 in Eg1, Ha1, Hta1, Hfree1.
  rewrite Z.add_0_l in Eg1, Hfree1. rewrite Z.add_0_r in Eg1, Ha1, Hta1.
  destruct (ffit_get_block_tail m1 r1 sz2
              ltac:(lia) Hsz2 Hlt2 ltac:(fold r2; lia) Hfree1)
    as (m2 & Eg2 & Hb2 & Htb2 & Hfree2 & Hfr2).
  fold r2 in Eg2, Hb2, Htb2, Hfree2.
  assert (Ha2 : ffit.sze m2 mh = 2 * r1 + 1).
  { unfold ffit.sze in *.
    rewrite (load32_frame m1 m2 (mh + r1));
      [exact Ha1|intros a Hlt; apply Hfr2; lia|lia]. }
  assert (Hta2 : load8 m2 (mh + r1 - 1) = 1).
  { rewrite Hfr2 by lia. exact Hta1. }
  assert (Hpair : ffit_pair_held (ffit.mkheap mh hs (r1 + r2) (r1 + r2))
                    m2 r1 r2).
  { unfold ffit_pair_held. cbn [ffit.mh]. auto. }
  (* the second block first *)
  destruct (ffit_freeblock_last m2 r1 r2
              ltac:(lia) ltac:(lia) ltac:(lia) Hb2 (or_intror Hta2) Hfree2)
    as (m3 & Ef3 & Hfree3 & Hfr3).
  assert (Ha3 : ffit.sze m3 (mh + 0) = 2 * r1 + 1).
  { rewrite Z.add_0_r. unfold ffit.sze in *.
    rewrite (load32_frame m2 m3 (mh + r1));
      [exact Ha2|intros a Hlt; apply Hfr3; lia|lia]. }
  destruct (ffit_freeblock_last m3 0 r1
              ltac:(lia) ltac:(lia) ltac:(lia) Ha3 (or_introl eq_refl)
              Hfree3)
    as (m4 & Ef4 & Hfree4 & Hfr4).
  apply ffit_one_free_tail in Hfree4.
  (* the first block first *)
  destruct (ffit_freeblock_head_of_pair m2 r1 r2
              ltac:(lia) ltac:(lia) ltac:(lia) Hpair)
    as (f3 & l3 & m3' & Ef3' & Hsec & Hfr3').
  destruct (ffit_freeblock_second_of_pair f3 l3 m3' r1 r2
              ltac:(lia) ltac:(lia) ltac:(lia) Hsec)
    as (m4' & Ef4' & Hfree4' & Hfr4').
  exists m, m1, m2, m3, m4, f3, l3, m3', m4'.
  split; [exact Ei|]. split; [exact Eg1|].
  split; [rewrite Eg2; do 2 f_equal; lia|].
  split.
  { replace (mh + 4 + r1) with (mh + r1 + 4) by lia.
    rewrite ffit_free_block_at by lia. exact Ef3. }
  split.
  { replace (mh + 4) with (mh + 0 + 4) by lia.
    rewrite ffit_free_block_at by lia. exact Ef4. }
  split.
  { replace (mh + 4) with (mh + 0 + 4) by lia.
    rewrite ffit_free_block_at by lia. exact Ef3'. }
  split.
  { replace (mh + 4 + r1) with (mh + r1 + 4) by lia.
    rewrite ffit_free_block_at by lia. exact Ef4'. }
  split; [exact Hfree4|]. split; [exact Hfree4'|].
  split; [exact Hfr0|].
  split; [intros a Hout; apply Hfr1; lia|].
  split; [exact Hfr2|]. split; [exact Hfr3|].
  split; [intros a Hout; apply Hfr4; lia|].
  split; [exact Hfr3'|]. exact Hfr4'.
Qed.

End FirstFitPair.

(** X18. Two blocks taken from a fresh first-fit arena lie one behind the
    other, and the bytes of the first request end before the tag byte of
    its block; released in either order, both frees answer 0 and the
    region is one free block again, as [ffit_init] left it. *)
Theorem ffit_pair_coalesces h0 m0 sz1 sz2 :
  0 < ffit.mh h0 -> 32 < ffit.hs h0 < 2 ^ 31 ->
  ffit.mh h0 + ffit.hs h0 < 2 ^ 64 ->
  0 < sz1 -> sz1 + 5 < ffit.hs h0 -> 0 < sz2 -> sz2 + 5 < ffit.hs h0 ->
  ffit_request sz1 + ffit_request sz2 + 32 < ffit.hs h0 ->
  exists h m h1 m1 h2 m2 p1 p2,
    ffit.ffit_init h0 m0 = (h, m, 0)
    /\ ffit.ffit_get_block h m sz1 = Some (h1, m1, p1)
    /\ ffit.ffit_get_block h1 m1 sz2 = Some (h2, m2, p2)
    /\ p1 = ffit.mh h0 + 4 /\ p2 = p1 + ffit_request sz1
    /\ p1 + sz1 <= p2 - 5
    /\ p2 + sz2 <= ffit.mh h0 + ffit.hs h0
    /\ (exists h3 m3 m4,
          ffit.ffit_free_block h2 m2 p2 = Some (h3, m3, 0)
          /\ ffit.ffit_free_block h3 m3 p1 = Some (h, m4, 0)
          /\ ffit_one_free h m4)
    /\ (exists h3 m3 m4,
          ffit.ffit_free_block h2 m2 p1 = Some (h3, m3, 0)
          /\ ffit.ffit_free_block h3 m3 p2 = Some (h, m4, 0)
          /\ ffit_one_free h m4).
Proof.
  destruct h0 as [mh hs f l]. cbn [ffit.mh ffit.hs].
  intros Hmh Hhs H64 Hsz1 Hlt1 Hsz2 Hlt2 Hfit.
  destruct (ffit_request_small hs Hhs sz1 Hsz1 Hlt1) as (Er1 & Hr1).
  destruct (ffit_request_small hs Hhs sz2 Hsz2 Hlt2) as (Er2 & Hr2).
  destruct (ffit_pair_run mh hs Hmh Hhs H64 f l m0 sz1 sz2
              Hsz1 Hlt1 Hsz2 Hlt2 Hfit)
    as (m & m1 & m2 & m3 & m4 & f3 & l3 & m3' & m4'
        & Ei & Eg1 & Eg2 & Ef3 & Ef4 & Ef3' & Ef4' & Hfree4 & Hfree4' & _).
  eexists. exists m. eexists. exists m1. eexists. exists m2.
  exists (mh + 4), (mh + 4 + ffit_request sz1).
  split; [exact Ei|]. split; [exact Eg1|]. split; [exact Eg2|].
  split; [reflexivity|]. split; [reflexivity|].
  split; [lia|]. split; [lia|]. split.
  - eexists. exists m3, m4. split; [exact Ef3|]. split; assumption.
  - eexists. exists m3', m4'. split; [exact Ef3'|]. split; assumption.
Qed.

Lemma ffit_pair_coalesces_witness :
  (0 < ffit.mh ffit_arena /\ 32 < ffit.hs ffit_arena < 2 ^ 31
   /\ ffit.mh ffit_arena + ffit.hs ffit_arena < 2 ^ 64
   /\ 0 < 27 /\ 27 + 5 < ffit.hs ffit_arena
   /\ 0 < 100 /\ 100 + 5 < ffit.hs ffit_arena
   /\ ffit_request 27 + ffit_request 100 + 32 < ffit.hs ffit_arena)
  /\ exists h m h1 m1 h2 m2,
       ffit.ffit_init ffit_arena zero_mem = (h, m, 0)
       /\ ffit.ffit_get_block h m 27
          = Some (h1, m1, ffit.mh ffit_arena + 4)
       /\ ffit.ffit_get_block h1 m1 100
          = Some (h2, m2, ffit.mh ffit_arena + 4 + ffit_request 27).
Proof.
  assert (H1 : 0 < ffit.mh ffit_arena) by reflexivity.
  assert (H2 : 32 < ffit.hs ffit_arena < 2 ^ 31) by (cbn; lia).
  assert (H3 : ffit.mh ffit_arena + ffit.hs ffit_arena < 2 ^ 64)
    by (cbn; lia).
  assert (H4 : 0 < 27) by lia.
  assert (H5 : 27 + 5 < ffit.hs ffit_arena) by (cbn; lia).
  assert (H6 : 0 < 100) by lia.
  assert (H7 : 100 + 5 < ffit.hs ffit_arena) by (cbn; lia).
  assert (H8 : ffit_request 27 + ffit_request 100 + 32 < ffit.hs ffit_arena)
    by (vm_compute; reflexivity).
  split; [auto 10|].
  destruct (ffit_pair_coalesces ffit_arena zero_mem 27 100
              H1 H2 H3 H4 H5 H6 H7 H8)
    as (h & m & h1 & m1 & h2 & m2 & p1 & p2 & Ei & Eg1 & Eg2 & E1 & E2 & _).
  subst p2 p1.
  exists h, m, h1, m1, h2, m2. auto.
Defined.

(** X19. A call on one block leaves the bytes of the other alone: the
    bytes of the first request are the same after the second get and
    after the free of the second block, and the bytes of the second
    request are the same after the free of the first block. *)
Theorem ffit_blocks_isolated h0 m0 sz1 sz2 :
  0 < ffit.mh h0 -> 32 < ffit.hs h0 < 2 ^ 31 ->
  ffit.mh h0 + ffit.hs h0 < 2 ^ 64 ->
  0 < sz1 -> sz1 + 5 < ffit.hs h0 -> 0 < sz2 -> sz2 + 5 < ffit.hs h0 ->
  ffit_request sz1 + ffit_request sz2 + 32 < ffit.hs h0 ->
  exists h m h1 m1 h2 m2 p1 p2 h3 m3 h3' m3',
    ffit.ffit_init h0 m0 = (h, m, 0)
    /\ ffit.ffit_get_block h m sz1 = Some (h1, m1, p1)
    /\ ffit.ffit_get_block h1 m1 sz2 = Some (h2, m2, p2)
    /\ ffit.ffit_free_block h2 m2 p2 = Some (h3, m3, 0)
    /\ ffit.ffit_free_block h2 m2 p1 = Some (h3', m3', 0)
    /\ (forall a, p1 <= a < p1 + sz1 ->
          load8 m2 a = load8 m1 a /\ load8 m3 a = load8 m1 a)
    /\ (forall a, p2 <= a < p2 + sz2 -> load8 m3' a = load8 m2 a).
Proof.
  destruct h0 as [mh hs f l]. cbn [ffit.mh ffit.hs].
  intros Hmh Hhs H64 Hsz1 Hlt1 Hsz2 Hlt2 Hfit.
  destruct (ffit_request_small hs Hhs sz1 Hsz1 Hlt1) as (Er1 & Hr1).
  destruct (ffit_request_small hs Hhs sz2 Hsz2 Hlt2) as (Er2 & Hr2).
  destruct (ffit_pair_run mh hs Hmh Hhs H64 f l m0 sz1 sz2
              Hsz1 Hlt1 Hsz2 Hlt2 Hfit)
    as (m & m1 & m2 & m3 & m4 & f3 & l3 & m3' & m4'
        & Ei & Eg1 & Eg2 & Ef3 & Ef4 & Ef3' & Ef4' & _ & _
        & _ & _ & Hfr2 & Hfr3 & _ & Hfr3' & _).
  eexists. exists m. eexists. exists m1. eexists. exists m2.
  exists (mh + 4), (mh + 4 + ffit_request sz1).
  eexists. exists m3. eexists. exists m3'.
  split; [exact Ei|]. split; [exact Eg1|]. split; [exact Eg2|].
  split; [exact Ef3|]. split; [exact Ef3'|]. split.
  - intros a Ha.
    assert (E2 : load8 m2 a = load8 m1 a) by (apply Hfr2; lia).
    split; [exact E2|]. rewrite <- E2. apply Hfr3. lia.
  - intros a Ha. apply Hfr3'. lia.
Qed.

Lemma ffit_blocks_isolated_witness :
  (0 < ffit.mh ffit_arena /\ 32 < ffit.hs ffit_arena < 2 ^ 31
   /\ ffit.mh ffit_arena + ffit.hs ffit_arena < 2 ^ 64
   /\ 0 < 27 /\ 27 + 5 < ffit.hs ffit_arena
   /\ 0 < 100 /\ 100 + 5 < ffit.hs ffit_arena
   /\ ffit_request 27 + ffit_request 100 + 32 < ffit.hs ffit_arena)
  /\ exists h m h1 m1 h2 m2 p1 p2,
       ffit.ffit_init ffit_arena zero_mem = (h, m, 0)
       /\ ffit.ffit_get_block h m 27 = Some (h1, m1, p1)
       /\ ffit.ffit_get_block h1 m1 100 = Some (h2, m2, p2)
       /\ forall a, p1 <= a < p1 + 27 -> load8 m2 a = load8 m1 a.
Proof.
  assert (H1 : 0 < ffit.mh ffit_arena) by reflexivity.
  assert (H2 : 32 < ffit.hs ffit_arena < 2 ^ 31) by (cbn; lia).
  assert (H3 : ffit.mh ffit_arena + ffit.hs ffit_arena < 2 ^ 64)
    by (cbn; lia).
  assert (H4 : 0 < 27) by lia.
  assert (H5 : 27 + 5 < ffit.hs ffit_arena) by (cbn; lia).
  assert (H6 : 0 < 100) by lia.
  assert (H7 : 100 + 5 < ffit.hs ffit_arena) by (cbn; lia).
  assert (H8 : ffit_request 27 + ffit_request 100 + 32 < ffit.hs ffit_arena)
    by (vm_compute; reflexivity).
  split; [auto 10|].
  destruct (ffit_blocks_isolated ffit_arena zero_mem 27 100
              H1 H2 H3 H4 H5 H6 H7 H8)
    as (h & m & h1 & m1 & h2 & m2 & p1 & p2 & h3 & m3 & h3' & m3'
        & Ei & Eg1 & Eg2 & _ & _ & Hb1 & _).
  exists h, m, h1, m1, h2, m2, p1, p2.
  split; [exact Ei|]. split; [exact Eg1|]. split; [exact Eg2|].
  intros a Ha. apply (Hb1 a Ha).
Defined.

(** X20. The calls write inside the region only: after [ffit_init], two
    gets and the two frees, in either order, every byte before [mh] and
    from [mh + hs] on is what it was before [ffit_init]. *)
Theorem ffit_writes_inside_region h0 m0 sz1 sz2 :
  0 < ffit.mh h0 -> 32 < ffit.hs h0 < 2 ^ 31 ->
  ffit.mh h0 + ffit.hs h0 < 2 ^ 64 ->
  0 < sz1 -> sz1 + 5 < ffit.hs h0 -> 0 < sz2 -> sz2 + 5 < ffit.hs h0 ->
  ffit_request sz1 + ffit_request sz2 + 32 < ffit.hs h0 ->
  exists h m h1 m1 h2 m2 p1 p2 h3 m3 m4 h3' m3' m4',
    ffit.ffit_init h0 m0 = (h, m, 0)
    /\ ffit.ffit_get_block h m sz1 = Some (h1, m1, p1)
    /\ ffit.ffit_get_block h1 m1 sz2 = Some (h2, m2, p2)
    /\ ffit.ffit_free_block h2 m2 p2 = Some (h3, m3, 0)
    /\ ffit.ffit_free_block h3 m3 p1 = Some (h, m4, 0)
    /\ ffit.ffit_free_block h2 m2 p1 = Some (h3', m3', 0)
    /\ ffit.ffit_free_block h3' m3' p2 = Some (h, m4', 0)
    /\ forall a, a < ffit.mh h0 \/ ffit.mh h0 + ffit.hs h0 <= a ->
         load8 m a = load8 m0 a /\ load8 m1 a = load8 m0 a
         /\ load8 m2 a = load8 m0 a /\ load8 m3 a = load8 m0 a
         /\ load8 m4 a = load8 m0 a /\ load8 m3' a = load8 m0 a
         /\ load8 m4' a = load8 m0 a.
Proof.
  destruct h0 as [mh hs f l]. cbn [ffit.mh ffit.hs].
  intros Hmh Hhs H64 Hsz1 Hlt1 Hsz2 Hlt2 Hfit.
  destruct (ffit_request_small hs Hhs sz1 Hsz1 Hlt1) as (Er1 & Hr1).
  destruct (ffit_pair_run mh hs Hmh Hhs H64 f l m0 sz1 sz2
              Hsz1 Hlt1 Hsz2 Hlt2 Hfit)
    as (m & m1 & m2 & m3 & m4 & f3 & l3 & m3' & m4'
        & Ei & Eg1 & Eg2 & Ef3 & Ef4 & Ef3' & Ef4' & _ & _
        & Hfr0 & Hfr1 & Hfr2 & Hfr3 & Hfr4 & Hfr3' & Hfr4').
  eexists. exists m. eexists. exists m1. eexists. exists m2.
  exists (mh + 4), (mh + 4 + ffit_request sz1).
  eexists. exists m3, m4. eexists. exists m3', m4'.
  split; [exact Ei|]. split; [exact Eg1|]. split; [exact Eg2|].
  split; [exact Ef3|]. split; [exact Ef4|]. split; [exact Ef3'|].
  split; [exact Ef4'|].
  intros a Hout.
  assert (E0 : load8 m a = load8 m0 a) by (apply Hfr0; exact Hout).
  assert (E1 : load8 m1 a = load8 m0 a)
    by (rewrite <- E0; apply Hfr1; exact Hout).
  assert (E2 : load8 m2 a = load8 m0 a)
    by (rewrite <- E1; apply Hfr2; lia).
  assert (E3 : load8 m3 a = load8 m0 a)
    by (rewrite <- E2; apply Hfr3; lia).
  assert (E4 : load8 m4 a = load8 m0 a)
    by (rewrite <- E3; apply Hfr4; exact Hout).
  assert (E3' : load8 m3' a = load8 m0 a)
    by (rewrite <- E2; apply Hfr3'; lia).
  assert (E4' : load8 m4' a = load8 m0 a)
    by (rewrite <- E3'; apply Hfr4'; exact Hout).
  auto 10.
Qed.

Lemma ffit_writes_inside_region_witness :
  (0 < ffit.mh ffit_arena /\ 32 < ffit.hs ffit_arena < 2 ^ 31
   /\ ffit.mh ffit_arena + ffit.hs ffit_arena < 2 ^ 64
   /\ 0 < 27 /\ 27 + 5 < ffit.hs ffit_arena
   /\ 0 < 100 /\ 100 + 5 < ffit.hs ffit_arena
   /\ ffit_request 27 + ffit_request 100 + 32 < ffit.hs ffit_arena)
  /\ exists h m h1 m1 h2 m2 p1 p2,
       ffit.ffit_init ffit_arena zero_mem = (h, m, 0)
       /\ ffit.ffit_get_block h m 27 = Some (h1, m1, p1)
       /\ ffit.ffit_get_block h1 m1 100 = Some (h2, m2, p2)
       /\ forall a,
            a < ffit.mh ffit_arena
            \/ ffit.mh ffit_arena + ffit.hs ffit_arena <= a ->
            load8 m2 a = load8 zero_mem a.
Proof.
  assert (H1 : 0 < ffit.mh ffit_arena) by reflexivity.
  assert (H2 : 32 < ffit.hs ffit_arena < 2 ^ 31) by (cbn; lia).
  assert (H3 : ffit.mh ffit_arena + ffit.hs ffit_arena < 2 ^ 64)
    by (cbn; lia).
  assert (H4 : 0 < 27) by lia.
  assert (H5 : 27 + 5 < ffit.hs ffit_arena) by (cbn; lia).
  assert (H6 : 0 < 100) by lia.
  assert (H7 : 100 + 5 < ffit.hs ffit_arena) by (cbn; lia).
  assert (H8 : ffit_request 27 + ffit_request 100 + 32 < ffit.hs ffit_arena)
    by (vm_compute; reflexivity).
  split; [auto 10|].
  destruct (ffit_writes_inside_region ffit_arena zero_mem 27 100
              H1 H2 H3 H4 H5 H6 H7 H8)
    as (h & m & h1 & m1 & h2 & m2 & p1 & p2 & h3 & m3 & m4 & h3' & m3' & m4'
        & Ei & Eg1 & Eg2 & _ & _ & _ & _ & Hout).
  exists h, m, h1, m1, h2, m2, p1, p2.
  split; [exact Ei|]. split; [exact Eg1|]. split; [exact Eg2|].
  intros a Ha. apply (Hout a Ha).
Defined.

(** ** The emergency heap *)

(** X21. When no list of the main heap can serve a request that passes
    the size gate and the emergency heap is one free block, the request
    is served from the emergency heap, and the free of that pointer is
    handed to the first-fit manager: it answers 0 and the emergency heap
    is one free block again; nothing outside the emergency area is
    written. *)
Theorem buddy_emergency_serves h m sz :
  0 < buddy.mh h -> 0 <= buddy.msize h ->
  buddy.eh h = buddy.mh h + buddy.msize h ->
  32 < buddy.esize h < 2 ^ 31 -> buddy.eh h + buddy.esize h < 2 ^ 64 ->
  buddy.AMAX h < 255 ->
  emergency_free h m ->
  (forall j, buddy.buddy_log2 (buddy_request sz) <= j <= buddy.AMAX h ->
     buddy.ah_get h m j = buddy.NOBLOCK) ->
  0 < sz -> buddy_request sz < buddy.msize h ->
  sz + 5 < buddy.esize h -> ffit_request sz + 32 < buddy.esize h ->
  exists h1 m1 m2,
    buddy.buddy_get_block h m sz = Some (h1, m1, buddy.eh h + 4)
    /\ buddy.buddy_free_block h1 m1 (buddy.eh h + 4) = Some (h, m2, 0)
    /\ emergency_free h m2
    /\ forall a, a < buddy.eh h \/ buddy.eh h + buddy.esize h <= a ->
         load8 m1 a = load8 m a /\ load8 m2 a = load8 m a.
Proof.
  intros Hmh Hms Heh Hes H64 HA (He & Efm & Efs & Hfree) Hemp Hsz Hgate
    Hlt Hfit.
  destruct h as [mh hs e eh ah sh msize asize ssize esize AMAX [fm fs ff fl]].
  cbn [buddy.mh buddy.msize buddy.eh buddy.esize buddy.AMAX buddy.e
       buddy.ffh ffit.mh ffit.hs] in *.
  subst fm fs.
  assert (Hff : ff = 0 /\ fl = 0).
  { destruct Hfree as (Hf & Hl & _). cbn in Hf, Hl. auto. }
  destruct Hff as (-> & ->).
  assert (Heh0 : 0 < eh) by lia.
  apply ffit_one_free_tail in Hfree.
  destruct (ffit_get_block_tail eh esize Heh0 Hes H64 m 0 sz
              ltac:(lia) Hsz Hlt ltac:(lia) Hfree)
    as (m1 & Eg & Ha1 & _ & Hfree1 & Hfr1).
  rewrite Z.add_0_l in Eg, Hfree1. rewrite Z.add_0_r in Eg.
  destruct (ffit_request_small esize Hes sz Hsz Hlt) as (_ & Hr).
  destruct (ffit_freeblock_last eh esize Heh0 Hes H64 m1 0 (ffit_request sz)
              ltac:(lia) ltac:(lia) ltac:(lia) Ha1 (or_introl eq_refl)
              Hfree1)
    as (m2 & Ef & Hfree2 & Hfr2).
  rewrite !Z.add_0_l in Ef.
  eexists. exists m1, m2. split; [|split; [|split; [|]]].
  - unfold buddy.buddy_get_block. fold (buddy_request sz).
    test_true (0 <? sz). cbn [buddy.msize].
    test_true (buddy_request sz <? msize).
    rewrite getblock_exhausted by assumption.
    cbn [obind]. rewrite Z.eqb_refl. cbn [negb buddy.e].
    rewrite (eqb_false_of_neq e 0) by exact He. cbn [negb buddy.ffh].
    rewrite Eg. cbn [obind]. reflexivity.
  - unfold buddy.buddy_free_block, buddy.set_ffh.
    cbn [buddy.mh buddy.msize buddy.eh buddy.esize buddy.e buddy.ffh].
    test_false (eh + 4 <? mh).
    rewrite (u64_small (mh + msize)), (u64_small (mh + msize + esize))
      by lia.
    test_false (mh + msize + esize <=? eh + 4). cbn [orb].
    test_true (eh <=? eh + 4).
    rewrite (eqb_false_of_neq e 0) by exact He. cbn [negb].
    replace (eh + 4) with (eh + 0 + 4) by lia.
    rewrite (ffit_free_block_at eh esize Heh0 Hes H64) by lia.
    rewrite Ef. cbn [obind]. reflexivity.
  - unfold emergency_free. cbn [buddy.e buddy.ffh buddy.eh buddy.esize
                                ffit.mh ffit.hs].
    split; [exact He|]. split; [reflexivity|]. split; [reflexivity|].
    apply ffit_one_free_tail. exact Hfree2.
  - intros a Hout.
    assert (E1 : load8 m1 a = load8 m a) by (apply Hfr1; lia).
    split; [exact E1|]. rewrite <- E1. apply Hfr2. lia.
Qed.

Lemma buddy_emergency_serves_witness :
  let h := fst buddy_emergency in
  let m := snd buddy_emergency in
  (0 < buddy.mh h /\ 0 <= buddy.msize h
   /\ buddy.eh h = buddy.mh h + buddy.msize h
   /\ 32 < buddy.esize h < 2 ^ 31 /\ buddy.eh h + buddy.esize h < 2 ^ 64
   /\ buddy.AMAX h < 255
   /\ emergency_free h m
   /\ (forall j, buddy.buddy_log2 (buddy_request 16) <= j <= buddy.AMAX h ->
         buddy.ah_get h m j = buddy.NOBLOCK)
   /\ 0 < 16 /\ buddy_request 16 < buddy.msize h
   /\ 16 + 5 < buddy.esize h /\ ffit_request 16 + 32 < buddy.esize h)
  /\ exists h1 m1 m2,
       buddy.buddy_get_block h m 16 = Some (h1, m1, buddy.eh h + 4)
       /\ buddy.buddy_free_block h1 m1 (buddy.eh h + 4) = Some (h, m2, 0).
Proof.
  intros h m.
  assert (H1 : 0 < buddy.mh h) by (vm_compute; reflexivity).
  assert (H2 : 0 <= buddy.msize h) by (vm_compute; discriminate).
  assert (H3 : buddy.eh h = buddy.mh h + buddy.msize h)
    by (vm_compute; reflexivity).
  assert (H4 : 32 < buddy.esize h < 2 ^ 31)
    by (split; vm_compute; reflexivity).
  assert (H5 : buddy.eh h + buddy.esize h < 2 ^ 64)
    by (vm_compute; reflexivity).
  assert (H6 : buddy.AMAX h < 255) by (vm_compute; reflexivity).
  assert (H7 : emergency_free h m).
  { split; [vm_compute; discriminate|].
    split; [vm_compute; reflexivity|]. split; [vm_compute; reflexivity|].
    repeat split; vm_compute; reflexivity. }
  assert (H8 : forall j,
             buddy.buddy_log2 (buddy_request 16) <= j <= buddy.AMAX h ->
             buddy.ah_get h m j = buddy.NOBLOCK).
  { intros j Hj.
    assert (E1 : buddy.buddy_log2 (buddy_request 16) = 4)
      by (vm_compute; reflexivity).
    assert (E2 : buddy.AMAX h = 7) by (vm_compute; reflexivity).
    rewrite E1, E2 in Hj.
    assert (Hc : j = 4 \/ j = 5 \/ j = 6 \/ j = 7) by lia.
    destruct Hc as [->|[->|[->| ->]]]; vm_compute; reflexivity. }
  assert (H9 : 0 < 16) by lia.
  assert (H10 : buddy_request 16 < buddy.msize h)
    by (vm_compute; reflexivity).
  assert (H11 : 16 + 5 < buddy.esize h) by (vm_compute; reflexivity).
  assert (H12 : ffit_request 16 + 32 < buddy.esize h)
    by (vm_compute; reflexivity).
  split; [auto 20|].
  destruct (buddy_emergency_serves h m 16
              H1 H2 H3 H4 H5 H6 H7 H8 H9 H10 H11 H12)
    as (h1 & m1 & m2 & Eg & Ef & _).
  exists h1, m1, m2. split; assumption.
Defined.

(** X22. A call on one of two blocks of a buddy arena leaves the bytes of
    the other alone: on a fresh arena without emergency heap and with a
    main heap of at least 32 bytes, for two blocks of one class below the
    top one and a request of at most [2^31] bytes, the first block is the
    same after the second get and after the free of the second block, and
    the second block is the same after the free of the first. *)
Theorem buddy_blocks_isolated h0 m0 A sz :
  0 < buddy.mh h0 -> buddy.mh h0 + 2 ^ 33 <= 2 ^ 64 -> 5 <= A <= 31 ->
  buddy.hs h0 / 2 = 2 ^ A -> buddy.e h0 = 0 ->
  0 < sz <= 2 ^ 31 -> buddy_request sz < 2 ^ A ->
  exists h m m1 m2 m3 m3',
    buddy.buddy_init h0 m0 = Some (h, m, buddy.OK)
    /\ buddy.buddy_get_block h m sz = Some (h, m1, buddy.mh h)
    /\ buddy.buddy_get_block h m1 sz
       = Some (h, m2, buddy.mh h + buddy_request sz)
    /\ buddy.buddy_free_block h m2 (buddy.mh h + buddy_request sz)
       = Some (h, m3, buddy.OK)
    /\ buddy.buddy_free_block h m2 (buddy.mh h) = Some (h, m3', buddy.OK)
    /\ (forall a, buddy.mh h <= a < buddy.mh h + buddy_request sz ->
          load8 m2 a = load8 m1 a /\ load8 m3 a = load8 m1 a)
    /\ (forall a,
          buddy.mh h + buddy_request sz <= a
          < buddy.mh h + 2 * buddy_request sz ->
          load8 m3' a = load8 m2 a).
Proof.
  intros Hmh Hhi HA5 Hhs He Hsz Hgate.
  assert (HA : 3 <= A <= 31) by lia.
  destruct (buddy_init_split_down h0 m0 A Hmh Hhi HA Hhs He)
    as (h & m & Ei & Emh & HL & HF & Ht).
  pose proof HL as (HA3 & HAM & Hms & Hmh' & Hah & Hsh & H64).
  destruct (buddy_request_class sz A Hsz HA Hgate) as (k & Hk & Ek & _).
  destruct (buddy_get_block_first h A m sz k HL Ht ltac:(lia) Hk Ek)
    as (m1 & Eg & Hh).
  destruct (getblock_pair h A HL m1 k Hk Hh) as (m2 & Eg2 & Hp & Hfr2).
  destruct (pow2_block h A HL k Hk) as (Hp8 & Hp2 & Hp31).
  destruct (freeblock_second_of_pair h A HL m2 k Hk Hp)
    as (m3 & Ef3 & _ & Hfr3).
  destruct (freeblock_first_of_pair h A HL m2 k Hk Hp)
    as (m3' & Ef3' & _ & Hfr3').
  exists h, m, m1, m2, m3, m3'. rewrite Ek.
  split; [exact Ei|]. split; [exact Eg|].
  split; [|split; [|split; [|split]]].
  - rewrite buddy_get_block_searches by (rewrite ?Ek, ?Hms; lia).
    rewrite Ek, Eg2. cbn [obind].
    rewrite (eqb_false_of_neq (2 ^ k) buddy.NOBLOCK)
      by (unfold buddy.NOBLOCK; lia).
    cbn [negb]. rewrite (block2ptr_heap h A HL) by lia.
    reflexivity.
  - rewrite (buddy_free_block_main h A) by (try assumption; lia).
    rewrite Ef3. reflexivity.
  - rewrite (buddy_free_block_start h A) by assumption.
    rewrite Ef3'. reflexivity.
  - intros a Ha.
    assert (E2 : load8 m2 a = load8 m1 a) by (apply Hfr2; lia).
    split; [exact E2|]. rewrite <- E2. apply Hfr3. lia.
  - intros a Ha. apply Hfr3'.
    assert (Hd : 2 ^ (k + 1) = 2 * 2 ^ k)
      by (rewrite Z.pow_add_r by lia; lia).
    assert (Hle : 2 ^ (k + 1) <= 2 ^ A)
      by (apply Z.pow_le_mono_r; lia).
    lia.
Qed.

Lemma buddy_blocks_isolated_witness :
  let h0 := buddy_arena 0x200000 0 in
  (0 < buddy.mh h0 /\ buddy.mh h0 + 2 ^ 33 <= 2 ^ 64 /\ 5 <= 20 <= 31
   /\ buddy.hs h0 / 2 = 2 ^ 20 /\ buddy.e h0 = 0
   /\ 0 < 100 <= 2 ^ 31 /\ buddy_request 100 < 2 ^ 20)
  /\ exists h m m1 m2,
       buddy.buddy_init h0 zero_mem = Some (h, m, buddy.OK)
       /\ buddy.buddy_get_block h m 100 = Some (h, m1, buddy.mh h)
       /\ buddy.buddy_get_block h m1 100
          = Some (h, m2, buddy.mh h + buddy_request 100)
       /\ forall a, buddy.mh h <= a < buddy.mh h + buddy_request 100 ->
            load8 m2 a = load8 m1 a.
Proof.
  intros h0.
  assert (H1 : 0 < buddy.mh h0) by reflexivity.
  assert (H2 : buddy.mh h0 + 2 ^ 33 <= 2 ^ 64) by (cbn; lia).
  assert (H3 : 5 <= 20 <= 31) by lia.
  assert (H4 : buddy.hs h0 / 2 = 2 ^ 20) by reflexivity.
  assert (H5 : buddy.e h0 = 0) by reflexivity.
  assert (H6 : 0 < 100 <= 2 ^ 31) by lia.
  assert (H7 : buddy_request 100 < 2 ^ 20)
    by (apply Z.ltb_lt; vm_compute; reflexivity).
  split; [auto 10|].
  destruct (buddy_blocks_isolated h0 zero_mem 20 100 H1 H2 H3 H4 H5 H6 H7)
    as (h & m & m1 & m2 & m3 & m3' & Ei & Eg & Eg2 & _ & _ & Hb1 & _).
  exists h, m, m1, m2.
  split; [exact Ei|]. split; [exact Eg|]. split; [exact Eg2|].
  intros a Ha. apply (Hb1 a Ha).
Defined.
